(** * BMC side of the IPMI SSIF interface (ssif_bmc)

    A shallow embedding of the SSIF byte-event state machine, of the
    response segmentation (Read Start / Middle / End) and of the
    request/response exchange point, followed by the properties of the
    driver that the specification states.

    Conventions.
    - A [u8] is a [Z] in [0, 256); every C expression that is assigned to a
      [u8] object is reduced with [u8].  [size_t] is 32 bits wide on the
      ASPEED SoCs this driver is written for; assignments to the cursor are
      reduced with [size_t].
    - [struct ssif_msg] is [__packed] and made of bytes only, so its byte
      view (the struct address cast to a byte pointer) is the list
      [msg_bytes].
    - An access outside the object that is indexed (undefined behaviour in
      C) makes the handler return [None]. *)

From Stdlib Require Import ZArith Lia Bool List.
From stdpp Require Import base tactics option list.
Import ListNotations.
Open Scope Z_scope.

(** ** Error monad for out-of-object accesses *)

Notation "'do' x <- m ; k" := (match m with Some x => k | None => None end)
  (at level 10, x name, m at level 100, k at level 200).
Notation "'do' ' p <- m ; k" := (match m with Some p => k | None => None end)
  (at level 10, p pattern, m at level 100, k at level 200).

(** ** Constants of the driver *)

Definition MSG_PAYLOAD_LEN_MAX : Z := 252.
Definition MAX_PAYLOAD_PER_TRANSACTION : Z := 32.
Definition MAX_IPMI_DATA_PER_START_TRANSACTION : Z := 30.
Definition MAX_IPMI_DATA_PER_MIDDLE_TRANSACTION : Z := 31.

Definition SSIF_IPMI_REQUEST : Z := 2.
Definition SSIF_IPMI_MULTI_PART_REQUEST_START : Z := 6.
Definition SSIF_IPMI_MULTI_PART_REQUEST_MIDDLE : Z := 7.
Definition SSIF_IPMI_RESPONSE : Z := 3.
Definition SSIF_IPMI_MULTI_PART_RESPONSE_MIDDLE : Z := 9.

(** [BIT(n)] is [1UL << n]. *)
Definition BIT (n : Z) : Z := Z.shiftl 1 n.
Definition ASPEED_I2CD_INTR_SLAVE_MATCH : Z := BIT 7.
Definition ASPEED_I2CD_INTR_RX_DONE : Z := BIT 2.

(** ** Machine integers *)

Definition u8 (x : Z) : Z := x mod 256.
Definition u32 (x : Z) : Z := x mod 2 ^ 32.
Definition size_t (x : Z) : Z := x mod 2 ^ 32.
Definition SIZE_MAX : Z := 2 ^ 32 - 1.

(** ** struct ssif_msg *)

Record ssif_msg : Type := Build_ssif_msg {
  len : Z;
  netfn_lun : Z;
  cmd : Z;
  payload : list Z
}.

(** [sizeof(struct ssif_msg)]: three header bytes and the payload array. *)
Definition sizeof_ssif_msg : Z := 3 + MSG_PAYLOAD_LEN_MAX.

Definition ssif_msg_len (m : ssif_msg) : Z := u32 (len m + 1).

(** The byte view of the packed struct: its address cast to a byte pointer. *)
Definition msg_bytes (m : ssif_msg) : list Z :=
  len m :: netfn_lun m :: cmd m :: payload m.

(** [payload] has [MSG_PAYLOAD_LEN_MAX] cells. *)
Definition wf_msg (m : ssif_msg) : Prop :=
  length (payload m) = Z.to_nat MSG_PAYLOAD_LEN_MAX.

(** [buf[i]] read through the byte view; outside the struct: [None]. *)
Definition msg_load (m : ssif_msg) (i : Z) : option Z :=
  if decide (0 <= i) then msg_bytes m !! Z.to_nat i else None.

Definition msg_store_nat (m : ssif_msg) (i : nat) (v : Z) : ssif_msg :=
  match i with
  | O => Build_ssif_msg v (netfn_lun m) (cmd m) (payload m)
  | S O => Build_ssif_msg (len m) v (cmd m) (payload m)
  | S (S O) => Build_ssif_msg (len m) (netfn_lun m) v (payload m)
  | S (S (S j)) =>
      Build_ssif_msg (len m) (netfn_lun m) (cmd m) (<[j := v]> (payload m))
  end.

(** [buf[i] = v] through the byte view; outside the struct: [None]. *)
Definition msg_store (m : ssif_msg) (i : Z) (v : Z) : option ssif_msg :=
  if decide (0 <= i < Z.of_nat (length (msg_bytes m)))
  then Some (msg_store_nat m (Z.to_nat i) v)
  else None.

(** [memset(&msg, 0, sizeof(struct ssif_msg))] *)
Definition zero_msg : ssif_msg :=
  Build_ssif_msg 0 0 0 (replicate (Z.to_nat MSG_PAYLOAD_LEN_MAX) 0).

(** ** Plain byte arrays *)

(** [a[i]] *)
Definition arr_load (a : list Z) (i : Z) : option Z :=
  if decide (0 <= i) then a !! Z.to_nat i else None.

(** [a[i] = v] *)
Definition arr_store (a : list Z) (i : Z) (v : Z) : option (list Z) :=
  if decide (0 <= i < Z.of_nat (length a))
  then Some (<[Z.to_nat i := v]> a)
  else None.

(** The [n] bytes read by [memcpy(_, a + off, n)]. *)
Definition arr_read (a : list Z) (off n : Z) : option (list Z) :=
  if decide (0 <= off /\ 0 <= n /\ off + n <= Z.of_nat (length a))
  then Some (take (Z.to_nat n) (drop (Z.to_nat off) a))
  else None.

(** The array after [memcpy(a + off, d, length d)]. *)
Definition arr_write (a : list Z) (off : Z) (d : list Z) : option (list Z) :=
  if decide (0 <= off /\ off + Z.of_nat (length d) <= Z.of_nat (length a))
  then Some (take (Z.to_nat off) a ++ d
             ++ drop (Z.to_nat off + length d) a)
  else None.

(** ** The I2C bus engine, as far as the driver drives it *)

(** Content of the register at [base + ASPEED_I2C_INTR_CTRL_REG]. *)
Record aspeed_i2c_bus : Type := Build_aspeed_i2c_bus {
  intr_ctrl_reg : Z
}.

Definition aspeed_i2c_disable_interrupt (bus : aspeed_i2c_bus) (mask : Z)
  : aspeed_i2c_bus :=
  let current_mask := intr_ctrl_reg bus in
  Build_aspeed_i2c_bus (u32 (Z.land current_mask (Z.lnot mask))).

Definition aspeed_i2c_disable_slave (bus : aspeed_i2c_bus) : aspeed_i2c_bus :=
  let bus := aspeed_i2c_disable_interrupt bus ASPEED_I2CD_INTR_RX_DONE in
  aspeed_i2c_disable_interrupt bus ASPEED_I2CD_INTR_SLAVE_MATCH.

Definition aspeed_i2c_enable_interrupt (bus : aspeed_i2c_bus) (mask : Z)
  : aspeed_i2c_bus :=
  let current_mask := intr_ctrl_reg bus in
  Build_aspeed_i2c_bus (u32 (Z.lor current_mask mask)).

Definition aspeed_i2c_enable_slave (bus : aspeed_i2c_bus) : aspeed_i2c_bus :=
  let bus := aspeed_i2c_enable_interrupt bus ASPEED_I2CD_INTR_RX_DONE in
  aspeed_i2c_enable_interrupt bus ASPEED_I2CD_INTR_SLAVE_MATCH.

(** Slave mode listens when both interrupt sources are enabled. *)
Definition slave_listening (bus : aspeed_i2c_bus) : bool :=
  Z.testbit (intr_ctrl_reg bus) 2 && Z.testbit (intr_ctrl_reg bus) 7.

(** ** struct ssif_bmc *)

(** [wait_queue] counts the [wake_up_all] broadcasts issued on the wait
    queue; [klog] collects the command codes reported by [pr_err]. *)
Record ssif_bmc : Type := Build_ssif_bmc {
  i2c_bus : aspeed_i2c_bus;
  smbus_cmd : Z;
  request : ssif_msg;
  request_available : bool;
  response : ssif_msg;
  response_in_progress : bool;
  response_buffer : list Z;
  is_multi_part : bool;
  middle_start_response : bool;
  num_bytes_processed : Z;
  remain_data_len : Z;
  block_num : Z;
  msg_idx : Z;
  wait_queue : nat;
  klog : list Z
}.

Definition with_i2c_bus (s : ssif_bmc) (x : aspeed_i2c_bus) : ssif_bmc :=
  Build_ssif_bmc x (smbus_cmd s) (request s) (request_available s)
    (response s) (response_in_progress s) (response_buffer s)
    (is_multi_part s) (middle_start_response s) (num_bytes_processed s)
    (remain_data_len s) (block_num s) (msg_idx s) (wait_queue s) (klog s).

Definition with_smbus_cmd (s : ssif_bmc) (x : Z) : ssif_bmc :=
  Build_ssif_bmc (i2c_bus s) x (request s) (request_available s)
    (response s) (response_in_progress s) (response_buffer s)
    (is_multi_part s) (middle_start_response s) (num_bytes_processed s)
    (remain_data_len s) (block_num s) (msg_idx s) (wait_queue s) (klog s).

Definition with_request (s : ssif_bmc) (x : ssif_msg) : ssif_bmc :=
  Build_ssif_bmc (i2c_bus s) (smbus_cmd s) x (request_available s)
    (response s) (response_in_progress s) (response_buffer s)
    (is_multi_part s) (middle_start_response s) (num_bytes_processed s)
    (remain_data_len s) (block_num s) (msg_idx s) (wait_queue s) (klog s).

Definition with_request_available (s : ssif_bmc) (x : bool) : ssif_bmc :=
  Build_ssif_bmc (i2c_bus s) (smbus_cmd s) (request s) x
    (response s) (response_in_progress s) (response_buffer s)
    (is_multi_part s) (middle_start_response s) (num_bytes_processed s)
    (remain_data_len s) (block_num s) (msg_idx s) (wait_queue s) (klog s).

Definition with_response (s : ssif_bmc) (x : ssif_msg) : ssif_bmc :=
  Build_ssif_bmc (i2c_bus s) (smbus_cmd s) (request s) (request_available s)
    x (response_in_progress s) (response_buffer s)
    (is_multi_part s) (middle_start_response s) (num_bytes_processed s)
    (remain_data_len s) (block_num s) (msg_idx s) (wait_queue s) (klog s).

Definition with_response_in_progress (s : ssif_bmc) (x : bool) : ssif_bmc :=
  Build_ssif_bmc (i2c_bus s) (smbus_cmd s) (request s) (request_available s)
    (response s) x (response_buffer s)
    (is_multi_part s) (middle_start_response s) (num_bytes_processed s)
    (remain_data_len s) (block_num s) (msg_idx s) (wait_queue s) (klog s).

Definition with_response_buffer (s : ssif_bmc) (x : list Z) : ssif_bmc :=
  Build_ssif_bmc (i2c_bus s) (smbus_cmd s) (request s) (request_available s)
    (response s) (response_in_progress s) x
    (is_multi_part s) (middle_start_response s) (num_bytes_processed s)
    (remain_data_len s) (block_num s) (msg_idx s) (wait_queue s) (klog s).

Definition with_is_multi_part (s : ssif_bmc) (x : bool) : ssif_bmc :=
  Build_ssif_bmc (i2c_bus s) (smbus_cmd s) (request s) (request_available s)
    (response s) (response_in_progress s) (response_buffer s)
    x (middle_start_response s) (num_bytes_processed s)
    (remain_data_len s) (block_num s) (msg_idx s) (wait_queue s) (klog s).

Definition with_middle_start_response (s : ssif_bmc) (x : bool) : ssif_bmc :=
  Build_ssif_bmc (i2c_bus s) (smbus_cmd s) (request s) (request_available s)
    (response s) (response_in_progress s) (response_buffer s)
    (is_multi_part s) x (num_bytes_processed s)
    (remain_data_len s) (block_num s) (msg_idx s) (wait_queue s) (klog s).

Definition with_num_bytes_processed (s : ssif_bmc) (x : Z) : ssif_bmc :=
  Build_ssif_bmc (i2c_bus s) (smbus_cmd s) (request s) (request_available s)
    (response s) (response_in_progress s) (response_buffer s)
    (is_multi_part s) (middle_start_response s) x
    (remain_data_len s) (block_num s) (msg_idx s) (wait_queue s) (klog s).

Definition with_remain_data_len (s : ssif_bmc) (x : Z) : ssif_bmc :=
  Build_ssif_bmc (i2c_bus s) (smbus_cmd s) (request s) (request_available s)
    (response s) (response_in_progress s) (response_buffer s)
    (is_multi_part s) (middle_start_response s) (num_bytes_processed s)
    x (block_num s) (msg_idx s) (wait_queue s) (klog s).

Definition with_block_num (s : ssif_bmc) (x : Z) : ssif_bmc :=
  Build_ssif_bmc (i2c_bus s) (smbus_cmd s) (request s) (request_available s)
    (response s) (response_in_progress s) (response_buffer s)
    (is_multi_part s) (middle_start_response s) (num_bytes_processed s)
    (remain_data_len s) x (msg_idx s) (wait_queue s) (klog s).

Definition with_msg_idx (s : ssif_bmc) (x : Z) : ssif_bmc :=
  Build_ssif_bmc (i2c_bus s) (smbus_cmd s) (request s) (request_available s)
    (response s) (response_in_progress s) (response_buffer s)
    (is_multi_part s) (middle_start_response s) (num_bytes_processed s)
    (remain_data_len s) (block_num s) x (wait_queue s) (klog s).

(** Modelled from the spec: the kernel's [wake_up_all] is not part of the
    driver.  [wake_up_all(&ssif_bmc->wait_queue)] is a broadcast wake of
    all waiters on the readiness condition; the model counts the
    broadcasts. *)
Definition wake_up_all (s : ssif_bmc) : ssif_bmc :=
  Build_ssif_bmc (i2c_bus s) (smbus_cmd s) (request s) (request_available s)
    (response s) (response_in_progress s) (response_buffer s)
    (is_multi_part s) (middle_start_response s) (num_bytes_processed s)
    (remain_data_len s) (block_num s) (msg_idx s) (S (wait_queue s)) (klog s).

(** Modelled from the spec: the kernel's [pr_err] is not part of the
    driver.  An unexpected SMBus command is a logged protocol error; the
    model appends the reported command code to [klog]. *)
Definition pr_err (s : ssif_bmc) (c : Z) : ssif_bmc :=
  Build_ssif_bmc (i2c_bus s) (smbus_cmd s) (request s) (request_available s)
    (response s) (response_in_progress s) (response_buffer s)
    (is_multi_part s) (middle_start_response s) (num_bytes_processed s)
    (remain_data_len s) (block_num s) (msg_idx s) (wait_queue s)
    (klog s ++ [c]).

(** ** Request completion and response completion *)

(** Called with [ssif_bmc->lock] held. *)
Definition handle_request (s : ssif_bmc) : ssif_bmc :=
  let s := with_i2c_bus s (aspeed_i2c_disable_slave (i2c_bus s)) in
  let s := with_request_available s true in
  let s := with_response s zero_msg in
  wake_up_all s.

(** Called with [ssif_bmc->lock] held. *)
Definition complete_response (s : ssif_bmc) : ssif_bmc :=
  let s := with_response s (Build_ssif_msg 0 (netfn_lun (response s))
                              (cmd (response s)) (payload (response s))) in
  let s := with_response_in_progress s false in
  let s := with_num_bytes_processed s 0 in
  let s := with_remain_data_len s 0 in
  let s := with_response_buffer s
             (replicate (Z.to_nat MAX_PAYLOAD_PER_TRANSACTION) 0) in
  wake_up_all s.

(** ** Response segmentation *)

Definition set_response_buffer (s : ssif_bmc) : option ssif_bmc :=
  if smbus_cmd s =? SSIF_IPMI_RESPONSE then
    do b <- arr_store (response_buffer s) 0 0x00 ;
    do b <- arr_store b 1 0x01 ;
    do b <- arr_store b 2 (netfn_lun (response s)) ;
    do b <- arr_store b 3 (cmd (response s)) ;
    do p0 <- arr_load (payload (response s)) 0 ;
    do b <- arr_store b 4 p0 ;
    let response_data_len := u8 (MAX_PAYLOAD_PER_TRANSACTION - 5) in
    do d <- arr_read (payload (response s)) 1 response_data_len ;
    do b <- arr_write b 5 d ;
    let s := with_response_buffer s b in
    Some (with_num_bytes_processed s
            (u8 (num_bytes_processed s + response_data_len)))
  else if smbus_cmd s =? SSIF_IPMI_MULTI_PART_RESPONSE_MIDDLE then
    do b <- arr_store (response_buffer s) 0 (block_num s) ;
    let response_data_len :=
      if remain_data_len s <? MAX_IPMI_DATA_PER_MIDDLE_TRANSACTION
      then remain_data_len s
      else MAX_IPMI_DATA_PER_MIDDLE_TRANSACTION in
    do d <- arr_read (payload (response s))
              (1 + num_bytes_processed s) response_data_len ;
    do b <- arr_write b 1 d ;
    let s := with_response_buffer s b in
    Some (with_num_bytes_processed s
            (u8 (num_bytes_processed s + response_data_len)))
  else
    let s := pr_err s (smbus_cmd s) in
    Some (with_num_bytes_processed s (u8 (num_bytes_processed s + 0))).

(** [val] is the byte the caller holds in [*val] on entry; the result
    carries the byte held there on return. *)
Definition event_request_read (s : ssif_bmc) (val : Z)
  : option (ssif_bmc * Z) :=
  let data_len := len (response s) in
  if negb (is_multi_part s) then
    do b <- msg_load (response s) (msg_idx s) ;
    if b =? 0 then Some (s, 0x1) else Some (s, b)
  else
    let '(s, val) :=
      if smbus_cmd s =? SSIF_IPMI_RESPONSE then
        let s := with_remain_data_len s
                   (u8 (data_len - MAX_IPMI_DATA_PER_START_TRANSACTION)) in
        let s := with_block_num s 0 in
        let s := if remain_data_len s >? MAX_IPMI_DATA_PER_MIDDLE_TRANSACTION
                 then with_middle_start_response s true else s in
        (s, MAX_PAYLOAD_PER_TRANSACTION)
      else if smbus_cmd s =? SSIF_IPMI_MULTI_PART_RESPONSE_MIDDLE then
        if remain_data_len s <=? MAX_IPMI_DATA_PER_MIDDLE_TRANSACTION then
          let val := u8 (remain_data_len s + 1) in
          (with_block_num s 0xFF, val)
        else
          let s := if negb (middle_start_response s)
                   then with_block_num s (u8 (block_num s + 1))
                   else with_middle_start_response (with_block_num s 0) false in
          let s := with_remain_data_len s
                     (u8 (remain_data_len s
                          - MAX_IPMI_DATA_PER_MIDDLE_TRANSACTION)) in
          (s, MAX_PAYLOAD_PER_TRANSACTION)
      else (pr_err s (smbus_cmd s), val) in
    do s <- set_response_buffer s ;
    Some (s, val).

Definition event_process_read (s : ssif_bmc) (val : Z)
  : option (ssif_bmc * Z) :=
  if negb (is_multi_part s) then
    do '(s, val) <-
      (if negb (len (response s) =? 0)
          && (msg_idx s <? ssif_msg_len (response s))
       then
         let s := with_msg_idx s (size_t (msg_idx s + 1)) in
         do b <- msg_load (response s) (msg_idx s) ;
         Some (s, b)
       else Some (s, 0)) ;
    if size_t (msg_idx s + 1) >=? ssif_msg_len (response s)
    then Some (complete_response s, val)
    else Some (s, val)
  else
    do '(s, val) <-
      (if (smbus_cmd s =? SSIF_IPMI_RESPONSE)
          || (smbus_cmd s =? SSIF_IPMI_MULTI_PART_RESPONSE_MIDDLE)
       then
         do b <- arr_load (response_buffer s) (msg_idx s) ;
         Some (with_msg_idx s (size_t (msg_idx s + 1)), b)
       else Some (pr_err s (smbus_cmd s), val)) ;
    if (block_num s =? 0xFF) && (msg_idx s >? remain_data_len s)
    then Some (complete_response s, val)
    else Some (s, val).

(** ** The I2C slave callback *)

(** Modelled from the spec: [enum i2c_slave_event] is declared in
    linux/i2c.h, not in the driver.  Its event kinds are the five that
    [ssif_bmc_cb] lists and dispatches on. *)
Inductive i2c_slave_event : Type :=
  | I2C_SLAVE_READ_REQUESTED
  | I2C_SLAVE_WRITE_REQUESTED
  | I2C_SLAVE_READ_PROCESSED
  | I2C_SLAVE_WRITE_RECEIVED
  | I2C_SLAVE_STOP.

Definition ssif_bmc_cb (s : ssif_bmc) (event : i2c_slave_event) (val : Z)
  : option (ssif_bmc * Z) :=
  match event with
  | I2C_SLAVE_READ_REQUESTED =>
      let s := with_msg_idx s 0 in
      event_request_read s val
  | I2C_SLAVE_WRITE_REQUESTED =>
      Some (with_msg_idx s 0, val)
  | I2C_SLAVE_READ_PROCESSED =>
      event_process_read s val
  | I2C_SLAVE_WRITE_RECEIVED =>
      if msg_idx s =? 0 then
        let s := with_smbus_cmd s val in
        Some (with_msg_idx s (size_t (msg_idx s + 1)), val)
      else
        if msg_idx s >=? sizeof_ssif_msg then Some (s, val)
        else
          do r <- msg_store (request s) (msg_idx s - 1) val ;
          let s := with_request s r in
          let s := with_msg_idx s (size_t (msg_idx s + 1)) in
          if size_t (msg_idx s - 1) >=? ssif_msg_len (request s)
          then Some (handle_request s, val)
          else Some (s, val)
  | I2C_SLAVE_STOP =>
      Some (with_msg_idx s 0, val)
  end.

(** ** Request/response exchange point *)

(** Modelled from the spec: the error codes come from linux/errno.h.
    [EAGAIN] is the would-block failure of a non-blocking call,
    [ERESTARTSYS] the failure of an interrupted wait. *)
Inductive errno : Type := EAGAIN | ERESTARTSYS.

(** What a call hands back: [Ret0] is [return 0], [RetErr e] is
    [return -e], [Sleeping] is a caller parked on the wait queue. *)
Inductive retval : Type :=
  | Ret0
  | RetErr (e : errno)
  | Sleeping.

(** Modelled from the spec: the kernel macro [wait_event_interruptible]
    is not part of the driver.  The caller is suspended until the condition
    holds or the wait is interrupted; an interrupted wait fails. *)
Definition wait_event_interruptible (condition signal_pending : bool)
  : retval :=
  if condition then Ret0
  else if signal_pending then RetErr ERESTARTSYS
  else Sleeping.

(** Call in READ context.  [request_out] is the caller's [*request]. *)
Definition receive_ssif_bmc_request (s : ssif_bmc)
    (non_blocking signal_pending : bool) (request_out : ssif_msg)
  : retval * ssif_msg * ssif_bmc :=
  let res := if negb non_blocking
             then wait_event_interruptible (request_available s)
                    signal_pending
             else Ret0 in
  match res with
  | Ret0 =>
      if negb (request_available s) then
        if non_blocking then (RetErr EAGAIN, request_out, s)
        else (Sleeping, request_out, s)
      else
        (Ret0, request s, with_request_available s false)
  | _ => (res, request_out, s)
  end.

(** Call in WRITE context. *)
Definition send_ssif_bmc_response (s : ssif_bmc)
    (non_blocking signal_pending : bool) (resp : ssif_msg)
  : retval * ssif_bmc :=
  let res := if negb non_blocking
             then wait_event_interruptible (negb (response_in_progress s))
                    signal_pending
             else Ret0 in
  match res with
  | Ret0 =>
      if response_in_progress s then
        if non_blocking then (RetErr EAGAIN, s)
        else (Sleeping, s)
      else
        let s := with_response s resp in
        let s := with_response_in_progress s true in
        let s :=
          if ssif_msg_len (response s) >? MAX_PAYLOAD_PER_TRANSACTION + 1
          then with_is_multi_part s true
          else with_is_multi_part s false in
        (Ret0, s)
  | _ => (res, s)
  end.

(** The part of [ssif_bmc_write] that follows a successful submission. *)
Definition ssif_bmc_write_reenable (s : ssif_bmc) : ssif_bmc :=
  with_i2c_bus s (aspeed_i2c_enable_slave (i2c_bus s)).

(** [ssif_bmc_probe]: the context is allocated zeroed ([devm_kzalloc]) and
    attached to the bus of the client's adapter. *)
Definition ssif_bmc_probe (bus : aspeed_i2c_bus) : ssif_bmc :=
  Build_ssif_bmc bus 0 zero_msg false zero_msg false
    (replicate (Z.to_nat MAX_PAYLOAD_PER_TRANSACTION) 0)
    false false 0 0 0 0 O [].

(** ** The character device: read, write and poll

    [file_mutex] serialises the calls and is not modelled: the calls are
    run one after the other. *)

(** [ssize_t] is the signed integer of the width of [size_t]. *)
Definition ssize_t (x : Z) : Z :=
  let y := x mod 2 ^ 32 in
  if y <? 2 ^ 31 then y else y - 2 ^ 32.

Definition SSIZE_MAX : Z := 2 ^ 31 - 1.

(** The struct whose byte view is [l]. *)
Definition msg_of_bytes (l : list Z) : ssif_msg :=
  Build_ssif_msg (nth 0 l 0) (nth 1 l 0) (nth 2 l 0) (drop 3 l).

(** Modelled from the spec: the error codes come from linux/errno.h.
    [EINVAL] rejects a malformed submission, [EFAULT] reports a user buffer
    that cannot be accessed; [Errno] carries an error of the exchange
    point. *)
Inductive file_errno : Type :=
  | EINVAL
  | EFAULT
  | Errno (e : errno).

(** What [read] and [write] hand back: [Count n] is [return n], [Fail e]
    is [return -e], [Parked] is a caller asleep on the wait queue. *)
Inductive ssize_ret : Type :=
  | Count (n : Z)
  | Fail (e : file_errno)
  | Parked.

(** Modelled from the spec: the kernel's [copy_from_user] is not part of
    the driver.  [ubuf] lists the bytes readable at the user address; the
    copy of [count] bytes over the start of [dst] succeeds when that many
    bytes are readable, and fails ([None], a nonzero result) otherwise.
    The caller has checked that [count] does not exceed the size of [dst]. *)
Definition copy_from_user (dst : ssif_msg) (ubuf : list Z) (count : Z)
  : option ssif_msg :=
  if decide (0 <= count <= Z.of_nat (length ubuf))
  then
    do b <- arr_write (msg_bytes dst) 0 (take (Z.to_nat count) ubuf) ;
    Some (msg_of_bytes b)
  else None.

(** Modelled from the spec: the kernel's [copy_to_user] is not part of the
    driver.  [uroom] is the number of bytes writable at the user address;
    the copy of the first [count] bytes of [src] succeeds when that many
    bytes are writable and delivers them, and fails ([inr tt], a nonzero
    result) otherwise.  Reading [src] beyond the struct is an access
    outside the object ([None]). *)
Definition copy_to_user (uroom : Z) (src : ssif_msg) (count : Z)
  : option (list Z + unit) :=
  if count <=? uroom
  then do d <- arr_read (msg_bytes src) 0 count ; Some (inl d)
  else Some (inr tt).

(** Handle SSIF message that will be sent to user.  [msg] is the content
    of the local [struct ssif_msg msg] on entry; the result carries the
    bytes delivered to the user buffer. *)
Definition ssif_bmc_read (s : ssif_bmc) (o_nonblock signal_pending : bool)
    (msg : ssif_msg) (uroom count : Z)
  : option (ssize_ret * list Z * ssif_bmc) :=
  let '(ret, msg, s) :=
    receive_ssif_bmc_request s o_nonblock signal_pending msg in
  match ret with
  | RetErr e => Some (Fail (Errno e), [], s)
  | Sleeping => Some (Parked, [], s)
  | Ret0 =>
      let count :=
        size_t (Z.min (ssize_t count) (ssize_t (ssif_msg_len msg))) in
      do r <- copy_to_user uroom msg count ;
      match r with
      | inl d => Some (Count (ssize_t count), d, s)
      | inr _ => Some (Fail EFAULT, [], s)
      end
  end.

(** Handle SSIF message that is written by user.  [msg] is the content of
    the local [struct ssif_msg msg] on entry. *)
Definition ssif_bmc_write (s : ssif_bmc) (o_nonblock signal_pending : bool)
    (msg : ssif_msg) (ubuf : list Z) (count : Z)
  : ssize_ret * ssif_bmc :=
  if count >? sizeof_ssif_msg then (Fail EINVAL, s)
  else
    match copy_from_user msg ubuf count with
    | None => (Fail EINVAL, s)
    | Some msg =>
        if count <? ssif_msg_len msg then (Fail EINVAL, s)
        else
          let '(ret, s) :=
            send_ssif_bmc_response s o_nonblock signal_pending msg in
          match ret with
          | RetErr e => (Fail (Errno e), s)
          | Sleeping => (Parked, s)
          | Ret0 => (Count (ssize_t count), ssif_bmc_write_reenable s)
          end
    end.

(** Modelled from the spec: [POLLIN] comes from the kernel's poll
    definitions; it is the readiness bit for "a request can be read". *)
Definition POLLIN : Z := 0x0001.

Definition ssif_bmc_poll (s : ssif_bmc) : Z :=
  let mask := 0 in
  if request_available s then Z.lor mask POLLIN else mask.

(** ** Driving the callback with the events of a bus transaction

    The bus engine calls [ssif_bmc_cb] once per byte event.  The functions
    below play the master: they deliver the events of SMBus transactions to
    the callback and collect the bytes it supplies.  Events are delivered
    whatever the interrupt mask says; masking is the business of the bus
    engine. *)

(** The bytes the slave puts on the wire: the results of the read events. *)
Definition emitted (event : i2c_slave_event) (val : Z) : list Z :=
  match event with
  | I2C_SLAVE_READ_REQUESTED | I2C_SLAVE_READ_PROCESSED => [val]
  | _ => []
  end.

Fixpoint run (s : ssif_bmc) (evs : list (i2c_slave_event * Z))
  : option (ssif_bmc * list Z) :=
  match evs with
  | [] => Some (s, [])
  | (e, v) :: evs =>
      do '(s, o) <- ssif_bmc_cb s e v ;
      do '(s, os) <- run s evs ;
      Some (s, emitted e o ++ os)
  end.

(** The master writes the SMBus command [c] followed by [bytes]. *)
Definition smbus_write (c : Z) (bytes : list Z)
  : list (i2c_slave_event * Z) :=
  (I2C_SLAVE_WRITE_REQUESTED, 0)
    :: map (fun b => (I2C_SLAVE_WRITE_RECEIVED, b)) (c :: bytes).

(** [n] acknowledged bytes after the first byte of a read. *)
Definition read_processed (n : nat) : list (i2c_slave_event * Z) :=
  replicate n (I2C_SLAVE_READ_PROCESSED, 0).

(** An SMBus block read with command [c]: the master writes the command,
    restarts in read direction, takes the byte count from the first byte
    and reads that many data bytes.  The result is the state after the
    stop condition, the byte count and the data bytes. *)
Definition smbus_block_read (s : ssif_bmc) (c : Z)
  : option (ssif_bmc * Z * list Z) :=
  do '(s, _) <- run s (smbus_write c []) ;
  do '(s, count) <- ssif_bmc_cb s I2C_SLAVE_READ_REQUESTED 0 ;
  do '(s, data) <- run s (read_processed (Z.to_nat count)) ;
  do '(s, _) <- ssif_bmc_cb s I2C_SLAVE_STOP 0 ;
  Some (s, count, data).

(** A chunk whose block number is 0xFF is the End chunk. *)
Definition is_end_chunk (data : list Z) : bool :=
  match data with
  | b :: _ => b =? 0xFF
  | [] => false
  end.

(** The Middle and End transactions of a multi-part read: the master
    repeats block reads with command 9 until a chunk carries block number
    0xFF.  The result lists the chunks, each with its byte count. *)
Fixpoint read_middle_parts (fuel : nat) (s : ssif_bmc)
  : option (ssif_bmc * list (Z * list Z)) :=
  match fuel with
  | O => Some (s, [])
  | S fuel =>
      do '(s, count, data) <-
        smbus_block_read s SSIF_IPMI_MULTI_PART_RESPONSE_MIDDLE ;
      if is_end_chunk data then Some (s, [(count, data)])
      else
        do '(s, rest) <- read_middle_parts fuel s ;
        Some (s, (count, data) :: rest)
  end.

(** A complete multi-part read: the Start transaction with command 3, then
    the Middle and End transactions. *)
Definition ssif_multi_part_read (s : ssif_bmc)
  : option (ssif_bmc * (Z * list Z) * list (Z * list Z)) :=
  do '(s, count, data) <- smbus_block_read s SSIF_IPMI_RESPONSE ;
  do '(s, rest) <- read_middle_parts 16 s ;
  Some (s, (count, data), rest).

(** The IPMI data carried by the chunks: the Start chunk without its two
    flag bytes, every later chunk without its block number. *)
Definition ipmi_data (start : Z * list Z) (rest : list (Z * list Z))
  : list Z :=
  drop 2 (snd start) ++ concat (map (fun c => drop 1 (snd c)) rest).

(** The leading byte of every chunk. *)
Definition block_numbers (start : Z * list Z) (rest : list (Z * list Z))
  : list (option Z) :=
  map (fun c => head (snd c)) (start :: rest).

(** The IPMI data of a message: netfn_lun, cmd and [len - 2] payload
    bytes. *)
Definition msg_data (m : ssif_msg) : list Z :=
  netfn_lun m :: cmd m :: take (Z.to_nat (len m - 2)) (payload m).

(** A sample message for concrete runs: payload byte [i] holds [i]. *)
Definition sample_msg (l : Z) : ssif_msg :=
  Build_ssif_msg l 0x1c 0x42 (map Z.of_nat (seq 0 252)).

(** A bus with every interrupt source enabled. *)
Definition bus0 : aspeed_i2c_bus := Build_aspeed_i2c_bus 0xFFFF.

(** ** Auxiliary definitions for the statements *)

(** The state one acknowledged byte before the end of a multi-part read of
    a 40-byte response: the Start transaction is over and the End chunk
    has been emitted up to its last byte. *)
Definition before_last_byte : ssif_bmc :=
  let s := snd (send_ssif_bmc_response (ssif_bmc_probe bus0) true false
                  (sample_msg 39)) in
  let evs := smbus_write SSIF_IPMI_MULTI_PART_RESPONSE_MIDDLE []
             ++ (I2C_SLAVE_READ_REQUESTED, 0) :: read_processed 9 in
  match smbus_block_read s SSIF_IPMI_RESPONSE with
  | Some (s, _, _) =>
      match run s evs with
      | Some (s, _) => s
      | None => s
      end
  | None => s
  end.

(** What the context goes through between two reads of the device. *)
Inductive action : Type :=
  | ByteEvent (event : i2c_slave_event) (val : Z)
  | SendResponse (non_blocking signal_pending : bool) (resp : ssif_msg)
  | ReceiveRequest (non_blocking signal_pending : bool).

Definition do_action (s : ssif_bmc) (a : action) : option ssif_bmc :=
  match a with
  | ByteEvent e v => do '(s, _) <- ssif_bmc_cb s e v ; Some s
  | SendResponse nb sig resp =>
      Some (snd (send_ssif_bmc_response s nb sig resp))
  | ReceiveRequest nb sig =>
      Some (snd (receive_ssif_bmc_request s nb sig zero_msg))
  end.

(** The event stores the byte with which the count of stored request bytes
    reaches [ssif_msg_len]: the request completes assembly. *)
Definition completes_request (s : ssif_bmc) (a : action) : bool :=
  match a with
  | ByteEvent I2C_SLAVE_WRITE_RECEIVED val =>
      negb (msg_idx s =? 0) && negb (msg_idx s >=? sizeof_ssif_msg)
      && match msg_store (request s) (msg_idx s - 1) val with
         | Some r => size_t (size_t (msg_idx s + 1) - 1) >=? ssif_msg_len r
         | None => false
         end
  | _ => false
  end.

(** Runs the actions; the flag tells whether one of them completed the
    assembly of a request. *)
Fixpoint do_actions (s : ssif_bmc) (acts : list action)
  : option (ssif_bmc * bool) :=
  match acts with
  | [] => Some (s, false)
  | a :: acts =>
      do s1 <- do_action s a ;
      do '(s2, c) <- do_actions s1 acts ;
      Some (s2, completes_request s a || c)
  end.

(** The message bytes of a write transaction, one WRITE_RECEIVED each. *)
Definition write_received (bytes : list Z) : list (i2c_slave_event * Z) :=
  map (fun b => (I2C_SLAVE_WRITE_RECEIVED, b)) bytes.

(** The SMBus command is one of the two that read a chunk. *)
Definition chunk_command (s : ssif_bmc) : bool :=
  (smbus_cmd s =? SSIF_IPMI_RESPONSE)
  || (smbus_cmd s =? SSIF_IPMI_MULTI_PART_RESPONSE_MIDDLE).

(** The context invariant behind the range assumed for the cursor: the
    length field of the response is a byte, the chunk buffer has its 32
    cells and the cursor never exceeds 256. *)
Definition cursor_inv (s : ssif_bmc) : Prop :=
  0 <= len (response s) <= 255
  /\ length (response_buffer s) = 32%nat
  /\ 0 <= msg_idx s <= 256.



(** * Properties *)

(** ** Basic facts about the model *)

Lemma u32_small (x : Z) : 0 <= x < 2 ^ 32 -> u32 x = x.
Proof. intros H. unfold u32. now apply Z.mod_small. Qed.

Lemma u8_small (x : Z) : 0 <= x < 256 -> u8 x = x.
Proof. intros H. unfold u8. now apply Z.mod_small. Qed.

Lemma size_t_small (x : Z) : 0 <= x < 2 ^ 32 -> size_t x = x.
Proof. intros H. unfold size_t. now apply Z.mod_small. Qed.

Lemma msg_bytes_length (m : ssif_msg) :
  wf_msg m -> length (msg_bytes m) = Z.to_nat sizeof_ssif_msg.
Proof. unfold wf_msg, msg_bytes. simpl. intros ->. reflexivity. Qed.

Lemma msg_bytes_store_nat (m : ssif_msg) (i : nat) (v : Z) :
  msg_bytes (msg_store_nat m i v) = <[i := v]> (msg_bytes m).
Proof. destruct i as [|[|[|j]]]; reflexivity. Qed.

Lemma wf_msg_store_nat (m : ssif_msg) (i : nat) (v : Z) :
  wf_msg m -> wf_msg (msg_store_nat m i v).
Proof.
  unfold wf_msg. destruct i as [|[|[|j]]]; simpl; auto.
  now rewrite length_insert.
Qed.

Lemma wf_zero_msg : wf_msg zero_msg.
Proof. reflexivity. Qed.

(** ** Zero-length workaround *)

(** With [is_multi_part] clear, READ_REQUESTED resets the cursor and
    supplies the length field of the response, or 1 when that field is 0. *)
Lemma read_requested_single_part (s : ssif_bmc) (val : Z) :
  is_multi_part s = false ->
  ssif_bmc_cb s I2C_SLAVE_READ_REQUESTED val
  = Some (with_msg_idx s 0,
          if len (response s) =? 0 then 1 else len (response s)).
Proof.
  intros Hm. unfold ssif_bmc_cb, event_request_read. simpl. rewrite Hm. simpl.
  destruct (len (response s) =? 0); reflexivity.
Qed.

(** ** Non-blocking submission while a response is in flight *)

(** C6: a non-blocking [send_ssif_bmc_response] while a response is in
    progress fails with EAGAIN and returns the context as it was. *)
Theorem C6_send_nonblocking_busy (s : ssif_bmc) (sig : bool) (resp : ssif_msg) :
  response_in_progress s = true ->
  send_ssif_bmc_response s true sig resp = (RetErr EAGAIN, s).
Proof. intros H. unfold send_ssif_bmc_response. simpl. now rewrite H. Qed.

Lemma C6_send_nonblocking_busy_witness :
  send_ssif_bmc_response
    (with_response_in_progress (ssif_bmc_probe bus0) true) true false
    (sample_msg 5)
  = (RetErr EAGAIN, with_response_in_progress (ssif_bmc_probe bus0) true).
Proof. apply C6_send_nonblocking_busy. reflexivity. Defined.

(** ** Response completion *)

Lemma complete_response_fields (s : ssif_bmc) :
  len (response (complete_response s)) = 0
  /\ response_in_progress (complete_response s) = false
  /\ num_bytes_processed (complete_response s) = 0
  /\ remain_data_len (complete_response s) = 0
  /\ response_buffer (complete_response s) = replicate 32 0
  /\ wait_queue (complete_response s) = S (wait_queue s)
  /\ block_num (complete_response s) = block_num s
  /\ is_multi_part (complete_response s) = is_multi_part s
  /\ middle_start_response (complete_response s) = middle_start_response s.
Proof. repeat split. Qed.

(** C5 (as stated, refuted): the completion that runs on the last
    READ_PROCESSED of a multi-part response wakes the waiters and leaves
    the block number at 0xFF instead of clearing it. *)
Lemma C5_block_num_not_cleared :
  exists s',
    event_process_read before_last_byte 0 = Some (s', 36)
    /\ response_in_progress before_last_byte = true
    /\ response_in_progress s' = false
    /\ wait_queue s' = S (wait_queue before_last_byte)
    /\ block_num s' = 0xFF
    /\ block_num s' <> 0.
Proof. eexists. vm_compute. repeat split; discriminate. Qed.

Lemma completion_tail (s1 s' : ssif_bmc) (b : bool) (v out : Z) :
  (if b then Some (complete_response s1, v) else Some (s1, v))
  = Some (s', out) ->
  wait_queue s' <> wait_queue s1 ->
  s' = complete_response s1.
Proof.
  destruct b; intros H Hw; inversion H; subst; [reflexivity|].
  now contradiction Hw.
Qed.

(** C5 (amended): when READ_PROCESSED runs response completion (the only
    source of a wake in that handler), the length field of the response is
    zeroed, [response_in_progress] is cleared, [num_bytes_processed] and
    [remain_data_len] are cleared, the 32-byte chunk buffer is zeroed and one
    wake is broadcast; [block_num] and the two multi-part flags keep their
    values. *)
Theorem C5_completion_effects (s s' : ssif_bmc) (val out : Z) :
  event_process_read s val = Some (s', out) ->
  wait_queue s' <> wait_queue s ->
  len (response s') = 0
  /\ response_in_progress s' = false
  /\ num_bytes_processed s' = 0
  /\ remain_data_len s' = 0
  /\ response_buffer s' = replicate 32 0
  /\ wait_queue s' = S (wait_queue s)
  /\ block_num s' = block_num s
  /\ is_multi_part s' = is_multi_part s
  /\ middle_start_response s' = middle_start_response s.
Proof.
  unfold event_process_read. intros H Hw.
  destruct (negb (is_multi_part s)).
  - destruct (negb (len (response s) =? 0)
              && (msg_idx s <? ssif_msg_len (response s))); simpl in H.
    + destruct (msg_load _ _); [|discriminate].
      apply completion_tail in H; [subst s'; repeat split | exact Hw].
    + apply completion_tail in H; [subst s'; repeat split | exact Hw].
  - destruct ((smbus_cmd s =? SSIF_IPMI_RESPONSE)
              || (smbus_cmd s =? SSIF_IPMI_MULTI_PART_RESPONSE_MIDDLE));
      simpl in H.
    + destruct (arr_load _ _); [|discriminate].
      apply completion_tail in H; [subst s'; repeat split | exact Hw].
    + apply completion_tail in H; [subst s'; repeat split | exact Hw].
Qed.

Lemma C5_completion_effects_witness :
  let s' := complete_response (with_msg_idx before_last_byte 10) in
  event_process_read before_last_byte 0 = Some (s', 36)
  /\ wait_queue s' <> wait_queue before_last_byte
  /\ len (response s') = 0
     /\ response_in_progress s' = false
     /\ num_bytes_processed s' = 0
     /\ remain_data_len s' = 0
     /\ response_buffer s' = replicate 32 0
     /\ wait_queue s' = S (wait_queue before_last_byte)
     /\ block_num s' = block_num before_last_byte
     /\ is_multi_part s' = is_multi_part before_last_byte
     /\ middle_start_response s' = middle_start_response before_last_byte.
Proof.
  intros s'.
  assert (H1 : event_process_read before_last_byte 0 = Some (s', 36))
    by (vm_compute; reflexivity).
  assert (H2 : wait_queue s' <> wait_queue before_last_byte)
    by (vm_compute; discriminate).
  split; [exact H1 | split; [exact H2 |]].
  exact (C5_completion_effects before_last_byte s' 0 36 H1 H2).
Defined.

(** ** READ_PROCESSED while no response is held *)

Lemma idle_read_processed (s : ssif_bmc) (val : Z) :
  is_multi_part s = false ->
  len (response s) = 0 ->
  0 <= msg_idx s < SIZE_MAX ->
  ssif_bmc_cb s I2C_SLAVE_READ_PROCESSED val = Some (complete_response s, 0).
Proof.
  intros Hm Hl Hi. unfold SIZE_MAX in Hi.
  unfold ssif_bmc_cb, event_process_read, ssif_msg_len.
  rewrite Hm, Hl. cbn [negb Z.eqb andb response msg_idx].
  rewrite Hl, size_t_small, u32_small by lia.
  rewrite Z.geb_leb.
  replace (0 + 1 <=? msg_idx s + 1) with true
    by (symmetry; apply Z.leb_le; lia).
  reflexivity.
Qed.

Lemma idle_read_processed_run (n : nat) : forall s : ssif_bmc,
  is_multi_part s = false ->
  len (response s) = 0 ->
  0 <= msg_idx s < SIZE_MAX ->
  run s (read_processed n)
  = Some (Nat.iter n complete_response s, replicate n 0).
Proof.
  induction n as [|n IH]; intros s Hm Hl Hi; [reflexivity|].
  change (read_processed (S n))
    with ((I2C_SLAVE_READ_PROCESSED, 0) :: read_processed n).
  cbn [run]. rewrite idle_read_processed by assumption.
  rewrite IH; [| exact Hm | reflexivity | exact Hi].
  rewrite Nat.iter_succ_r. reflexivity.
Qed.

(** C10: with no multi-part response active and a zero length field, every
    READ_PROCESSED supplies 0, leaves the cursor where it is and runs
    response completion: [response_in_progress] is cleared and one wake is
    broadcast per event. *)
Theorem C10_read_processed_idle (s : ssif_bmc) (val : Z) (n : nat) :
  is_multi_part s = false ->
  len (response s) = 0 ->
  0 <= msg_idx s < SIZE_MAX ->
  ssif_bmc_cb s I2C_SLAVE_READ_PROCESSED val = Some (complete_response s, 0)
  /\ msg_idx (complete_response s) = msg_idx s
  /\ response_in_progress (complete_response s) = false
  /\ wait_queue (complete_response s) = S (wait_queue s)
  /\ run s (read_processed n)
     = Some (Nat.iter n complete_response s, replicate n 0)
  /\ wait_queue (Nat.iter n complete_response s) = (n + wait_queue s)%nat.
Proof.
  intros Hm Hl Hi.
  split; [now apply idle_read_processed|].
  repeat split.
  - now apply idle_read_processed_run.
  - clear. induction n as [|n IH]; [reflexivity|].
    rewrite Nat.iter_succ.
    destruct (complete_response_fields (Nat.iter n complete_response s))
      as (_ & _ & _ & _ & _ & H & _).
    rewrite H, IH. reflexivity.
Qed.

Lemma C10_read_processed_idle_witness :
  ssif_bmc_cb (ssif_bmc_probe bus0) I2C_SLAVE_READ_PROCESSED 7
  = Some (complete_response (ssif_bmc_probe bus0), 0)
  /\ wait_queue (Nat.iter 3 complete_response (ssif_bmc_probe bus0)) = 3%nat.
Proof.
  destruct (C10_read_processed_idle (ssif_bmc_probe bus0) 7 3)
    as (H1 & _ & _ & _ & _ & H6).
  - reflexivity.
  - reflexivity.
  - unfold SIZE_MAX. simpl. lia.
  - split; [exact H1 | exact H6].
Defined.

(** ** Request assembly: WRITE_RECEIVED *)

(** What WRITE_RECEIVED does to a cursor that is past the command byte and
    inside the struct: the byte is stored at [msg_idx - 1], the cursor
    advances, and the request is handed over when the count of stored bytes
    has reached [ssif_msg_len]. *)
Lemma write_received_store (s : ssif_bmc) (val : Z) :
  1 <= msg_idx s < sizeof_ssif_msg ->
  wf_msg (request s) ->
  let r := msg_store_nat (request s) (Z.to_nat (msg_idx s - 1)) val in
  let s1 := with_msg_idx (with_request s r) (msg_idx s + 1) in
  ssif_bmc_cb s I2C_SLAVE_WRITE_RECEIVED val
  = Some (if msg_idx s >=? ssif_msg_len r then handle_request s1 else s1,
          val).
Proof.
  intros Hi Hwf r s1. unfold sizeof_ssif_msg, MSG_PAYLOAD_LEN_MAX in Hi.
  unfold ssif_bmc_cb.
  replace (msg_idx s =? 0) with false by (symmetry; apply Z.eqb_neq; lia).
  replace (msg_idx s >=? sizeof_ssif_msg) with false
    by (symmetry; rewrite Z.geb_leb; apply Z.leb_gt;
        unfold sizeof_ssif_msg, MSG_PAYLOAD_LEN_MAX; lia).
  unfold msg_store. rewrite (msg_bytes_length _ Hwf).
  destruct (decide _) as [_|Hn];
    [|exfalso; apply Hn;
      unfold sizeof_ssif_msg, MSG_PAYLOAD_LEN_MAX; lia].
  cbn [msg_idx with_msg_idx with_request request].
  rewrite (size_t_small (msg_idx s + 1)) by lia.
  replace (msg_idx s + 1 - 1) with (msg_idx s) by lia.
  rewrite size_t_small by lia.
  fold r. destruct (msg_idx s >=? ssif_msg_len r); reflexivity.
Qed.

Lemma write_received_dropped (s : ssif_bmc) (val : Z) :
  sizeof_ssif_msg <= msg_idx s ->
  ssif_bmc_cb s I2C_SLAVE_WRITE_RECEIVED val = Some (s, val).
Proof.
  intros Hi. unfold ssif_bmc_cb.
  replace (msg_idx s =? 0) with false
    by (symmetry; apply Z.eqb_neq;
        unfold sizeof_ssif_msg, MSG_PAYLOAD_LEN_MAX in Hi; lia).
  replace (msg_idx s >=? sizeof_ssif_msg) with true
    by (symmetry; rewrite Z.geb_leb; apply Z.leb_le; lia).
  reflexivity.
Qed.

(** The count of stored request bytes, [msg_idx - 1], never exceeds 254:
    the byte at cursor 255 is dropped, so a length field above 253 is never
    matched by the count. *)
Lemma write_received_cursor_bound (s s' : ssif_bmc) (val o : Z) :
  ssif_bmc_cb s I2C_SLAVE_WRITE_RECEIVED val = Some (s', o) ->
  0 <= msg_idx s <= sizeof_ssif_msg ->
  0 <= msg_idx s' <= sizeof_ssif_msg.
Proof.
  intros H Hi. unfold sizeof_ssif_msg, MSG_PAYLOAD_LEN_MAX in *.
  cbn [ssif_bmc_cb] in H.
  destruct (Z.eqb_spec (msg_idx s) 0) as [Hz|Hnz].
  - inversion H; subst. cbn [msg_idx with_msg_idx with_smbus_cmd].
    rewrite Hz, size_t_small by lia. lia.
  - destruct (Z.geb_spec (msg_idx s) sizeof_ssif_msg) as [Hge|Hlt].
    + inversion H; subst. exact Hi.
    + unfold sizeof_ssif_msg, MSG_PAYLOAD_LEN_MAX in Hlt.
      destruct (msg_store _ _ _); [|discriminate].
      cbn [msg_idx with_msg_idx with_request request] in H.
      destruct (_ >=? _); inversion H; subst;
        cbn [handle_request msg_idx with_msg_idx with_request wake_up_all
             with_response with_request_available with_i2c_bus];
        rewrite size_t_small by lia; lia.
Qed.

(** C9: past the command byte, WRITE_RECEIVED never accesses the request
    outside the struct.  A byte whose offset [msg_idx - 1] is at or beyond
    the struct boundary is dropped and nothing changes; a byte that is
    stored lands at offset [msg_idx - 1] inside the struct, and the other
    request bytes are kept. *)
Theorem C9_write_received_bounded (s : ssif_bmc) (val : Z) :
  1 <= msg_idx s ->
  wf_msg (request s) ->
  exists s',
    ssif_bmc_cb s I2C_SLAVE_WRITE_RECEIVED val = Some (s', val)
    /\ wf_msg (request s')
    /\ (sizeof_ssif_msg <= msg_idx s - 1 -> s' = s)
    /\ (sizeof_ssif_msg <= msg_idx s -> s' = s)
    /\ (msg_idx s < sizeof_ssif_msg ->
        0 <= msg_idx s - 1 < sizeof_ssif_msg
        /\ msg_bytes (request s')
           = <[Z.to_nat (msg_idx s - 1) := val]> (msg_bytes (request s)))
    /\ (request s' <> request s -> 0 <= msg_idx s - 1 < sizeof_ssif_msg).
Proof.
  intros Hi Hwf.
  destruct (Z_lt_le_dec (msg_idx s) sizeof_ssif_msg) as [Hlt|Hge].
  - eexists. split; [apply write_received_store; [lia | exact Hwf]|].
    set (r := msg_store_nat _ _ _).
    assert (Hr : forall (b : bool) s1,
               request (if b then handle_request s1 else s1) = request s1)
      by (intros [] ?; reflexivity).
    rewrite Hr. cbn [request with_msg_idx with_request].
    split; [apply wf_msg_store_nat, Hwf|].
    split; [intros; lia|]. split; [intros; lia|].
    split; [intros _; split; [lia | apply msg_bytes_store_nat]|].
    intros _. lia.
  - exists s. split; [now apply write_received_dropped|].
    split; [exact Hwf|]. split; [reflexivity|]. split; [reflexivity|].
    split; [intros; lia|]. intros Hne. now contradiction Hne.
Qed.

Lemma C9_write_received_bounded_witness :
  exists s',
    ssif_bmc_cb (with_msg_idx (ssif_bmc_probe bus0) 300)
      I2C_SLAVE_WRITE_RECEIVED 0x55 = Some (s', 0x55)
    /\ s' = with_msg_idx (ssif_bmc_probe bus0) 300.
Proof.
  destruct (C9_write_received_bounded
              (with_msg_idx (ssif_bmc_probe bus0) 300) 0x55)
    as (s' & H1 & _ & H3 & _).
  - simpl. lia.
  - reflexivity.
  - exists s'. split; [exact H1|]. apply H3. vm_compute. discriminate.
Defined.

(** ** The single-slot request mailbox *)

Lemma receive_not_available (s : ssif_bmc) (sig : bool) (out : ssif_msg) :
  request_available s = false ->
  receive_ssif_bmc_request s true sig out = (RetErr EAGAIN, out, s).
Proof. intros H. unfold receive_ssif_bmc_request. simpl. now rewrite H. Qed.

Lemma receive_available (s : ssif_bmc) (nb sig : bool) (out : ssif_msg) :
  request_available s = true ->
  receive_ssif_bmc_request s nb sig out
  = (Ret0, request s, with_request_available s false).
Proof.
  intros H. unfold receive_ssif_bmc_request, wait_event_interruptible.
  rewrite H. destruct nb; reflexivity.
Qed.

Lemma set_response_buffer_request_available (s s' : ssif_bmc) :
  set_response_buffer s = Some s' ->
  request_available s' = request_available s.
Proof.
  unfold set_response_buffer. intros H.
  repeat case_match; simplify_eq; reflexivity.
Qed.

Lemma event_request_read_request_available (s s' : ssif_bmc) (v o : Z) :
  event_request_read s v = Some (s', o) ->
  request_available s' = request_available s.
Proof.
  unfold event_request_read. intros H.
  repeat case_match; simplify_eq; try reflexivity;
    match goal with
    | E : set_response_buffer _ = Some _ |- _ =>
        apply set_response_buffer_request_available in E; rewrite E
    end; reflexivity.
Qed.

Lemma event_process_read_request_available (s s' : ssif_bmc) (v o : Z) :
  event_process_read s v = Some (s', o) ->
  request_available s' = request_available s.
Proof.
  unfold event_process_read. intros H.
  repeat case_match; simplify_eq; reflexivity.
Qed.

Lemma do_action_request_available (s s1 : ssif_bmc) (a : action) :
  do_action s a = Some s1 ->
  request_available s = false ->
  request_available s1 = completes_request s a.
Proof.
  intros H Hr. destruct a as [e v | nb sig resp | nb sig];
    cbn [do_action completes_request] in *.
  - destruct (ssif_bmc_cb s e v) as [[s' o]|] eqn:E; [|discriminate].
    inversion H; subst s'; clear H.
    destruct e; cbn [ssif_bmc_cb] in E.
    + apply event_request_read_request_available in E.
      rewrite E. exact Hr.
    + inversion E; subst; exact Hr.
    + apply event_process_read_request_available in E.
      rewrite E. exact Hr.
    + destruct (msg_idx s =? 0); cbn [negb andb] in *.
      * inversion E; subst; exact Hr.
      * destruct (msg_idx s >=? sizeof_ssif_msg); cbn [negb andb] in *.
        -- inversion E; subst; exact Hr.
        -- destruct (msg_store _ _ _); [|discriminate].
           cbn [msg_idx with_msg_idx with_request request] in E.
           destruct (_ >=? _); inversion E; subst; [reflexivity | exact Hr].
    + inversion E; subst; exact Hr.
  - inversion H; subst. unfold send_ssif_bmc_response.
    destruct nb; simpl; unfold wait_event_interruptible;
      destruct (response_in_progress s), sig; simpl;
      try exact Hr; destruct (_ >? _); exact Hr.
  - inversion H; subst. unfold receive_ssif_bmc_request.
    destruct nb; simpl; unfold wait_event_interruptible; rewrite Hr;
      destruct sig; exact Hr.
Qed.

(** [completes_request] holds of a WRITE_RECEIVED exactly when the callback
    runs [handle_request], that is when it broadcasts a wake. *)
Lemma completes_request_wakes (s s' : ssif_bmc) (v o : Z) :
  ssif_bmc_cb s I2C_SLAVE_WRITE_RECEIVED v = Some (s', o) ->
  wait_queue s'
  = if completes_request s (ByteEvent I2C_SLAVE_WRITE_RECEIVED v)
    then S (wait_queue s) else wait_queue s.
Proof.
  intros E. cbn [ssif_bmc_cb completes_request] in *.
  destruct (msg_idx s =? 0); cbn [negb andb] in *.
  - inversion E; subst; reflexivity.
  - destruct (msg_idx s >=? sizeof_ssif_msg); cbn [negb andb] in *.
    + inversion E; subst; reflexivity.
    + destruct (msg_store _ _ _); [|discriminate].
      cbn [msg_idx with_msg_idx with_request request] in E.
      destruct (_ >=? _); inversion E; subst; reflexivity.
Qed.

Lemma do_actions_request_available (acts : list action) :
  forall s s2 : ssif_bmc,
    request_available s = false ->
    do_actions s acts = Some (s2, false) ->
    request_available s2 = false.
Proof.
  induction acts as [|a acts IH]; intros s s2 Hr H; simpl in H.
  - inversion H; subst; exact Hr.
  - destruct (do_action s a) as [s1|] eqn:Ha; [|discriminate].
    destruct (do_actions s1 acts) as [[s2' c]|] eqn:Hacts; [|discriminate].
    injection H as -> Hc. apply orb_false_elim in Hc as [Hc1 ->].
    apply (IH s1); [|exact Hacts].
    rewrite (do_action_request_available _ _ _ Ha Hr). exact Hc1.
Qed.

(** C7: a successful [receive_ssif_bmc_request] hands out the pending
    request and clears [request_available]; from then on a non-blocking
    receive fails with EAGAIN, whatever byte events and exchange-point calls
    happen in between, as long as none of them completes the assembly of a
    request; the event that completes one makes the request available
    again. *)
Theorem C7_single_slot_mailbox (s : ssif_bmc) (nb sig : bool)
    (out : ssif_msg) :
  request_available s = true ->
  let s1 := with_request_available s false in
  receive_ssif_bmc_request s nb sig out = (Ret0, request s, s1)
  /\ (forall sig' out',
        receive_ssif_bmc_request s1 true sig' out' = (RetErr EAGAIN, out', s1))
  /\ (forall acts s2 sig' out',
        do_actions s1 acts = Some (s2, false) ->
        receive_ssif_bmc_request s2 true sig' out' = (RetErr EAGAIN, out', s2))
  /\ (forall acts s2 a s3 sig' out',
        do_actions s1 acts = Some (s2, false) ->
        completes_request s2 a = true ->
        do_action s2 a = Some s3 ->
        receive_ssif_bmc_request s3 true sig' out'
        = (Ret0, request s3, with_request_available s3 false)).
Proof.
  intros Hr s1. split; [now apply receive_available|].
  split; [intros; now apply receive_not_available|].
  split.
  - intros acts s2 sig' out' H. apply receive_not_available.
    now apply (do_actions_request_available acts s1).
  - intros acts s2 a s3 sig' out' H Hc Ha. apply receive_available.
    rewrite (do_action_request_available _ _ _ Ha); [exact Hc|].
    now apply (do_actions_request_available acts s1).
Qed.

Lemma C7_single_slot_mailbox_witness :
  let s := with_request_available (ssif_bmc_probe bus0) true in
  let s1 := with_request_available s false in
  receive_ssif_bmc_request s true false (sample_msg 2)
  = (Ret0, zero_msg, s1)
  /\ receive_ssif_bmc_request s1 true false (sample_msg 2)
     = (RetErr EAGAIN, sample_msg 2, s1).
Proof.
  intros s s1.
  destruct (C7_single_slot_mailbox s true false (sample_msg 2))
    as (H1 & H2 & _).
  - reflexivity.
  - split; [exact H1 | apply H2].
Defined.

(** ** Completion of a request *)

Lemma run_app (evs1 evs2 : list (i2c_slave_event * Z)) : forall s : ssif_bmc,
  run s (evs1 ++ evs2)
  = do '(s1, o1) <- run s evs1 ;
    do '(s2, o2) <- run s1 evs2 ;
    Some (s2, o1 ++ o2).
Proof.
  induction evs1 as [|[e v] evs1 IH]; intros s; cbn [run app].
  - destruct (run s evs2) as [[s2 o2]|]; reflexivity.
  - destruct (ssif_bmc_cb s e v) as [[s1 o]|]; [|reflexivity].
    rewrite IH. destruct (run s1 evs1) as [[s1' o1]|]; [|reflexivity].
    destruct (run s1' evs2) as [[s2 o2]|]; [|reflexivity].
    now rewrite app_assoc.
Qed.

Lemma len_store_nat (m : ssif_msg) (i : nat) (v : Z) :
  (1 <= i)%nat -> len (msg_store_nat m i v) = len m.
Proof. destruct i as [|[|[|j]]]; intros H; try reflexivity. lia. Qed.

Lemma with_request_msg_idx_id (s : ssif_bmc) :
  with_msg_idx (with_request s (request s)) (msg_idx s) = s.
Proof. destruct s; reflexivity. Qed.

Lemma with_request_msg_idx_twice (s : ssif_bmc) (r1 r2 : ssif_msg)
    (i1 i2 : Z) :
  with_msg_idx (with_request (with_msg_idx (with_request s r1) i1) r2) i2
  = with_msg_idx (with_request s r2) i2.
Proof. reflexivity. Qed.

(** Bytes of a request that do not complete it: they are stored one after
    the other and only the request and the cursor change. *)
Lemma write_received_run (l : list Z) :
  forall (s : ssif_bmc) (k : nat),
    msg_idx s = Z.of_nat k + 1 ->
    (1 <= k)%nat ->
    wf_msg (request s) ->
    Z.of_nat (k + length l) <= len (request s) <= 253 ->
    exists r,
      run s (write_received l)
      = Some (with_msg_idx (with_request s r)
                (msg_idx s + Z.of_nat (length l)), [])
      /\ wf_msg r
      /\ len r = len (request s)
      /\ take (k + length l) (msg_bytes r)
         = take k (msg_bytes (request s)) ++ l.
Proof.
  induction l as [|v l IH]; intros s k Hk Hk1 Hwf Hb.
  - exists (request s). cbn [write_received map run length].
    rewrite Z.add_0_r, with_request_msg_idx_id, Nat.add_0_r, app_nil_r.
    auto.
  - cbn [write_received map run]. fold (write_received l).
    cbn [length] in Hb.
    rewrite write_received_store
      by (unfold sizeof_ssif_msg, MSG_PAYLOAD_LEN_MAX; auto with lia).
    set (r1 := msg_store_nat (request s) (Z.to_nat (msg_idx s - 1)) v).
    assert (Hi : Z.to_nat (msg_idx s - 1) = k) by lia.
    assert (Hl1 : len r1 = len (request s))
      by (apply len_store_nat; lia).
    replace (msg_idx s >=? ssif_msg_len r1) with false
      by (symmetry; rewrite Z.geb_leb; apply Z.leb_gt;
          unfold ssif_msg_len; rewrite Hl1, u32_small; lia).
    destruct (IH (with_msg_idx (with_request s r1) (msg_idx s + 1)) (S k))
      as (r & Hrun & Hwr & Hlr & Htake).
    + cbn [msg_idx with_msg_idx]. lia.
    + lia.
    + apply wf_msg_store_nat, Hwf.
    + cbn [request with_msg_idx with_request]. rewrite Hl1. lia.
    + exists r. rewrite Hrun. cbn [request with_msg_idx with_request msg_idx]
        in *.
      rewrite with_request_msg_idx_twice.
      split; [cbn [emitted app length]; do 3 f_equal; lia|].
      split; [exact Hwr|]. split; [congruence|].
      replace (k + length (v :: l))%nat with (S k + length l)%nat
        by (cbn [length]; lia).
      rewrite Htake. unfold r1. rewrite msg_bytes_store_nat, Hi.
      rewrite (take_S_r _ _ v).
      * rewrite take_insert_ge by lia. now rewrite <- app_assoc.
      * apply list_lookup_insert_eq. rewrite (msg_bytes_length _ Hwf).
        unfold sizeof_ssif_msg, MSG_PAYLOAD_LEN_MAX. lia.
Qed.

(** [aspeed_i2c_disable_slave] clears the RX_DONE and SLAVE_MATCH enable
    bits and keeps the other bits of a 32-bit register value. *)
Lemma disable_slave_bits (bus : aspeed_i2c_bus) :
  let reg := intr_ctrl_reg (aspeed_i2c_disable_slave bus) in
  Z.testbit reg 2 = false
  /\ Z.testbit reg 7 = false
  /\ (forall i, 0 <= i < 32 -> i <> 2 -> i <> 7 ->
      Z.testbit reg i = Z.testbit (intr_ctrl_reg bus) i).
Proof.
  unfold aspeed_i2c_disable_slave, aspeed_i2c_disable_interrupt, u32.
  cbn [intr_ctrl_reg].
  assert (Hbit : forall x m i, 0 <= i < 32 ->
            Z.testbit (Z.land x (Z.lnot m) mod 2 ^ 32) i
            = Z.testbit x i && negb (Z.testbit m i)).
  { intros x m i Hi. rewrite Z.mod_pow2_bits_low by lia.
    rewrite Z.land_spec, Z.lnot_spec by lia. reflexivity. }
  split; [|split].
  - rewrite !Hbit by lia.
    replace (Z.testbit ASPEED_I2CD_INTR_RX_DONE 2) with true by reflexivity.
    cbn [negb]. now rewrite andb_false_r.
  - rewrite Hbit by lia.
    replace (Z.testbit ASPEED_I2CD_INTR_SLAVE_MATCH 7) with true
      by reflexivity.
    cbn [negb]. now rewrite andb_false_r.
  - intros i Hi H2 H7. rewrite !Hbit by lia.
    unfold ASPEED_I2CD_INTR_RX_DONE, ASPEED_I2CD_INTR_SLAVE_MATCH, BIT.
    rewrite !Z.shiftl_1_l, !Z.pow2_bits_eqb by lia.
    destruct (Z.eqb_spec 2 i); [lia|]. destruct (Z.eqb_spec 7 i); [lia|].
    cbn [negb]. now rewrite !andb_true_r.
Qed.

Lemma disable_slave_not_listening (bus : aspeed_i2c_bus) :
  slave_listening (aspeed_i2c_disable_slave bus) = false.
Proof.
  unfold slave_listening.
  destruct (disable_slave_bits bus) as (H2 & _). cbv zeta in H2.
  now rewrite H2.
Qed.

Lemma handle_request_fields (s : ssif_bmc) :
  i2c_bus (handle_request s) = aspeed_i2c_disable_slave (i2c_bus s)
  /\ slave_listening (i2c_bus (handle_request s)) = false
  /\ request_available (handle_request s) = true
  /\ response (handle_request s) = zero_msg
  /\ wait_queue (handle_request s) = S (wait_queue s)
  /\ request (handle_request s) = request s
  /\ msg_idx (handle_request s) = msg_idx s.
Proof.
  repeat split. cbn [handle_request i2c_bus wake_up_all with_response
                     with_request_available with_i2c_bus].
  apply disable_slave_not_listening.
Qed.

Lemma smbus_write_command (s : ssif_bmc) (c : Z) (bytes : list Z) :
  run s (smbus_write c bytes)
  = run (with_msg_idx (with_smbus_cmd s c) 1) (write_received bytes).
Proof.
  unfold smbus_write. cbn [map run ssif_bmc_cb msg_idx with_msg_idx].
  cbn [Z.eqb emitted app]. fold (write_received bytes).
  replace (with_msg_idx (with_smbus_cmd (with_msg_idx s 0) c) (size_t (0 + 1)))
    with (with_msg_idx (with_smbus_cmd s c) 1) by reflexivity.
  destruct (run _ _) as [[s2 o]|]; reflexivity.
Qed.

(** C4: in a write transaction, the bytes that follow the command byte are
    stored without any hand-over as long as their count is below
    [ssif_msg_len]; the byte with which the count reaches [ssif_msg_len]
    completes the request: slave listening is disabled, [request_available]
    is set, the whole response is zeroed and one wake is broadcast. *)
Theorem C4_request_completion (s : ssif_bmc) (c b0 last : Z)
    (front : list Z) :
  let msg := front ++ [last] in
  wf_msg (request s) ->
  head msg = Some b0 ->
  Z.of_nat (length msg) = b0 + 1 ->
  b0 <= 253 ->
  exists s1 s2,
    run s (smbus_write c front) = Some (s1, [])
    /\ request_available s1 = request_available s
    /\ response s1 = response s
    /\ i2c_bus s1 = i2c_bus s
    /\ wait_queue s1 = wait_queue s
    /\ run s (smbus_write c msg) = Some (s2, [])
    /\ take (length msg) (msg_bytes (request s2)) = msg
    /\ msg_idx s2 - 1 = ssif_msg_len (request s2)
    /\ i2c_bus s2 = aspeed_i2c_disable_slave (i2c_bus s)
    /\ slave_listening (i2c_bus s2) = false
    /\ request_available s2 = true
    /\ response s2 = zero_msg
    /\ wait_queue s2 = S (wait_queue s).
Proof.
  intros msg Hwf Hhead Hlen Hb. subst msg.
  rewrite !smbus_write_command. unfold write_received at 2.
  rewrite map_app. fold (write_received front). cbn [map].
  rewrite run_app.
  set (sA := with_msg_idx (with_smbus_cmd s c) 1).
  assert (HwfA : wf_msg (request sA)) by exact Hwf.
  assert (Hsz : sizeof_ssif_msg = 255) by reflexivity.
  destruct front as [|b front].
  - (* the length byte is the whole message *)
    cbn [head app] in Hhead. injection Hhead as ->.
    cbn [length app] in Hlen. assert (b0 = 0) as -> by lia.
    exists sA. cbn [write_received map run].
    rewrite write_received_store by (rewrite ?Hsz; cbn; auto with lia).
    set (r := msg_store_nat _ _ _).
    replace (msg_idx sA >=? ssif_msg_len r) with true by reflexivity.
    eexists. repeat split; try reflexivity.
    apply disable_slave_not_listening.
  - cbn [head app] in Hhead. injection Hhead as ->.
    rewrite length_app in Hlen. cbn [length] in Hlen.
    (* the length byte *)
    cbn [write_received map run]. fold (write_received front).
    rewrite write_received_store by (rewrite ?Hsz; cbn; auto with lia).
    set (r := msg_store_nat (request sA) (Z.to_nat (msg_idx sA - 1)) b0).
    assert (Hlr : len r = b0) by reflexivity.
    replace (msg_idx sA >=? ssif_msg_len r) with false
      by (symmetry; rewrite Z.geb_leb; apply Z.leb_gt;
          unfold ssif_msg_len; rewrite Hlr, u32_small; cbn; lia).
    set (sB := with_msg_idx (with_request sA r) (msg_idx sA + 1)).
    (* the bytes in between *)
    destruct (write_received_run front sB 1) as (r' & Hrun & Hwr & Hlr' & Ht).
    + reflexivity.
    + lia.
    + apply wf_msg_store_nat, HwfA.
    + cbn [request sB with_msg_idx with_request]. rewrite Hlr. lia.
    + rewrite Hrun. cbn [emitted app].
      set (sC := with_msg_idx (with_request sB r')
                   (msg_idx sB + Z.of_nat (length front))).
      assert (HiC : msg_idx sC = b0 + 1) by (cbn; lia).
      set (r'' := msg_store_nat (request sC) (Z.to_nat (msg_idx sC - 1)) last).
      assert (Hlr'' : len r'' = b0).
      { unfold r''. rewrite len_store_nat by lia.
        cbn [request sC with_msg_idx with_request]. rewrite Hlr'. exact Hlr. }
      (* the last byte *)
      assert (Hlast : ssif_bmc_cb sC I2C_SLAVE_WRITE_RECEIVED last
                      = Some (handle_request
                                (with_msg_idx (with_request sC r'')
                                   (msg_idx sC + 1)), last)).
      { rewrite write_received_store
          by (rewrite ?Hsz, ?HiC; cbn [request sC with_msg_idx with_request];
              auto with lia).
        fold r''.
        replace (msg_idx sC >=? ssif_msg_len r'') with true
          by (symmetry; rewrite Z.geb_leb; apply Z.leb_le;
              unfold ssif_msg_len; rewrite Hlr'', u32_small; lia).
        reflexivity. }
      exists sC, (handle_request
                    (with_msg_idx (with_request sC r'') (msg_idx sC + 1))).
      split; [reflexivity|]. do 4 (split; [reflexivity|]).
      cbn [run]. rewrite Hlast. split; [reflexivity|].
      destruct (handle_request_fields
                  (with_msg_idx (with_request sC r'') (msg_idx sC + 1)))
        as (H1 & H2 & H3 & H4 & H5 & H6 & H7).
      rewrite H1, H3, H4, H5, H6, H7. rewrite H1 in H2.
      cbn [request msg_idx i2c_bus wait_queue with_msg_idx with_request].
      repeat split; try reflexivity; try exact H2.
      * unfold r''. rewrite msg_bytes_store_nat.
        cbn [request sC with_msg_idx with_request].
        replace (Z.to_nat (msg_idx sC - 1)) with (S (length front)) by lia.
        replace (length (b0 :: front ++ [last]))
          with (S (S (length front)))
          by (cbn [length]; rewrite length_app; cbn [length]; lia).
        rewrite (take_S_r _ _ last).
        -- rewrite take_insert_ge by lia.
           change (S (length front)) with (1 + length front)%nat.
           rewrite Ht. reflexivity.
        -- apply list_lookup_insert_eq. rewrite (msg_bytes_length _ Hwr).
           rewrite Hsz. lia.
      * unfold ssif_msg_len. rewrite Hlr'', u32_small; lia.
Qed.

Lemma C4_request_completion_witness :
  exists s1 s2,
    run (ssif_bmc_probe bus0) (smbus_write 2 [2; 0x20]) = Some (s1, [])
    /\ request_available s1 = false
    /\ run (ssif_bmc_probe bus0) (smbus_write 2 [2; 0x20; 1]) = Some (s2, [])
    /\ request_available s2 = true
    /\ response s2 = zero_msg
    /\ slave_listening (i2c_bus s2) = false.
Proof.
  destruct (C4_request_completion (ssif_bmc_probe bus0) 2 2 1 [2; 0x20])
    as (s1 & s2 & H1 & H2 & _ & _ & _ & H6 & _ & _ & _ & H10 & H11 & H12 & _).
  - reflexivity.
  - reflexivity.
  - reflexivity.
  - lia.
  - exists s1, s2. repeat split; assumption.
Defined.

(** ** Emission of a single-part response *)

Lemma with_msg_idx_twice (s : ssif_bmc) (i j : Z) :
  with_msg_idx (with_msg_idx s i) j = with_msg_idx s j.
Proof. reflexivity. Qed.

Lemma with_msg_idx_id (s : ssif_bmc) : with_msg_idx s (msg_idx s) = s.
Proof. destruct s; reflexivity. Qed.

(** One READ_PROCESSED of a single-part response whose cursor is below the
    length field: the next byte of the message goes out, and the response
    is completed when that byte is the last one. *)
Lemma single_part_read_processed (s : ssif_bmc) (val b : Z) :
  is_multi_part s = false ->
  1 <= len (response s) <= 254 ->
  0 <= msg_idx s < len (response s) ->
  msg_bytes (response s) !! Z.to_nat (msg_idx s + 1) = Some b ->
  let s1 := with_msg_idx s (msg_idx s + 1) in
  ssif_bmc_cb s I2C_SLAVE_READ_PROCESSED val
  = Some (if msg_idx s + 1 <? len (response s) then s1
          else complete_response s1, b).
Proof.
  intros Hm Hl Hi Hb s1. unfold ssif_bmc_cb, event_process_read, ssif_msg_len.
  rewrite Hm. cbn [negb].
  replace (len (response s) =? 0) with false
    by (symmetry; apply Z.eqb_neq; lia).
  rewrite (u32_small (len (response s) + 1)) by lia.
  replace (msg_idx s <? len (response s) + 1) with true
    by (symmetry; apply Z.ltb_lt; lia).
  cbn [negb andb response msg_idx with_msg_idx].
  rewrite (size_t_small (msg_idx s + 1)) by lia.
  unfold msg_load.
  destruct (decide (0 <= msg_idx s + 1)) as [_|Hn]; [|exfalso; lia].
  rewrite Hb. cbn [response msg_idx with_msg_idx].
  rewrite (u32_small (len (response s) + 1)) by lia.
  rewrite size_t_small by lia. fold s1.
  rewrite Z.geb_leb.
  destruct (Z.ltb_spec (msg_idx s + 1) (len (response s)));
    destruct (Z.leb_spec (len (response s) + 1) (msg_idx s + 1 + 1));
    try lia; reflexivity.
Qed.

(** The bytes before the last one: only the cursor moves. *)
Lemma single_part_run (n : nat) : forall (s : ssif_bmc) (k : nat),
  is_multi_part s = false ->
  wf_msg (response s) ->
  1 <= len (response s) <= 254 ->
  msg_idx s = Z.of_nat k ->
  Z.of_nat (k + n) < len (response s) ->
  run s (read_processed n)
  = Some (with_msg_idx s (Z.of_nat (k + n)),
          take n (drop (S k) (msg_bytes (response s)))).
Proof.
  induction n as [|n IH]; intros s k Hm Hwf Hl Hk Hn.
  - cbn [read_processed replicate run take].
    rewrite Nat.add_0_r, <- Hk, with_msg_idx_id. reflexivity.
  - change (read_processed (S n))
      with ((I2C_SLAVE_READ_PROCESSED, 0) :: read_processed n).
    cbn [run].
    destruct (lookup_lt_is_Some_2 (msg_bytes (response s))
                (Z.to_nat (msg_idx s + 1))) as [b Hb].
    { rewrite (msg_bytes_length _ Hwf).
      unfold sizeof_ssif_msg, MSG_PAYLOAD_LEN_MAX. lia. }
    rewrite (single_part_read_processed s 0 b) by auto with lia.
    replace (msg_idx s + 1 <? len (response s)) with true
      by (symmetry; apply Z.ltb_lt; lia).
    rewrite (IH _ (S k)); cbn [is_multi_part response msg_idx with_msg_idx];
      auto with lia.
    rewrite with_msg_idx_twice. cbn [emitted app].
    replace (S k + n)%nat with (k + S n)%nat by lia.
    do 2 f_equal.
    replace (Z.to_nat (msg_idx s + 1)) with (S k) in Hb by lia.
    rewrite (drop_S _ b (S k)) by exact Hb. reflexivity.
Qed.

Lemma single_part_prefix (s : ssif_bmc) (val : Z) (n : nat) :
  is_multi_part s = false ->
  wf_msg (response s) ->
  1 <= len (response s) <= 254 ->
  Z.of_nat n < len (response s) ->
  run s ((I2C_SLAVE_READ_REQUESTED, val) :: read_processed n)
  = Some (with_msg_idx s (Z.of_nat n), take (S n) (msg_bytes (response s))).
Proof.
  intros Hm Hwf Hl Hn. cbn [run].
  rewrite read_requested_single_part by exact Hm.
  replace (len (response s) =? 0) with false
    by (symmetry; apply Z.eqb_neq; lia).
  rewrite (single_part_run n (with_msg_idx s 0) 0) by auto with lia.
  rewrite with_msg_idx_twice. reflexivity.
Qed.

Lemma single_part_full (s : ssif_bmc) (val : Z) :
  is_multi_part s = false ->
  wf_msg (response s) ->
  1 <= len (response s) <= 254 ->
  run s ((I2C_SLAVE_READ_REQUESTED, val)
           :: read_processed (Z.to_nat (len (response s))))
  = Some (complete_response (with_msg_idx s (len (response s))),
          take (Z.to_nat (len (response s) + 1)) (msg_bytes (response s))).
Proof.
  intros Hm Hwf Hl.
  set (n := Z.to_nat (len (response s) - 1)).
  replace (Z.to_nat (len (response s))) with (S n) by lia.
  replace (Z.to_nat (len (response s) + 1)) with (S (S n)) by lia.
  unfold read_processed. rewrite replicate_S_end. fold (read_processed n).
  rewrite app_comm_cons, run_app.
  rewrite single_part_prefix by auto with lia.
  destruct (lookup_lt_is_Some_2 (msg_bytes (response s)) (S n)) as [b Hb].
  { rewrite (msg_bytes_length _ Hwf).
    unfold sizeof_ssif_msg, MSG_PAYLOAD_LEN_MAX. lia. }
  cbn [run].
  rewrite (single_part_read_processed _ 0 b);
    cbn [is_multi_part response msg_idx with_msg_idx]; auto with lia.
  - replace (Z.of_nat n + 1 <? len (response s)) with false
      by (symmetry; apply Z.ltb_ge; lia).
    rewrite with_msg_idx_twice. cbn [emitted app].
    rewrite (take_S_r _ (S n) b) by exact Hb.
    replace (Z.of_nat n + 1) with (len (response s)) by lia. reflexivity.
  - replace (Z.to_nat (Z.of_nat n + 1)) with (S n) by lia. exact Hb.
Qed.

(** C2: a single-part response with a length field in [2, 33] goes out as
    its [ssif_msg_len] wire bytes, length field first, over READ_REQUESTED
    and [ssif_msg_len - 1] READ_PROCESSED events; [response_in_progress] is
    untouched before the last READ_PROCESSED and false after it. *)
Theorem C2_single_part_round_trip (s : ssif_bmc) (val : Z) :
  is_multi_part s = false ->
  wf_msg (response s) ->
  2 <= len (response s) <= 33 ->
  let wire_len := Z.to_nat (ssif_msg_len (response s)) in
  (exists s',
      run s ((I2C_SLAVE_READ_REQUESTED, val)
               :: read_processed (wire_len - 1))
      = Some (s', take wire_len (msg_bytes (response s)))
      /\ response_in_progress s' = false)
  /\ (forall n : nat, (n < wire_len - 1)%nat ->
      exists s1,
        run s ((I2C_SLAVE_READ_REQUESTED, val) :: read_processed n)
        = Some (s1, take (S n) (msg_bytes (response s)))
        /\ response_in_progress s1 = response_in_progress s).
Proof.
  intros Hm Hwf Hl wire_len.
  assert (Hw : wire_len = Z.to_nat (len (response s) + 1))
    by (unfold wire_len, ssif_msg_len; rewrite u32_small; lia).
  split.
  - eexists. split.
    + replace (wire_len - 1)%nat with (Z.to_nat (len (response s))) by lia.
      rewrite Hw. apply single_part_full; auto with lia.
    + reflexivity.
  - intros n Hn. eexists. split.
    + apply single_part_prefix; auto with lia.
    + reflexivity.
Qed.

Lemma C2_single_part_round_trip_witness :
  let s := snd (send_ssif_bmc_response (ssif_bmc_probe bus0) true false
                  (sample_msg 5)) in
  exists s',
    run s ((I2C_SLAVE_READ_REQUESTED, 0) :: read_processed 5)
    = Some (s', [5; 0x1c; 0x42; 0; 1; 2])
    /\ response_in_progress s = true
    /\ response_in_progress s' = false.
Proof.
  intros s.
  destruct (C2_single_part_round_trip s 0) as [(s' & H1 & H2) _].
  - reflexivity.
  - reflexivity.
  - simpl. lia.
  - exists s'. split; [exact H1|]. split; [reflexivity | exact H2].
Defined.

(** ** Single-part or multi-part *)

Lemma send_classifies (s : ssif_bmc) (nb sig : bool) (resp : ssif_msg) :
  response_in_progress s = false ->
  0 <= len resp <= 255 ->
  exists s',
    send_ssif_bmc_response s nb sig resp = (Ret0, s')
    /\ response s' = resp
    /\ response_in_progress s' = true
    /\ is_multi_part s' = (33 <=? len resp).
Proof.
  intros Hp Hl. unfold send_ssif_bmc_response, wait_event_interruptible.
  rewrite Hp. cbn [negb]. unfold ssif_msg_len.
  cbn [response with_response with_response_in_progress].
  rewrite u32_small by lia.
  assert (E : (len resp + 1 >? MAX_PAYLOAD_PER_TRANSACTION + 1)
              = (33 <=? len resp)).
  { unfold MAX_PAYLOAD_PER_TRANSACTION. rewrite Z.gtb_ltb.
    destruct (Z.ltb_spec (32 + 1) (len resp + 1));
      destruct (Z.leb_spec 33 (len resp)); lia || reflexivity. }
  rewrite E.
  destruct nb; cbn [negb]; destruct (33 <=? len resp);
    eexists; repeat split.
Qed.

(** ** Emission of a chunk of a multi-part response *)

(** One READ_PROCESSED of a multi-part response: the chunk buffer byte under
    the cursor goes out and the cursor advances; the response is completed
    when the End chunk has gone out. *)
Lemma multi_part_read_processed (s : ssif_bmc) (val b : Z) :
  is_multi_part s = true ->
  chunk_command s = true ->
  0 <= msg_idx s < SIZE_MAX ->
  response_buffer s !! Z.to_nat (msg_idx s) = Some b ->
  let s1 := with_msg_idx s (msg_idx s + 1) in
  ssif_bmc_cb s I2C_SLAVE_READ_PROCESSED val
  = Some (if (block_num s =? 0xFF) && (msg_idx s + 1 >? remain_data_len s)
          then complete_response s1 else s1, b).
Proof.
  intros Hm Hc Hi Hb s1. unfold SIZE_MAX in Hi.
  unfold ssif_bmc_cb, event_process_read. rewrite Hm. cbn [negb].
  unfold chunk_command in Hc. rewrite Hc.
  unfold arr_load.
  destruct (decide (0 <= msg_idx s)) as [_|Hn]; [|exfalso; lia].
  rewrite Hb, size_t_small by lia. fold s1.
  cbn [block_num msg_idx remain_data_len s1 with_msg_idx].
  destruct (_ && _); reflexivity.
Qed.

(** The bytes of a chunk that go out without completing the response. *)
Lemma multi_part_run (n : nat) : forall (s : ssif_bmc) (k : nat),
  is_multi_part s = true ->
  chunk_command s = true ->
  msg_idx s = Z.of_nat k ->
  (k + n <= length (response_buffer s))%nat ->
  (length (response_buffer s) <= 32)%nat ->
  block_num s <> 0xFF \/ Z.of_nat (k + n) <= remain_data_len s ->
  run s (read_processed n)
  = Some (with_msg_idx s (Z.of_nat (k + n)),
          take n (drop k (response_buffer s))).
Proof.
  induction n as [|n IH]; intros s k Hm Hc Hk Hn Hlen Hcompl.
  - cbn [read_processed replicate run take].
    rewrite Nat.add_0_r, <- Hk, with_msg_idx_id. reflexivity.
  - change (read_processed (S n))
      with ((I2C_SLAVE_READ_PROCESSED, 0) :: read_processed n).
    cbn [run].
    destruct (lookup_lt_is_Some_2 (response_buffer s) k) as [b Hb]; [lia|].
    rewrite (multi_part_read_processed s 0 b);
      [| exact Hm | exact Hc | unfold SIZE_MAX; lia
       | rewrite Hk, Nat2Z.id; exact Hb].
    replace ((block_num s =? 0xFF) && (msg_idx s + 1 >? remain_data_len s))
      with false.
    2:{ symmetry. apply andb_false_iff. destruct Hcompl as [Hbn|Hr].
        - left. now apply Z.eqb_neq.
        - right. rewrite Z.gtb_ltb. apply Z.ltb_ge. lia. }
    rewrite (IH _ (S k));
      cbn [is_multi_part response_buffer msg_idx block_num remain_data_len
           with_msg_idx]; auto with lia;
      try (destruct Hcompl as [Hbn|Hr]; [now left | right; lia]).
    rewrite with_msg_idx_twice. cbn [emitted app].
    replace (S k + n)%nat with (k + S n)%nat by lia.
    rewrite (drop_S _ b k) by exact Hb. reflexivity.
Qed.

(** *** In-range array accesses *)

Lemma arr_store_ok (a : list Z) (i v : Z) :
  0 <= i < Z.of_nat (length a) ->
  arr_store a i v = Some (<[Z.to_nat i := v]> a).
Proof.
  intros H. unfold arr_store.
  destruct (decide (0 <= i < Z.of_nat (length a))); [reflexivity | easy].
Qed.

Lemma arr_load_ok (a : list Z) (i : Z) :
  0 <= i -> arr_load a i = a !! Z.to_nat i.
Proof.
  intros H. unfold arr_load.
  destruct (decide (0 <= i)); [reflexivity | easy].
Qed.

Lemma arr_read_ok (a : list Z) (off n : Z) :
  0 <= off -> 0 <= n -> off + n <= Z.of_nat (length a) ->
  arr_read a off n = Some (take (Z.to_nat n) (drop (Z.to_nat off) a)).
Proof.
  intros H1 H2 H3. unfold arr_read.
  destruct (decide _) as [_|Hn]; [reflexivity | exfalso; auto].
Qed.

Lemma arr_write_ok (a : list Z) (off : Z) (d : list Z) :
  0 <= off -> off + Z.of_nat (length d) <= Z.of_nat (length a) ->
  arr_write a off d
  = Some (take (Z.to_nat off) a ++ d ++ drop (Z.to_nat off + length d) a).
Proof.
  intros H1 H2. unfold arr_write.
  destruct (decide _) as [_|Hn]; [reflexivity | exfalso; auto].
Qed.

Lemma length_32_inv (a : list Z) :
  length a = 32%nat ->
  exists x0 x1 x2 x3 x4 rest,
    a = x0 :: x1 :: x2 :: x3 :: x4 :: rest /\ length rest = 27%nat.
Proof.
  intros H. do 5 (destruct a as [|? a]; [discriminate H|]).
  do 6 eexists. split; [reflexivity|]. cbn [length] in H. lia.
Qed.

(** *** The Start chunk *)

Lemma set_response_buffer_start (s : ssif_bmc) :
  smbus_cmd s = SSIF_IPMI_RESPONSE ->
  length (response_buffer s) = 32%nat ->
  wf_msg (response s) ->
  set_response_buffer s
  = Some (with_num_bytes_processed
            (with_response_buffer s
               (0x00 :: 0x01 :: netfn_lun (response s) :: cmd (response s)
                  :: take 28 (payload (response s))))
            (u8 (num_bytes_processed s + 27))).
Proof.
  intros Hc Hbuf Hwf. unfold wf_msg in Hwf.
  change (Z.to_nat MSG_PAYLOAD_LEN_MAX) with 252%nat in Hwf.
  unfold set_response_buffer. rewrite Hc.
  cbn [Z.eqb Pos.eqb SSIF_IPMI_RESPONSE].
  destruct (length_32_inv _ Hbuf) as (x0 & x1 & x2 & x3 & x4 & rest & -> & Hr).
  destruct (payload (response s)) as [|p0 p] eqn:Hp; [discriminate Hwf|].
  cbn [length] in Hwf.
  rewrite !arr_store_ok by (rewrite ?length_insert; cbn [length]; lia).
  rewrite arr_load_ok by lia.
  change (u8 (MAX_PAYLOAD_PER_TRANSACTION - 5)) with 27.
  rewrite arr_read_ok by (cbn [length]; lia).
  change ((p0 :: p) !! Z.to_nat 0) with (Some p0). cbv beta iota.
  rewrite arr_store_ok by (rewrite ?length_insert; cbn [length]; lia).
  assert (Hd : length (take (Z.to_nat 27) (drop (Z.to_nat 1) (p0 :: p)))
               = 27%nat)
    by (rewrite length_take, length_drop; cbn [length]; lia).
  rewrite arr_write_ok by (rewrite ?Hd, ?length_insert; cbn [length]; lia).
  rewrite Hd. do 2 f_equal.
  simpl. rewrite (drop_ge rest) by lia. rewrite app_nil_r. reflexivity.
Qed.

(** *** Middle and End chunks *)

Lemma set_response_buffer_middle (s : ssif_bmc) :
  smbus_cmd s = SSIF_IPMI_MULTI_PART_RESPONSE_MIDDLE ->
  length (response_buffer s) = 32%nat ->
  let response_data_len :=
    if remain_data_len s <? MAX_IPMI_DATA_PER_MIDDLE_TRANSACTION
    then remain_data_len s else MAX_IPMI_DATA_PER_MIDDLE_TRANSACTION in
  0 <= response_data_len ->
  0 <= num_bytes_processed s ->
  1 + num_bytes_processed s + response_data_len
  <= Z.of_nat (length (payload (response s))) ->
  set_response_buffer s
  = Some (with_num_bytes_processed
            (with_response_buffer s
               (block_num s
                  :: take (Z.to_nat response_data_len)
                       (drop (Z.to_nat (1 + num_bytes_processed s))
                          (payload (response s)))
                  ++ drop (S (Z.to_nat response_data_len))
                       (response_buffer s)))
            (u8 (num_bytes_processed s + response_data_len))).
Proof.
  intros Hc Hbuf rdl Hr Hn Hp.
  assert (Hr31 : rdl <= 31).
  { unfold rdl, MAX_IPMI_DATA_PER_MIDDLE_TRANSACTION.
    destruct (Z.ltb_spec (remain_data_len s) 31); lia. }
  unfold set_response_buffer. rewrite Hc.
  cbn [Z.eqb Pos.eqb SSIF_IPMI_RESPONSE SSIF_IPMI_MULTI_PART_RESPONSE_MIDDLE].
  fold rdl.
  destruct (response_buffer s) as [|x0 buf] eqn:Hb; [discriminate Hbuf|].
  cbn [length] in Hbuf.
  rewrite arr_store_ok by (cbn [length]; lia).
  rewrite arr_read_ok by lia.
  set (d := take (Z.to_nat rdl) _).
  assert (Hd : length d = Z.to_nat rdl)
    by (unfold d; rewrite length_take, length_drop; lia).
  rewrite arr_write_ok by (rewrite ?Hd, ?length_insert; cbn [length]; lia).
  rewrite Hd. reflexivity.
Qed.

(** *** Block reads *)

Lemma smbus_write_command_only (s : ssif_bmc) (c : Z) :
  run s (smbus_write c []) = Some (with_msg_idx (with_smbus_cmd s c) 1, []).
Proof. now rewrite smbus_write_command. Qed.

(** The Start transaction: the master gets the byte count 32 and the Start
    chunk; the Middle and End cursors are set up. *)
Lemma block_read_start (s : ssif_bmc) :
  is_multi_part s = true ->
  length (response_buffer s) = 32%nat ->
  wf_msg (response s) ->
  let chunk := 0x00 :: 0x01 :: netfn_lun (response s) :: cmd (response s)
                 :: take 28 (payload (response s)) in
  exists s',
    smbus_block_read s SSIF_IPMI_RESPONSE = Some (s', 32, chunk)
    /\ response s' = response s
    /\ is_multi_part s' = true
    /\ response_in_progress s' = response_in_progress s
    /\ response_buffer s' = chunk
    /\ remain_data_len s' = u8 (len (response s) - 30)
    /\ num_bytes_processed s' = u8 (num_bytes_processed s + 27)
    /\ block_num s' = 0
    /\ wait_queue s' = wait_queue s.
Proof.
  intros Hm Hbuf Hwf chunk.
  assert (Hchunk : length chunk = 32%nat).
  { unfold chunk. cbn [length]. rewrite length_take, Hwf.
    change (Z.to_nat MSG_PAYLOAD_LEN_MAX) with 252%nat. lia. }
  unfold smbus_block_read. rewrite smbus_write_command_only.
  cbn [ssif_bmc_cb]. unfold event_request_read.
  cbn [is_multi_part with_msg_idx with_smbus_cmd smbus_cmd]. rewrite Hm.
  cbn [negb Z.eqb Pos.eqb SSIF_IPMI_RESPONSE].
  match goal with
  | |- context [set_response_buffer ?x] => set (sd := x)
  end.
  assert (Hsd : smbus_cmd sd = SSIF_IPMI_RESPONSE
                /\ response_buffer sd = response_buffer s
                /\ response sd = response s
                /\ is_multi_part sd = is_multi_part s
                /\ response_in_progress sd = response_in_progress s
                /\ remain_data_len sd = u8 (len (response s) - 30)
                /\ num_bytes_processed sd = num_bytes_processed s
                /\ block_num sd = 0
                /\ msg_idx sd = 0
                /\ wait_queue sd = wait_queue s)
    by (unfold sd; destruct (_ >? _); repeat split).
  destruct Hsd as (Hd1 & Hd2 & Hd3 & Hd4 & Hd5 & Hd6 & Hd7 & Hd8 & Hd9 & Hd10).
  rewrite (set_response_buffer_start sd)
    by (rewrite ?Hd2, ?Hd3; assumption).
  rewrite Hd3, Hd7. fold chunk.
  set (se := with_num_bytes_processed (with_response_buffer sd chunk) _).
  change (Z.to_nat MAX_PAYLOAD_PER_TRANSACTION) with 32%nat.
  rewrite (multi_part_run 32 se 0);
    [ | rewrite <- Hm, <- Hd4; reflexivity
      | unfold chunk_command; cbn [se smbus_cmd with_num_bytes_processed
          with_response_buffer]; rewrite Hd1; reflexivity
      | exact Hd9
      | cbn [se response_buffer with_num_bytes_processed
             with_response_buffer]; lia
      | cbn [se response_buffer with_num_bytes_processed
             with_response_buffer]; lia
      | left; cbn [se block_num with_num_bytes_processed
                   with_response_buffer]; rewrite Hd8; discriminate ].
  cbn [ssif_bmc_cb]. eexists. split.
  - do 2 f_equal.
    cbn [se response_buffer with_num_bytes_processed with_response_buffer].
    cbn [drop]. rewrite <- Hchunk. apply firstn_all.
  - cbn [se response is_multi_part response_in_progress response_buffer
         remain_data_len num_bytes_processed block_num wait_queue
         with_msg_idx with_num_bytes_processed with_response_buffer].
    rewrite Hd3, Hd4, Hd5, Hd6, Hd8, Hd10. repeat split. exact Hm.
Qed.

(** The End transaction: the master gets the byte count
    [remain_data_len + 1] and the End chunk with block number 0xFF; the
    last acknowledged byte completes the response. *)
Lemma block_read_end (s : ssif_bmc) :
  is_multi_part s = true ->
  length (response_buffer s) = 32%nat ->
  0 <= remain_data_len s <= 31 ->
  0 <= num_bytes_processed s ->
  1 + num_bytes_processed s + remain_data_len s
  <= Z.of_nat (length (payload (response s))) ->
  let chunk := 0xFF :: take (Z.to_nat (remain_data_len s))
                         (drop (Z.to_nat (1 + num_bytes_processed s))
                            (payload (response s))) in
  exists s',
    smbus_block_read s SSIF_IPMI_MULTI_PART_RESPONSE_MIDDLE
    = Some (s', remain_data_len s + 1, chunk)
    /\ response_in_progress s' = false
    /\ len (response s') = 0
    /\ block_num s' = 0xFF
    /\ wait_queue s' = S (wait_queue s).
Proof.
  intros Hm Hbuf Hr Hn Hp chunk.
  set (n := Z.to_nat (remain_data_len s)).
  set (data := take n (drop (Z.to_nat (1 + num_bytes_processed s))
                         (payload (response s)))) in *.
  assert (Hdata : length data = n)
    by (unfold data; rewrite length_take, length_drop; lia).
  unfold smbus_block_read. rewrite smbus_write_command_only.
  cbn [ssif_bmc_cb]. unfold event_request_read.
  cbn [is_multi_part with_msg_idx with_smbus_cmd smbus_cmd remain_data_len].
  rewrite Hm.
  cbn [negb Z.eqb Pos.eqb SSIF_IPMI_RESPONSE
       SSIF_IPMI_MULTI_PART_RESPONSE_MIDDLE].
  replace (remain_data_len s <=? MAX_IPMI_DATA_PER_MIDDLE_TRANSACTION)
    with true by (symmetry; apply Z.leb_le; apply Hr).
  set (sd := with_block_num _ 255).
  rewrite (set_response_buffer_middle sd);
    cbn [sd smbus_cmd response_buffer remain_data_len num_bytes_processed
         response block_num with_block_num with_msg_idx with_smbus_cmd];
    [ | reflexivity | exact Hbuf
      | destruct (Z.ltb_spec (remain_data_len s)
                    MAX_IPMI_DATA_PER_MIDDLE_TRANSACTION);
        unfold MAX_IPMI_DATA_PER_MIDDLE_TRANSACTION in *; lia
      | exact Hn
      | destruct (Z.ltb_spec (remain_data_len s)
                    MAX_IPMI_DATA_PER_MIDDLE_TRANSACTION);
        unfold MAX_IPMI_DATA_PER_MIDDLE_TRANSACTION in *; lia ].
  replace (if remain_data_len s <? MAX_IPMI_DATA_PER_MIDDLE_TRANSACTION
           then remain_data_len s else MAX_IPMI_DATA_PER_MIDDLE_TRANSACTION)
    with (remain_data_len s)
    by (unfold MAX_IPMI_DATA_PER_MIDDLE_TRANSACTION;
        destruct (Z.ltb_spec (remain_data_len s) 31); lia).
  fold n. fold data.
  set (buf := 255 :: data ++ drop (S n) (response_buffer s)).
  assert (Hlen : length buf = 32%nat).
  { unfold buf. cbn [length]. rewrite length_app, length_drop, Hdata. lia. }
  set (se := with_num_bytes_processed (with_response_buffer sd buf) _).
  rewrite (u8_small (remain_data_len s + 1)) by lia.
  replace (Z.to_nat (remain_data_len s + 1)) with (S n) by lia.
  unfold read_processed. rewrite replicate_S_end. fold (read_processed n).
  rewrite run_app.
  rewrite (multi_part_run n se 0);
    [ | exact Hm | reflexivity | reflexivity
      | cbn [se response_buffer with_num_bytes_processed
             with_response_buffer]; lia
      | cbn [se response_buffer with_num_bytes_processed
             with_response_buffer]; lia
      | right; cbn [se remain_data_len sd with_num_bytes_processed
                    with_response_buffer with_block_num with_msg_idx
                    with_smbus_cmd]; lia ].
  destruct (lookup_lt_is_Some_2 buf n) as [b Hb]; [lia|].
  cbn [run Nat.add].
  rewrite (multi_part_read_processed _ 0 b);
    [ | exact Hm | reflexivity
      | unfold SIZE_MAX; cbn [msg_idx with_msg_idx]; lia
      | cbn [msg_idx with_msg_idx response_buffer se
             with_num_bytes_processed with_response_buffer];
        rewrite Nat2Z.id; exact Hb ].
  cbn [block_num msg_idx remain_data_len se sd with_msg_idx
       with_num_bytes_processed with_response_buffer with_block_num
       with_smbus_cmd Z.eqb Pos.eqb andb].
  replace (Z.of_nat n + 1 >? remain_data_len s) with true
    by (symmetry; rewrite Z.gtb_ltb; apply Z.ltb_lt; lia).
  cbn [ssif_bmc_cb]. eexists. split.
  - do 2 f_equal.
    cbn [emitted app response_buffer with_num_bytes_processed
         with_response_buffer drop].
    change (drop 0 (response_buffer se)) with buf.
    rewrite <- (take_S_r buf n b) by exact Hb.
    unfold chunk, buf. cbn [take]. f_equal.
    now apply take_app_length'.
  - repeat split.
Qed.

(** *** A response that fits a Start and an End chunk *)

(** With a length field in [33, 61] the data left after the Start chunk
    fits the End chunk: the two chunks carry the IPMI data of the message
    in order. *)
Lemma multi_part_read_start_end (s : ssif_bmc) :
  is_multi_part s = true ->
  length (response_buffer s) = 32%nat ->
  wf_msg (response s) ->
  33 <= len (response s) <= 61 ->
  num_bytes_processed s = 0 ->
  let m := response s in
  let start := (32, 0x00 :: 0x01 :: netfn_lun m :: cmd m
                      :: take 28 (payload m)) in
  let fin := (len m - 30 + 1,
              0xFF :: take (Z.to_nat (len m - 30)) (drop 28 (payload m))) in
  exists s',
    ssif_multi_part_read s = Some (s', start, [fin])
    /\ response_in_progress s' = false
    /\ ipmi_data start [fin] = msg_data m
    /\ block_numbers start [fin] = [Some 0; Some 0xFF].
Proof.
  intros Hm Hbuf Hwf Hl Hn m start fin. subst m start fin.
  assert (Hpl : length (payload (response s)) = 252%nat) by exact Hwf.
  unfold ssif_multi_part_read.
  destruct (block_read_start s Hm Hbuf Hwf)
    as (s1 & -> & Hr1 & Hm1 & _ & Hb1 & Hrem1 & Hn1 & _ & _).
  rewrite Hn, u8_small in Hn1 by lia.
  rewrite u8_small in Hrem1 by lia.
  cbn [read_middle_parts].
  destruct (block_read_end s1) as (s2 & Hend & Hp2 & _).
  - exact Hm1.
  - rewrite Hb1. cbn [length]. rewrite length_take. lia.
  - lia.
  - lia.
  - rewrite Hr1, Hrem1, Hn1, Hpl. lia.
  - rewrite Hend. rewrite Hr1, Hrem1, Hn1. cbn [is_end_chunk Z.eqb Pos.eqb].
    exists s2. split; [reflexivity|]. split; [exact Hp2|].
    split; [|reflexivity].
    unfold ipmi_data, msg_data.
    cbn [snd drop map concat]. rewrite app_nil_r. cbn [app].
    do 2 f_equal.
    change (Z.to_nat (1 + (0 + 27))) with 28%nat.
    rewrite drop_0, take_take_drop. f_equal. lia.
Qed.

(** ** End-to-end scenario *)

(** C3 (as stated, refuted): after the four request bytes
    [0x02 0x03 0x20 0x01] the request is not complete, so nothing can be
    received; and the End chunk of a 40-byte response announces 10 bytes
    (11 when 40 is the value of the length field), not 9. *)
Lemma C3_scenario_as_stated_fails :
  (exists s1,
      run (ssif_bmc_probe bus0) (smbus_write 0x02 [0x03; 0x20; 0x01])
      = Some (s1, [])
      /\ request_available s1 = false
      /\ receive_ssif_bmc_request s1 true false zero_msg
         = (RetErr EAGAIN, zero_msg, s1)
      /\ receive_ssif_bmc_request s1 false false zero_msg
         = (Sleeping, zero_msg, s1))
  /\ (forall l : Z, l = 39 \/ l = 40 ->
      let s3 := snd (send_ssif_bmc_response (ssif_bmc_probe bus0) true false
                       (sample_msg l)) in
      exists s4 start count fin,
        ssif_multi_part_read s3 = Some (s4, (32, start), [(count, fin)])
        /\ head fin = Some 0xFF
        /\ count = l - 30 + 1
        /\ count <> (40 - 32) + 1).
Proof.
  split.
  - eexists. vm_compute. repeat split.
  - intros l [-> | ->]; do 4 eexists; vm_compute;
      repeat split; discriminate.
Qed.

(** C3 (amended): the request bytes [0x02 0x02 0x20 0x01] written by the
    master make [receive_ssif_bmc_request] hand out the message with length
    2, netfn_lun 0x20 and cmd 0x01; a 40-byte response (length field 39)
    submitted afterwards goes out as a 32-byte Start chunk and one End
    chunk that announces (39 - 30) + 1 = 10 bytes and carries block number
    0xFF, after which no response is in progress. *)
Theorem C3_end_to_end (bus : aspeed_i2c_bus) (nb sig : bool)
    (out resp : ssif_msg) :
  wf_msg resp ->
  len resp = 39 ->
  exists s1 s2 s3 s4 req,
    run (ssif_bmc_probe bus) (smbus_write SSIF_IPMI_REQUEST [0x02; 0x20; 0x01])
    = Some (s1, [])
    /\ receive_ssif_bmc_request s1 nb sig out = (Ret0, req, s2)
    /\ len req = 2 /\ netfn_lun req = 0x20 /\ cmd req = 0x01
    /\ send_ssif_bmc_response s2 nb sig resp = (Ret0, s3)
    /\ ssif_multi_part_read s3
       = Some (s4,
               (32, 0x00 :: 0x01 :: netfn_lun resp :: cmd resp
                      :: take 28 (payload resp)),
               [(10, 0xFF :: take 9 (drop 28 (payload resp)))])
    /\ response_in_progress s4 = false.
Proof.
  intros Hwf Hl.
  set (req := Build_ssif_msg 2 0x20 1 (replicate 252 0)).
  set (s1 := handle_request
               (with_msg_idx
                  (with_request (with_smbus_cmd (ssif_bmc_probe bus) 2) req)
                  4)).
  set (s2 := with_request_available s1 false).
  set (s3 := with_is_multi_part
               (with_response_in_progress (with_response s2 resp) true) true).
  destruct (multi_part_read_start_end s3) as (s4 & Hread & Hdone & _).
  - reflexivity.
  - reflexivity.
  - exact Hwf.
  - cbn [s3 response with_is_multi_part with_response_in_progress
         with_response]. lia.
  - reflexivity.
  - exists s1, s2, s3, s4, req.
    split; [reflexivity|].
    split; [apply (receive_available s1); reflexivity|].
    do 3 (split; [reflexivity|]).
    split.
    + unfold send_ssif_bmc_response, wait_event_interruptible.
      change (response_in_progress s2) with false.
      cbn [negb response with_response with_response_in_progress].
      unfold ssif_msg_len. rewrite Hl.
      destruct nb; reflexivity.
    + split; [|exact Hdone].
      rewrite Hread.
      cbn [s3 response with_is_multi_part with_response_in_progress
           with_response].
      rewrite Hl. reflexivity.
Qed.

Lemma C3_end_to_end_witness :
  exists s1 s2 s3 s4 req,
    run (ssif_bmc_probe bus0) (smbus_write SSIF_IPMI_REQUEST [0x02; 0x20; 0x01])
    = Some (s1, [])
    /\ receive_ssif_bmc_request s1 true false zero_msg = (Ret0, req, s2)
    /\ len req = 2 /\ netfn_lun req = 0x20 /\ cmd req = 0x01
    /\ send_ssif_bmc_response s2 true false (sample_msg 39) = (Ret0, s3)
    /\ ssif_multi_part_read s3
       = Some (s4,
               (32, 0x00 :: 0x01 :: netfn_lun (sample_msg 39)
                      :: cmd (sample_msg 39)
                      :: take 28 (payload (sample_msg 39))),
               [(10, 0xFF :: take 9 (drop 28 (payload (sample_msg 39))))])
    /\ response_in_progress s4 = false.
Proof.
  apply (C3_end_to_end bus0 true false zero_msg (sample_msg 39));
    reflexivity.
Defined.

(** ** Multi-part segmentation *)

(** The defect behind the short Middle chunk, for every context: a Middle
    transaction that leaves fewer than 31 bytes announces 32 bytes, but
    [set_response_buffer] takes the copy length from the remainder that
    [event_request_read] has already reduced by 31.  Only that many payload
    bytes are copied and counted; the rest of the chunk buffer is what the
    previous chunk left there. *)
Lemma middle_chunk_short (s : ssif_bmc) (val : Z) :
  is_multi_part s = true ->
  smbus_cmd s = SSIF_IPMI_MULTI_PART_RESPONSE_MIDDLE ->
  length (response_buffer s) = 32%nat ->
  wf_msg (response s) ->
  31 < remain_data_len s < 62 ->
  0 <= num_bytes_processed s ->
  1 + num_bytes_processed s + (remain_data_len s - 31) <= 252 ->
  let copied := remain_data_len s - 31 in
  exists s',
    ssif_bmc_cb s I2C_SLAVE_READ_REQUESTED val = Some (s', 32)
    /\ remain_data_len s' = copied
    /\ num_bytes_processed s' = u8 (num_bytes_processed s + copied)
    /\ take (Z.to_nat copied) (drop 1 (response_buffer s'))
       = take (Z.to_nat copied)
           (drop (Z.to_nat (1 + num_bytes_processed s))
              (payload (response s)))
    /\ drop (S (Z.to_nat copied)) (response_buffer s')
       = drop (S (Z.to_nat copied)) (response_buffer s).
Proof.
  intros Hm Hc Hbuf Hwf Hr Hn Hp copied.
  assert (Hpl : length (payload (response s)) = 252%nat) by exact Hwf.
  cbn [ssif_bmc_cb]. unfold event_request_read.
  cbn [is_multi_part with_msg_idx smbus_cmd remain_data_len response].
  rewrite Hm, Hc.
  cbn [negb Z.eqb Pos.eqb SSIF_IPMI_RESPONSE
       SSIF_IPMI_MULTI_PART_RESPONSE_MIDDLE].
  replace (remain_data_len s <=? MAX_IPMI_DATA_PER_MIDDLE_TRANSACTION)
    with false by (symmetry; apply Z.leb_gt; apply Hr).
  match goal with
  | |- context [set_response_buffer ?x] => set (sd := x)
  end.
  assert (Hsd : smbus_cmd sd = SSIF_IPMI_MULTI_PART_RESPONSE_MIDDLE
                /\ response_buffer sd = response_buffer s
                /\ response sd = response s
                /\ remain_data_len sd = copied
                /\ num_bytes_processed sd = num_bytes_processed s).
  { unfold sd, copied, MAX_IPMI_DATA_PER_MIDDLE_TRANSACTION.
    destruct (negb (middle_start_response _));
      cbn [smbus_cmd response_buffer response remain_data_len
           num_bytes_processed with_remain_data_len with_block_num
           with_middle_start_response with_msg_idx];
      rewrite u8_small by lia; repeat split; exact Hc. }
  destruct Hsd as (Hd1 & Hd2 & Hd3 & Hd4 & Hd5).
  assert (Hrdl : (if remain_data_len sd
                     <? MAX_IPMI_DATA_PER_MIDDLE_TRANSACTION
                  then remain_data_len sd
                  else MAX_IPMI_DATA_PER_MIDDLE_TRANSACTION) = copied).
  { rewrite Hd4. unfold MAX_IPMI_DATA_PER_MIDDLE_TRANSACTION, copied.
    destruct (Z.ltb_spec (remain_data_len s - 31) 31); lia. }
  rewrite (set_response_buffer_middle sd);
    rewrite ?Hrdl, ?Hd2, ?Hd3, ?Hd5, ?Hpl; unfold copied;
    try assumption; try lia.
  fold copied.
  set (data := take (Z.to_nat copied) _).
  assert (Hdata : length data = Z.to_nat copied)
    by (unfold data; rewrite length_take, length_drop; lia).
  eexists. split; [reflexivity|].
  cbn [remain_data_len num_bytes_processed response_buffer
       with_num_bytes_processed with_response_buffer].
  split; [exact Hd4|]. split; [reflexivity|].
  split.
  - cbn [drop]. rewrite drop_0. now apply take_app_length'.
  - cbn [drop]. rewrite drop_app_length' by (symmetry; exact Hdata).
    destruct (response_buffer s) as [|x0 buf]; [discriminate Hbuf|].
    reflexivity.
Qed.

(** C1 (the code at a failing input): for a response with length field 70
    the master reads a Start chunk, one Middle chunk and the End chunk,
    with block numbers 0, 0 and 0xFF.  The Middle chunk announces 32 bytes
    but only its first 9 data bytes are the next payload bytes; the other
    22 are what the Start chunk left in the buffer, and the End chunk
    resumes 9 bytes, not 31, after the Start chunk.  The IPMI data of the
    chunks is not the IPMI data of the message. *)
Theorem C1_middle_chunk_short_copy :
  let m := sample_msg 70 in
  let s := snd (send_ssif_bmc_response (ssif_bmc_probe bus0) true false m) in
  exists s' start mid fin,
    ssif_multi_part_read s = Some (s', (32, start), [(32, mid); (10, fin)])
    /\ block_numbers (32, start) [(32, mid); (10, fin)]
       = [Some 0; Some 0; Some 0xFF]
    /\ start = 0 :: 1 :: netfn_lun m :: cmd m :: take 28 (payload m)
    /\ take 9 (drop 1 mid) = take 9 (drop 28 (payload m))
    /\ drop 10 mid = drop 10 start
    /\ drop 1 mid <> take 31 (drop 28 (payload m))
    /\ drop 1 fin = take 9 (drop 37 (payload m))
    /\ drop 1 fin <> take 9 (drop 59 (payload m))
    /\ length (ipmi_data (32, start) [(32, mid); (10, fin)])
       = length (msg_data m)
    /\ ipmi_data (32, start) [(32, mid); (10, fin)] <> msg_data m.
Proof.
  do 4 eexists. vm_compute. repeat split; discriminate.
Qed.

(** ** The multi-part flag after completion *)

(** [is_multi_part] is written by [send_ssif_bmc_response] only.  With the
    flag set and command [SSIF_IPMI_RESPONSE], READ_REQUESTED supplies the
    byte count 32 and rebuilds the Start chunk from the response struct,
    whatever its length field holds: the zero-length workaround is not
    reached. *)
Lemma read_requested_flag_set (s : ssif_bmc) (val : Z) :
  is_multi_part s = true ->
  smbus_cmd s = SSIF_IPMI_RESPONSE ->
  length (response_buffer s) = 32%nat ->
  wf_msg (response s) ->
  exists s',
    ssif_bmc_cb s I2C_SLAVE_READ_REQUESTED val = Some (s', 32)
    /\ response s' = response s
    /\ response_in_progress s' = response_in_progress s
    /\ response_buffer s'
       = 0x00 :: 0x01 :: netfn_lun (response s) :: cmd (response s)
           :: take 28 (payload (response s))
    /\ remain_data_len s' = u8 (len (response s) - 30).
Proof.
  intros Hm Hc Hbuf Hwf.
  cbn [ssif_bmc_cb]. unfold event_request_read.
  cbn [is_multi_part with_msg_idx smbus_cmd]. rewrite Hm, Hc.
  cbn [negb Z.eqb Pos.eqb SSIF_IPMI_RESPONSE].
  match goal with
  | |- context [set_response_buffer ?x] => set (sd := x)
  end.
  assert (Hsd : smbus_cmd sd = SSIF_IPMI_RESPONSE
                /\ response_buffer sd = response_buffer s
                /\ response sd = response s
                /\ response_in_progress sd = response_in_progress s
                /\ remain_data_len sd = u8 (len (response s) - 30))
    by (unfold sd; destruct (_ >? _); repeat split; exact Hc).
  destruct Hsd as (Hd1 & Hd2 & Hd3 & Hd4 & Hd5).
  rewrite (set_response_buffer_start sd)
    by (rewrite ?Hd2, ?Hd3; assumption).
  eexists. split; [reflexivity|].
  cbn [response response_in_progress response_buffer remain_data_len
       with_num_bytes_processed with_response_buffer].
  rewrite Hd3, Hd4, Hd5. repeat split.
Qed.

(** C8 (the code at a failing input): a 40-byte response is submitted
    with [ssif_bmc_write] and read by the master in full, Start chunk and
    End chunk.  Afterwards no response is in progress and the length field
    of the response is 0, but [is_multi_part] is still set and the slave is
    still listening.  On the master's next read with command
    [SSIF_IPMI_RESPONSE], READ_REQUESTED supplies 32, not 1, and the chunk
    buffer holds the Start chunk of the response that was already sent;
    [remain_data_len] wraps to 226. *)
Theorem C8_stale_multi_part_flag :
  let m := sample_msg 39 in
  let s1 := snd (ssif_bmc_write (ssif_bmc_probe bus0) true false zero_msg
                   (msg_bytes m) 40) in
  exists s2 start fin s3 s4,
    ssif_multi_part_read s1 = Some (s2, start, [fin])
    /\ ipmi_data start [fin] = msg_data m
    /\ response_in_progress s2 = false
    /\ len (response s2) = 0
    /\ is_multi_part s2 = true
    /\ slave_listening (i2c_bus s2) = true
    /\ run s2 (smbus_write SSIF_IPMI_RESPONSE []) = Some (s3, [])
    /\ len (response s3) = 0
    /\ ssif_bmc_cb s3 I2C_SLAVE_READ_REQUESTED 0 = Some (s4, 32)
    /\ response_buffer s4
       = 0x00 :: 0x01 :: netfn_lun m :: cmd m :: take 28 (payload m)
    /\ remain_data_len s4 = 226.
Proof.
  do 5 eexists. vm_compute. repeat split.
Qed.

(** ** The cursor stays in range *)

Lemma arr_store_length (a a' : list Z) (i v : Z) :
  arr_store a i v = Some a' -> length a' = length a.
Proof.
  unfold arr_store. destruct (decide _); intros H; inversion H.
  apply length_insert.
Qed.

Lemma arr_write_length (a a' d : list Z) (off : Z) :
  arr_write a off d = Some a' -> length a' = length a.
Proof.
  unfold arr_write. destruct (decide _) as [[H1 H2]|]; intros H; inversion H.
  rewrite !length_app, length_take, length_drop. lia.
Qed.

Lemma set_response_buffer_inv (s s' : ssif_bmc) :
  set_response_buffer s = Some s' ->
  response s' = response s
  /\ msg_idx s' = msg_idx s
  /\ length (response_buffer s') = length (response_buffer s).
Proof.
  unfold set_response_buffer. intros H.
  repeat case_match; simplify_eq;
    cbn [response msg_idx response_buffer with_num_bytes_processed
         with_response_buffer pr_err];
    repeat split;
    repeat match goal with
      | E : arr_store _ _ _ = Some _ |- _ =>
          apply arr_store_length in E
      | E : arr_write _ _ _ = Some _ |- _ =>
          apply arr_write_length in E
      end; congruence.
Qed.

Lemma event_request_read_inv (s s' : ssif_bmc) (v o : Z) :
  event_request_read s v = Some (s', o) ->
  response s' = response s
  /\ msg_idx s' = msg_idx s
  /\ length (response_buffer s') = length (response_buffer s).
Proof.
  unfold event_request_read. intros H.
  repeat case_match; simplify_eq; try (repeat split; reflexivity);
    match goal with
    | E : set_response_buffer _ = Some _ |- _ =>
        apply set_response_buffer_inv in E; destruct E as (E1 & E2 & E3);
        rewrite E1, E2, E3
    end; repeat split.
Qed.

Lemma cursor_inv_probe (bus : aspeed_i2c_bus) : cursor_inv (ssif_bmc_probe bus).
Proof. unfold cursor_inv. cbn. repeat split; lia. Qed.

Lemma cursor_inv_complete_response (s : ssif_bmc) :
  cursor_inv s -> cursor_inv (complete_response s).
Proof.
  unfold cursor_inv.
  cbn [complete_response response response_buffer msg_idx wake_up_all
       with_response_buffer with_remain_data_len with_num_bytes_processed
       with_response_in_progress with_response len].
  intros (H1 & H2 & H3). repeat split; try lia.
Qed.

Lemma cursor_inv_step (s s' : ssif_bmc) (e : i2c_slave_event) (v o : Z) :
  ssif_bmc_cb s e v = Some (s', o) ->
  cursor_inv s -> cursor_inv s'.
Proof.
  intros H (H1 & H2 & H3). destruct e; cbn [ssif_bmc_cb] in H.
  - apply event_request_read_inv in H. destruct H as (E1 & E2 & E3).
    unfold cursor_inv. rewrite E1, E2, E3.
    cbn [response response_buffer msg_idx with_msg_idx].
    repeat split; lia.
  - inversion H; subst. unfold cursor_inv.
    cbn [response response_buffer msg_idx with_msg_idx]. repeat split; lia.
  - unfold event_process_read in H.
    assert (Hc : forall (b : bool) t val,
               cursor_inv t ->
               (if b then Some (complete_response t, val) else Some (t, val))
               = Some (s', o) -> cursor_inv s').
    { intros [] t val Ht E; inversion E; subst;
        [now apply cursor_inv_complete_response | exact Ht]. }
    destruct (negb (is_multi_part s)).
    + destruct (negb (len (response s) =? 0)
                && (msg_idx s <? ssif_msg_len (response s))) eqn:Hcond;
        cbn beta iota in H.
      * destruct (msg_load _ _); [|discriminate].
        apply Hc in H; [exact H|].
        apply andb_true_iff in Hcond as [_ Hlt]. apply Z.ltb_lt in Hlt.
        unfold ssif_msg_len in Hlt. rewrite u32_small in Hlt by lia.
        unfold cursor_inv.
        cbn [response response_buffer msg_idx with_msg_idx].
        rewrite size_t_small by lia. repeat split; lia.
      * apply Hc in H; [exact H|]. repeat split; lia.
    + destruct ((smbus_cmd s =? SSIF_IPMI_RESPONSE)
                || (smbus_cmd s =? SSIF_IPMI_MULTI_PART_RESPONSE_MIDDLE));
        cbn beta iota in H.
      * destruct (arr_load _ _) eqn:Hload; [|discriminate].
        apply Hc in H; [exact H|].
        unfold arr_load in Hload.
        destruct (decide (0 <= msg_idx s)); [|discriminate].
        apply lookup_lt_Some in Hload.
        unfold cursor_inv.
        cbn [response response_buffer msg_idx with_msg_idx].
        rewrite size_t_small by lia. repeat split; lia.
      * apply Hc in H; [exact H|]. unfold cursor_inv.
        cbn [response response_buffer msg_idx pr_err]. repeat split; lia.
  - destruct (Z.eqb_spec (msg_idx s) 0) as [Hz|Hnz].
    + inversion H; subst. unfold cursor_inv.
      cbn [response response_buffer msg_idx with_msg_idx with_smbus_cmd].
      rewrite size_t_small by lia. repeat split; lia.
    + destruct (Z.geb_spec (msg_idx s) sizeof_ssif_msg) as [Hge|Hlt].
      * inversion H; subst. repeat split; lia.
      * destruct (msg_store _ _ _); [|discriminate].
        unfold sizeof_ssif_msg, MSG_PAYLOAD_LEN_MAX in Hlt.
        cbn [msg_idx with_msg_idx with_request request] in H.
        destruct (_ >=? _); inversion H; subst; unfold cursor_inv;
          cbn [handle_request response response_buffer msg_idx with_msg_idx
               with_request wake_up_all with_response
               with_request_available with_i2c_bus zero_msg len];
          rewrite ?size_t_small by lia; repeat split; lia.
  - inversion H; subst. unfold cursor_inv.
    cbn [response response_buffer msg_idx with_msg_idx]. repeat split; lia.
Qed.

Lemma cursor_inv_send (s : ssif_bmc) (nb sig : bool) (resp : ssif_msg) :
  0 <= len resp <= 255 ->
  cursor_inv s ->
  cursor_inv (snd (send_ssif_bmc_response s nb sig resp)).
Proof.
  intros Hl (H1 & H2 & H3).
  unfold send_ssif_bmc_response, wait_event_interruptible.
  destruct nb, (response_in_progress s), sig; cbn [negb snd];
    first [ now repeat split
          | destruct (ssif_msg_len _ >? _); now repeat split ].
Qed.

Lemma cursor_below_size_max (s : ssif_bmc) :
  cursor_inv s -> 0 <= msg_idx s < SIZE_MAX.
Proof. intros (_ & _ & H). unfold SIZE_MAX. lia. Qed.

(** * Further properties of the driver *)

(** ** Submitting a response through the device *)

Lemma msg_bytes_of_bytes (l : list Z) :
  (3 <= length l)%nat -> msg_bytes (msg_of_bytes l) = l.
Proof.
  intros H. do 3 (destruct l as [|? l]; [cbn in H; lia|]). reflexivity.
Qed.

Lemma copy_from_user_ok (dst : ssif_msg) (ubuf : list Z) (count : Z) :
  wf_msg dst ->
  0 <= count <= Z.of_nat (length ubuf) ->
  count <= sizeof_ssif_msg ->
  exists m,
    copy_from_user dst ubuf count = Some m
    /\ msg_bytes m
       = take (Z.to_nat count) ubuf ++ drop (Z.to_nat count) (msg_bytes dst)
    /\ wf_msg m.
Proof.
  intros Hwf Hc Hs. unfold sizeof_ssif_msg, MSG_PAYLOAD_LEN_MAX in Hs.
  assert (Hlen : length (msg_bytes dst) = 255%nat)
    by (now rewrite (msg_bytes_length _ Hwf)).
  assert (Ht : length (take (Z.to_nat count) ubuf) = Z.to_nat count)
    by (rewrite length_take; lia).
  unfold copy_from_user.
  destruct (decide (0 <= count <= Z.of_nat (length ubuf))) as [_|Hn];
    [|contradiction].
  rewrite arr_write_ok by (rewrite ?Ht, ?Hlen; lia).
  rewrite Ht. cbn [Z.to_nat Nat.add take app].
  set (b := take (Z.to_nat count) ubuf
            ++ drop (Z.to_nat count) (msg_bytes dst)).
  assert (Hb : length b = 255%nat)
    by (unfold b; rewrite length_app, length_drop, Ht, Hlen; lia).
  exists (msg_of_bytes b). split; [reflexivity|].
  assert (Hmb : msg_bytes (msg_of_bytes b) = b)
    by (apply msg_bytes_of_bytes; lia).
  split; [exact Hmb|].
  unfold wf_msg. cbn [msg_of_bytes payload]. rewrite length_drop, Hb.
  reflexivity.
Qed.

Lemma len_msg_bytes (m : ssif_msg) (b0 : Z) (rest : list Z) :
  msg_bytes m = b0 :: rest -> len m = b0.
Proof. unfold msg_bytes. intros H. now inversion H. Qed.

Lemma send_idle (s : ssif_bmc) (nb sig : bool) (resp : ssif_msg) :
  response_in_progress s = false ->
  send_ssif_bmc_response s nb sig resp
  = (Ret0,
     with_is_multi_part
       (with_response_in_progress (with_response s resp) true)
       (ssif_msg_len resp >? MAX_PAYLOAD_PER_TRANSACTION + 1)).
Proof.
  intros Hp. unfold send_ssif_bmc_response, wait_event_interruptible.
  rewrite Hp. cbn [negb response with_response with_response_in_progress].
  destruct nb; cbn [negb]; destruct (_ >? _); reflexivity.
Qed.

Lemma send_busy (s : ssif_bmc) (nb sig : bool) (resp : ssif_msg) :
  response_in_progress s = true ->
  send_ssif_bmc_response s nb sig resp
  = (if nb then RetErr EAGAIN
     else if sig then RetErr ERESTARTSYS else Sleeping, s).
Proof.
  intros Hp. unfold send_ssif_bmc_response, wait_event_interruptible.
  rewrite Hp. destruct nb, sig; reflexivity.
Qed.

(** [aspeed_i2c_enable_slave] sets the RX_DONE and SLAVE_MATCH enable bits
    and keeps the other bits of a 32-bit register value. *)
Lemma enable_slave_bits (bus : aspeed_i2c_bus) :
  let reg := intr_ctrl_reg (aspeed_i2c_enable_slave bus) in
  Z.testbit reg 2 = true
  /\ Z.testbit reg 7 = true
  /\ (forall i, 0 <= i < 32 -> i <> 2 -> i <> 7 ->
      Z.testbit reg i = Z.testbit (intr_ctrl_reg bus) i).
Proof.
  unfold aspeed_i2c_enable_slave, aspeed_i2c_enable_interrupt, u32.
  cbn [intr_ctrl_reg].
  assert (Hbit : forall x m i, 0 <= i < 32 ->
            Z.testbit (Z.lor x m mod 2 ^ 32) i
            = Z.testbit x i || Z.testbit m i).
  { intros x m i Hi. rewrite Z.mod_pow2_bits_low by lia.
    apply Z.lor_spec. }
  split; [|split].
  - rewrite !Hbit by lia.
    replace (Z.testbit ASPEED_I2CD_INTR_RX_DONE 2) with true by reflexivity.
    now rewrite orb_true_r.
  - rewrite Hbit by lia.
    replace (Z.testbit ASPEED_I2CD_INTR_SLAVE_MATCH 7) with true
      by reflexivity.
    now rewrite orb_true_r.
  - intros i Hi H2 H7. rewrite !Hbit by lia.
    unfold ASPEED_I2CD_INTR_RX_DONE, ASPEED_I2CD_INTR_SLAVE_MATCH, BIT.
    rewrite !Z.shiftl_1_l, !Z.pow2_bits_eqb by lia.
    destruct (Z.eqb_spec 2 i); [lia|]. destruct (Z.eqb_spec 7 i); [lia|].
    now rewrite !orb_false_r.
Qed.

(** The length byte that [ssif_bmc_write] validates the count against: the
    first byte of the user buffer, or what the local struct held when
    nothing is copied. *)
Lemma copied_len (stack m : ssif_msg) (ubuf : list Z) (count : Z) :
  msg_bytes m
  = take (Z.to_nat count) ubuf ++ drop (Z.to_nat count) (msg_bytes stack) ->
  (count <= 0 -> len m = len stack)
  /\ (forall b0 rest, 1 <= count -> ubuf = b0 :: rest -> len m = b0).
Proof.
  intros Hm. split.
  - intros Hc. replace (Z.to_nat count) with 0%nat in Hm by lia.
    cbn [take drop app] in Hm. unfold msg_bytes in Hm. now inversion Hm.
  - intros b0 rest Hc ->.
    destruct (Z.to_nat count) as [|n] eqn:E; [lia|].
    cbn [take app] in Hm. exact (len_msg_bytes _ _ _ Hm).
Qed.

(** X1: [ssif_bmc_write] rejects a submission with EINVAL and leaves the
    context as it is when the count exceeds the message struct, when the
    user buffer cannot be read in full, when the count is 0, or when the
    count is below the wire length that the first byte declares. *)
Theorem X1_write_rejected (s : ssif_bmc) (nb sig : bool) (stack : ssif_msg)
    (ubuf : list Z) (count : Z) :
  wf_msg stack ->
  0 <= len stack <= 255 ->
  0 <= count ->
  (sizeof_ssif_msg < count
   \/ Z.of_nat (length ubuf) < count
   \/ count = 0
   \/ exists b0 rest, ubuf = b0 :: rest /\ 0 <= b0 <= 255 /\ count < b0 + 1) ->
  ssif_bmc_write s nb sig stack ubuf count = (Fail EINVAL, s).
Proof.
  intros Hwf Hls Hc Hcase. unfold ssif_bmc_write.
  destruct (Z.gtb_spec count sizeof_ssif_msg) as [Hgt|Hle]; [reflexivity|].
  destruct (Z_le_gt_dec count (Z.of_nat (length ubuf))) as [Hr|Hr].
  - destruct (copy_from_user_ok stack ubuf count Hwf) as (m & -> & Hm & _);
      [lia | exact Hle |].
    destruct (copied_len _ _ _ _ Hm) as [H0 H1].
    replace (count <? ssif_msg_len m) with true; [reflexivity|].
    symmetry. apply Z.ltb_lt. unfold ssif_msg_len.
    destruct Hcase as [H|[H|[H|(b0 & rest & Hu & Hb & Hlt)]]]; try lia.
    + rewrite H0, u32_small by lia. lia.
    + destruct (Z_le_gt_dec count 0).
      * rewrite H0, u32_small by lia. lia.
      * rewrite (H1 b0 rest), u32_small by (lia || assumption). lia.
  - unfold copy_from_user.
    destruct (decide (0 <= count <= Z.of_nat (length ubuf)));
      [lia | reflexivity].
Qed.

Lemma X1_write_rejected_witness :
  ssif_bmc_write (ssif_bmc_probe bus0) true false zero_msg [5; 0x1c; 0x42] 3
  = (Fail EINVAL, ssif_bmc_probe bus0).
Proof.
  apply X1_write_rejected.
  - reflexivity.
  - cbn. lia.
  - lia.
  - right. right. right. exists 5, [0x1c; 0x42].
    split; [reflexivity | lia].
Defined.

(** X2: [ssif_bmc_write] accepts a readable buffer whose count is within
    the message struct and not below the wire length declared by its first
    byte, when no response is in progress.  It returns the count; the
    pending response holds the [count] user bytes followed by what the
    local struct held beyond them; the response is in progress, multi-part
    exactly when the length byte is at least 33, and both slave interrupt
    sources are enabled.  The request mailbox is untouched. *)
Theorem X2_write_accepted (s : ssif_bmc) (nb sig : bool) (stack : ssif_msg)
    (b0 : Z) (rest : list Z) (count : Z) :
  let ubuf := b0 :: rest in
  wf_msg stack ->
  response_in_progress s = false ->
  0 <= b0 <= 255 ->
  b0 + 1 <= count <= sizeof_ssif_msg ->
  count <= Z.of_nat (length ubuf) ->
  exists s',
    ssif_bmc_write s nb sig stack ubuf count = (Count count, s')
    /\ msg_bytes (response s')
       = take (Z.to_nat count) ubuf ++ drop (Z.to_nat count) (msg_bytes stack)
    /\ wf_msg (response s')
    /\ response_in_progress s' = true
    /\ is_multi_part s' = (33 <=? b0)
    /\ Z.testbit (intr_ctrl_reg (i2c_bus s')) 2 = true
    /\ Z.testbit (intr_ctrl_reg (i2c_bus s')) 7 = true
    /\ request s' = request s
    /\ request_available s' = request_available s.
Proof.
  intros ubuf Hwf Hp Hb Hc Hr. unfold ssif_bmc_write.
  assert (Hsz : sizeof_ssif_msg = 255) by reflexivity.
  replace (count >? sizeof_ssif_msg) with false
    by (symmetry; rewrite Z.gtb_ltb; apply Z.ltb_ge; lia).
  destruct (copy_from_user_ok stack ubuf count Hwf) as (m & -> & Hm & Hwm);
    [lia | lia |].
  destruct (copied_len _ _ _ _ Hm) as [_ H1].
  assert (Hl : len m = b0) by (apply (H1 b0 rest); [lia | reflexivity]).
  unfold ssif_msg_len. rewrite Hl, u32_small by lia.
  replace (count <? b0 + 1) with false by (symmetry; apply Z.ltb_ge; lia).
  rewrite send_idle by exact Hp.
  destruct (enable_slave_bits (i2c_bus s)) as (E2 & E7 & _).
  eexists. split.
  - unfold ssize_t. rewrite Z.mod_small by lia.
    replace (count <? 2 ^ 31) with true by (symmetry; apply Z.ltb_lt; lia).
    reflexivity.
  - cbn [ssif_bmc_write_reenable response response_in_progress is_multi_part
         i2c_bus request request_available with_i2c_bus with_is_multi_part
         with_response_in_progress with_response].
    repeat split; try assumption.
    unfold ssif_msg_len, MAX_PAYLOAD_PER_TRANSACTION.
    rewrite Hl, u32_small by lia. rewrite Z.gtb_ltb.
    destruct (Z.ltb_spec (32 + 1) (b0 + 1)); destruct (Z.leb_spec 33 b0);
      lia || reflexivity.
Qed.

Lemma X2_write_accepted_witness :
  exists s',
    ssif_bmc_write (ssif_bmc_probe bus0) true false (sample_msg 9)
      [2; 0x1c; 0x42] 3 = (Count 3, s')
    /\ response_in_progress s' = true
    /\ is_multi_part s' = false.
Proof.
  destruct (X2_write_accepted (ssif_bmc_probe bus0) true false (sample_msg 9)
              2 [0x1c; 0x42] 3)
    as (s' & H1 & _ & _ & H4 & H5 & _).
  - reflexivity.
  - reflexivity.
  - lia.
  - unfold sizeof_ssif_msg, MSG_PAYLOAD_LEN_MAX. lia.
  - cbn [length]. lia.
  - exists s'. repeat split; assumption.
Defined.

(** X3: while a response is in progress, [ssif_bmc_write] with a valid
    submission changes nothing, not even the interrupt mask: it fails with
    EAGAIN when the file is non-blocking, fails with ERESTARTSYS when a
    blocking wait is interrupted, and sleeps otherwise. *)
Theorem X3_write_busy (s : ssif_bmc) (nb sig : bool) (stack : ssif_msg)
    (b0 : Z) (rest : list Z) (count : Z) :
  let ubuf := b0 :: rest in
  wf_msg stack ->
  response_in_progress s = true ->
  0 <= b0 <= 255 ->
  b0 + 1 <= count <= sizeof_ssif_msg ->
  count <= Z.of_nat (length ubuf) ->
  ssif_bmc_write s nb sig stack ubuf count
  = (if nb then Fail (Errno EAGAIN)
     else if sig then Fail (Errno ERESTARTSYS) else Parked, s).
Proof.
  intros ubuf Hwf Hp Hb Hc Hr. unfold ssif_bmc_write.
  assert (Hsz : sizeof_ssif_msg = 255) by reflexivity.
  replace (count >? sizeof_ssif_msg) with false
    by (symmetry; rewrite Z.gtb_ltb; apply Z.ltb_ge; lia).
  destruct (copy_from_user_ok stack ubuf count Hwf) as (m & -> & Hm & Hwm);
    [lia | lia |].
  destruct (copied_len _ _ _ _ Hm) as [_ H1].
  assert (Hl : len m = b0) by (apply (H1 b0 rest); [lia | reflexivity]).
  unfold ssif_msg_len. rewrite Hl, u32_small by lia.
  replace (count <? b0 + 1) with false by (symmetry; apply Z.ltb_ge; lia).
  rewrite send_busy by exact Hp.
  destruct nb, sig; reflexivity.
Qed.

Lemma X3_write_busy_witness :
  let s := with_response_in_progress (ssif_bmc_probe bus0) true in
  ssif_bmc_write s true false zero_msg [2; 0x1c; 0x42] 3
  = (Fail (Errno EAGAIN), s).
Proof.
  intros s.
  apply (X3_write_busy s true false zero_msg 2 [0x1c; 0x42] 3).
  - reflexivity.
  - reflexivity.
  - lia.
  - unfold sizeof_ssif_msg, MSG_PAYLOAD_LEN_MAX. lia.
  - cbn [length]. lia.
Defined.

(** The context that an accepted [ssif_bmc_write] leaves. *)
Lemma write_accepted_state (s : ssif_bmc) (nb sig : bool) (stack : ssif_msg)
    (b0 : Z) (rest : list Z) (count : Z) :
  wf_msg stack ->
  response_in_progress s = false ->
  0 <= b0 <= 255 ->
  b0 + 1 <= count <= sizeof_ssif_msg ->
  count <= Z.of_nat (length (b0 :: rest)) ->
  exists m,
    ssif_bmc_write s nb sig stack (b0 :: rest) count
    = (Count count,
       ssif_bmc_write_reenable
         (with_is_multi_part
            (with_response_in_progress (with_response s m) true)
            (33 <=? b0)))
    /\ msg_bytes m
       = take (Z.to_nat count) (b0 :: rest)
         ++ drop (Z.to_nat count) (msg_bytes stack)
    /\ wf_msg m
    /\ len m = b0.
Proof.
  intros Hwf Hp Hb Hc Hr. unfold ssif_bmc_write.
  assert (Hsz : sizeof_ssif_msg = 255) by reflexivity.
  replace (count >? sizeof_ssif_msg) with false
    by (symmetry; rewrite Z.gtb_ltb; apply Z.ltb_ge; lia).
  destruct (copy_from_user_ok stack (b0 :: rest) count Hwf)
    as (m & -> & Hm & Hwm); [lia | lia |].
  destruct (copied_len _ _ _ _ Hm) as [_ H1].
  assert (Hl : len m = b0) by (apply (H1 b0 rest); [lia | reflexivity]).
  unfold ssif_msg_len. rewrite Hl, u32_small by lia.
  replace (count <? b0 + 1) with false by (symmetry; apply Z.ltb_ge; lia).
  rewrite send_idle by exact Hp.
  exists m. split; [|auto].
  unfold ssize_t. rewrite Z.mod_small by lia.
  replace (count <? 2 ^ 31) with true by (symmetry; apply Z.ltb_lt; lia).
  unfold ssif_msg_len, MAX_PAYLOAD_PER_TRANSACTION.
  rewrite Hl, u32_small by lia. rewrite Z.gtb_ltb.
  replace (32 + 1 <? b0 + 1) with (33 <=? b0); [reflexivity|].
  destruct (Z.ltb_spec (32 + 1) (b0 + 1)); destruct (Z.leb_spec 33 b0);
    lia || reflexivity.
Qed.

(** X4: a response with a length byte in [1, 32] that [ssif_bmc_write]
    accepted comes back to the master byte for byte: READ_REQUESTED and
    one READ_PROCESSED per further wire byte supply the first
    [length + 1] bytes of the user buffer, whatever the count exceeded
    them by and whatever the local struct held, and the last of them
    completes the response with one wake. *)
Theorem X4_write_then_read_single_part (s : ssif_bmc) (nb sig : bool)
    (stack : ssif_msg) (b0 : Z) (rest : list Z) (count val : Z) :
  let ubuf := b0 :: rest in
  wf_msg stack ->
  response_in_progress s = false ->
  1 <= b0 <= 32 ->
  b0 + 1 <= count <= sizeof_ssif_msg ->
  count <= Z.of_nat (length ubuf) ->
  exists s1 s2,
    ssif_bmc_write s nb sig stack ubuf count = (Count count, s1)
    /\ run s1 ((I2C_SLAVE_READ_REQUESTED, val)
                :: read_processed (Z.to_nat b0))
       = Some (s2, take (Z.to_nat (b0 + 1)) ubuf)
    /\ response_in_progress s1 = true
    /\ response_in_progress s2 = false
    /\ wait_queue s2 = S (wait_queue s).
Proof.
  intros ubuf Hwf Hp Hb Hc Hr. subst ubuf.
  destruct (write_accepted_state s nb sig stack b0 rest count)
    as (m & Hw & Hm & Hwm & Hl); try assumption; [lia|].
  replace (33 <=? b0) with false in Hw by (symmetry; apply Z.leb_gt; lia).
  eexists. eexists. split; [exact Hw|].
  match goal with
  | |- run ?x _ = _ /\ _ => set (s1 := x)
  end.
  assert (Hfull := single_part_full s1 val).
  cbn [s1 ssif_bmc_write_reenable is_multi_part response with_i2c_bus
       with_is_multi_part with_response_in_progress with_response] in Hfull.
  rewrite Hl in Hfull.
  split.
  - rewrite Hfull; [| reflexivity | exact Hwm | lia].
    rewrite Hm. rewrite take_app_le by (rewrite length_take; lia).
    rewrite take_take. do 3 f_equal. lia.
  - repeat split.
Qed.

Lemma X4_write_then_read_single_part_witness :
  exists s1 s2,
    ssif_bmc_write (ssif_bmc_probe bus0) true false (sample_msg 9)
      [2; 0x1c; 0x42; 0x77] 4 = (Count 4, s1)
    /\ run s1 ((I2C_SLAVE_READ_REQUESTED, 0) :: read_processed 2)
       = Some (s2, [2; 0x1c; 0x42])
    /\ response_in_progress s2 = false.
Proof.
  destruct (X4_write_then_read_single_part (ssif_bmc_probe bus0) true false
              (sample_msg 9) 2 [0x1c; 0x42; 0x77] 4 0)
    as (s1 & s2 & H1 & H2 & _ & H4 & _).
  - reflexivity.
  - reflexivity.
  - lia.
  - unfold sizeof_ssif_msg, MSG_PAYLOAD_LEN_MAX. lia.
  - cbn [length]. lia.
  - exists s1, s2. repeat split; assumption.
Defined.

(** X5: a submission whose first byte is 0 is accepted as a response of
    length 0.  The master's next read gets the byte count 1 (the
    zero-length workaround) and the data byte 0, and that READ_PROCESSED
    completes the response. *)
Theorem X5_write_zero_length (s : ssif_bmc) (nb sig : bool)
    (stack : ssif_msg) (rest : list Z) (count val : Z) :
  let ubuf := 0 :: rest in
  wf_msg stack ->
  response_in_progress s = false ->
  1 <= count <= sizeof_ssif_msg ->
  count <= Z.of_nat (length ubuf) ->
  exists s1 s2,
    ssif_bmc_write s nb sig stack ubuf count = (Count count, s1)
    /\ response_in_progress s1 = true
    /\ run s1 [(I2C_SLAVE_READ_REQUESTED, val); (I2C_SLAVE_READ_PROCESSED, val)]
       = Some (s2, [1; 0])
    /\ response_in_progress s2 = false.
Proof.
  intros ubuf Hwf Hp Hc Hr. subst ubuf.
  destruct (write_accepted_state s nb sig stack 0 rest count)
    as (m & Hw & Hm & Hwm & Hl); try assumption; [lia|].
  replace (33 <=? 0) with false in Hw by reflexivity.
  eexists. eexists. split; [exact Hw|]. split; [reflexivity|].
  match goal with
  | |- run ?x _ = _ /\ _ => set (s1 := x)
  end.
  cbn [run].
  rewrite read_requested_single_part by reflexivity.
  rewrite idle_read_processed;
    [ | reflexivity | exact Hl
      | unfold SIZE_MAX; cbn [msg_idx with_msg_idx]; lia ].
  cbn [response s1 ssif_bmc_write_reenable with_i2c_bus with_is_multi_part
       with_response_in_progress with_response].
  rewrite Hl. split; reflexivity.
Qed.

Lemma X5_write_zero_length_witness :
  exists s1 s2,
    ssif_bmc_write (ssif_bmc_probe bus0) true false (sample_msg 9) [0] 1
    = (Count 1, s1)
    /\ run s1 [(I2C_SLAVE_READ_REQUESTED, 0); (I2C_SLAVE_READ_PROCESSED, 0)]
       = Some (s2, [1; 0])
    /\ response_in_progress s2 = false.
Proof.
  destruct (X5_write_zero_length (ssif_bmc_probe bus0) true false
              (sample_msg 9) [] 1 0)
    as (s1 & s2 & H1 & _ & H3 & H4).
  - reflexivity.
  - reflexivity.
  - unfold sizeof_ssif_msg, MSG_PAYLOAD_LEN_MAX. lia.
  - cbn [length]. lia.
  - exists s1, s2. repeat split; assumption.
Defined.

(** ** Reading a request through the device *)

Lemma ssize_t_small (x : Z) : 0 <= x < 2 ^ 31 -> ssize_t x = x.
Proof.
  intros H. unfold ssize_t. rewrite Z.mod_small by lia.
  now replace (x <? 2 ^ 31) with true by (symmetry; apply Z.ltb_lt; lia).
Qed.

(** The context after a complete write transaction of the master: the
    message bytes are at the start of the request and the request has been
    handed over. *)
Lemma request_assembly (s : ssif_bmc) (c b0 last : Z) (front : list Z) :
  let msg := front ++ [last] in
  wf_msg (request s) ->
  head msg = Some b0 ->
  Z.of_nat (length msg) = b0 + 1 ->
  b0 <= 253 ->
  exists r,
    run s (smbus_write c msg)
    = Some (handle_request
              (with_msg_idx (with_request (with_smbus_cmd s c) r) (b0 + 2)),
            [])
    /\ wf_msg r
    /\ len r = b0
    /\ take (length msg) (msg_bytes r) = msg.
Proof.
  intros msg Hwf Hhead Hlen Hb. subst msg.
  rewrite smbus_write_command.
  set (sA := with_msg_idx (with_smbus_cmd s c) 1).
  assert (HwfA : wf_msg (request sA)) by exact Hwf.
  assert (Hsz : sizeof_ssif_msg = 255) by reflexivity.
  destruct front as [|b front].
  - cbn [head app] in Hhead. injection Hhead as ->.
    cbn [length app] in Hlen. assert (b0 = 0) as -> by lia.
    cbn [app write_received map run].
    rewrite write_received_store by (rewrite ?Hsz; cbn; auto with lia).
    set (r := msg_store_nat (request sA) (Z.to_nat (msg_idx sA - 1)) 0).
    replace (msg_idx sA >=? ssif_msg_len r) with true by reflexivity.
    exists r. split; [reflexivity|].
    split; [apply wf_msg_store_nat, HwfA|]. split; reflexivity.
  - cbn [head app] in Hhead. injection Hhead as ->.
    rewrite length_app in Hlen. cbn [length] in Hlen.
    change ((b0 :: front) ++ [last]) with (b0 :: front ++ [last]).
    unfold write_received. cbn [map]. rewrite map_app.
    fold (write_received front). cbn [map run].
    rewrite write_received_store by (rewrite ?Hsz; cbn; auto with lia).
    set (r := msg_store_nat (request sA) (Z.to_nat (msg_idx sA - 1)) b0).
    assert (Hlr : len r = b0) by reflexivity.
    replace (msg_idx sA >=? ssif_msg_len r) with false
      by (symmetry; rewrite Z.geb_leb; apply Z.leb_gt;
          unfold ssif_msg_len; rewrite Hlr, u32_small; cbn; lia).
    set (sB := with_msg_idx (with_request sA r) (msg_idx sA + 1)).
    rewrite run_app.
    destruct (write_received_run front sB 1) as (r' & Hrun & Hwr & Hlr' & Ht).
    + reflexivity.
    + lia.
    + apply wf_msg_store_nat, HwfA.
    + cbn [request sB with_msg_idx with_request]. rewrite Hlr. lia.
    + rewrite Hrun.
      set (sC := with_msg_idx (with_request sB r')
                   (msg_idx sB + Z.of_nat (length front))).
      assert (HiC : msg_idx sC = b0 + 1) by (cbn; lia).
      set (r'' := msg_store_nat (request sC) (Z.to_nat (msg_idx sC - 1)) last).
      assert (Hlr'' : len r'' = b0).
      { unfold r''. rewrite len_store_nat by lia.
        cbn [request sC with_msg_idx with_request]. rewrite Hlr'. exact Hlr. }
      cbn [run].
      rewrite write_received_store
        by (rewrite ?Hsz, ?HiC; cbn [request sC with_msg_idx with_request];
            auto with lia).
      fold r''.
      replace (msg_idx sC >=? ssif_msg_len r'') with true
        by (symmetry; rewrite Z.geb_leb; apply Z.leb_le;
            unfold ssif_msg_len; rewrite Hlr'', u32_small; lia).
      exists r''. split.
      * rewrite HiC. replace (b0 + 1 + 1) with (b0 + 2) by lia. reflexivity.
      * split; [apply wf_msg_store_nat; exact Hwr|]. split; [exact Hlr''|].
        unfold r''. rewrite msg_bytes_store_nat.
        cbn [request sC with_msg_idx with_request].
        replace (Z.to_nat (msg_idx sC - 1)) with (S (length front)) by lia.
        replace (length (b0 :: front ++ [last]))
          with (S (S (length front)))
          by (cbn [length]; rewrite length_app; cbn [length]; lia).
        rewrite (take_S_r _ _ last).
        -- rewrite take_insert_ge by lia.
           change (S (length front)) with (1 + length front)%nat.
           rewrite Ht. reflexivity.
        -- apply list_lookup_insert_eq. rewrite (msg_bytes_length _ Hwr).
           rewrite Hsz. lia.
Qed.

(** The copy of a request to the user. *)
Lemma read_available (s : ssif_bmc) (nb sig : bool) (stack : ssif_msg)
    (uroom count : Z) :
  request_available s = true ->
  0 <= len (request s) <= 255 ->
  0 <= count <= SSIZE_MAX ->
  let n := Z.min count (len (request s) + 1) in
  ssif_bmc_read s nb sig stack uroom count
  = do r <- copy_to_user uroom (request s) n ;
    match r with
    | inl d => Some (Count n, d, with_request_available s false)
    | inr _ => Some (Fail EFAULT, [], with_request_available s false)
    end.
Proof.
  intros Ha Hl Hc n. unfold SSIZE_MAX in Hc. unfold ssif_bmc_read.
  rewrite receive_available by exact Ha. cbv beta iota.
  unfold ssif_msg_len. rewrite (u32_small (len (request s) + 1)) by lia.
  rewrite !ssize_t_small by lia. fold n.
  assert (Hn : 0 <= n <= 256) by (unfold n; lia).
  rewrite size_t_small by lia.
  destruct (copy_to_user uroom (request s) n) as [[d|u]|]; try reflexivity.
  now rewrite ssize_t_small by lia.
Qed.

(** X6: with a request available, [ssif_bmc_read] returns the smaller of
    the count and the wire length of the request, delivers that many
    leading bytes of the request to a user buffer with room for them, and
    clears [request_available]; nothing else changes. *)
Theorem X6_read_delivers_request (s : ssif_bmc) (nb sig : bool)
    (stack : ssif_msg) (uroom count : Z) :
  request_available s = true ->
  wf_msg (request s) ->
  0 <= len (request s) <= 254 ->
  0 <= count <= SSIZE_MAX ->
  let n := Z.min count (len (request s) + 1) in
  n <= uroom ->
  ssif_bmc_read s nb sig stack uroom count
  = Some (Count n, take (Z.to_nat n) (msg_bytes (request s)),
          with_request_available s false).
Proof.
  intros Ha Hwf Hl Hc n Hroom.
  rewrite read_available by (assumption || lia). fold n.
  unfold copy_to_user.
  replace (n <=? uroom) with true by (symmetry; apply Z.leb_le; lia).
  rewrite arr_read_ok;
    [reflexivity | lia | unfold n; lia |].
  rewrite (msg_bytes_length _ Hwf).
  unfold sizeof_ssif_msg, MSG_PAYLOAD_LEN_MAX, n. lia.
Qed.

Lemma X6_read_delivers_request_witness :
  let s := with_request_available
             (with_request (ssif_bmc_probe bus0) (sample_msg 2)) true in
  ssif_bmc_read s true false zero_msg 64 64
  = Some (Count 3, [2; 0x1c; 0x42], with_request_available s false).
Proof.
  intros s.
  apply (X6_read_delivers_request s true false zero_msg 64 64).
  - reflexivity.
  - reflexivity.
  - cbn [s request with_request with_request_available len sample_msg]. lia.
  - unfold SSIZE_MAX. lia.
  - cbn [s request with_request with_request_available len sample_msg]. lia.
Defined.

(** X7: when the user buffer has no room for the bytes to deliver,
    [ssif_bmc_read] fails with EFAULT, but the request is consumed all the
    same: [request_available] is cleared and the next non-blocking read
    fails with EAGAIN. *)
Theorem X7_read_fault_consumes_request (s : ssif_bmc) (nb sig : bool)
    (stack : ssif_msg) (uroom count : Z) :
  request_available s = true ->
  0 <= len (request s) <= 255 ->
  0 <= count <= SSIZE_MAX ->
  uroom < Z.min count (len (request s) + 1) ->
  let s' := with_request_available s false in
  ssif_bmc_read s nb sig stack uroom count = Some (Fail EFAULT, [], s')
  /\ forall sig' stack' uroom' count',
       ssif_bmc_read s' true sig' stack' uroom' count'
       = Some (Fail (Errno EAGAIN), [], s').
Proof.
  intros Ha Hl Hc Hroom s'. split.
  - rewrite read_available by (assumption || lia).
    unfold copy_to_user.
    replace (_ <=? uroom) with false by (symmetry; apply Z.leb_gt; lia).
    reflexivity.
  - intros sig' stack' uroom' count'. unfold ssif_bmc_read.
    rewrite receive_not_available by reflexivity. reflexivity.
Qed.

Lemma X7_read_fault_consumes_request_witness :
  let s := with_request_available
             (with_request (ssif_bmc_probe bus0) (sample_msg 2)) true in
  ssif_bmc_read s true false zero_msg 1 64
  = Some (Fail EFAULT, [], with_request_available s false)
  /\ ssif_bmc_read (with_request_available s false) true false zero_msg 64 64
     = Some (Fail (Errno EAGAIN), [], with_request_available s false).
Proof.
  intros s.
  destruct (X7_read_fault_consumes_request s true false zero_msg 1 64)
    as [H1 H2].
  - reflexivity.
  - cbn [s request with_request with_request_available len sample_msg]. lia.
  - unfold SSIZE_MAX. lia.
  - cbn [s request with_request with_request_available len sample_msg]. lia.
  - split; [exact H1 | apply H2].
Defined.

(** X8: [ssif_bmc_poll] reports POLLIN exactly when a request is
    available, and its mask is 0 exactly when a non-blocking
    [ssif_bmc_read] fails with EAGAIN and changes nothing. *)
Theorem X8_poll_matches_read (s : ssif_bmc) :
  (ssif_bmc_poll s = POLLIN <-> request_available s = true)
  /\ (ssif_bmc_poll s = 0 <->
      forall sig stack uroom count,
        ssif_bmc_read s true sig stack uroom count
        = Some (Fail (Errno EAGAIN), [], s)).
Proof.
  unfold ssif_bmc_poll. split.
  - destruct (request_available s); split; intros H;
      reflexivity || discriminate H.
  - split.
    + destruct (request_available s) eqn:Ha; [discriminate|].
      intros _ sig stack uroom count. unfold ssif_bmc_read.
      rewrite receive_not_available by exact Ha. reflexivity.
    + intros H. destruct (request_available s) eqn:Ha; [|reflexivity].
      specialize (H false zero_msg 0 0). unfold ssif_bmc_read in H.
      rewrite receive_available in H by exact Ha. cbv beta iota in H.
      destruct (copy_to_user _ _ _) as [[d|u]|]; discriminate H.
Qed.

Lemma copy_to_user_ok (uroom : Z) (m : ssif_msg) (n : Z) :
  wf_msg m -> 0 <= n <= sizeof_ssif_msg -> n <= uroom ->
  copy_to_user uroom m n = Some (inl (take (Z.to_nat n) (msg_bytes m))).
Proof.
  intros Hwf Hn Hroom. unfold copy_to_user.
  replace (n <=? uroom) with true by (symmetry; apply Z.leb_le; lia).
  rewrite arr_read_ok; [reflexivity | lia | lia |].
  rewrite (msg_bytes_length _ Hwf). lia.
Qed.

(** X9: a request travels from the master to the reader unchanged.  After
    a complete write transaction (command byte, then as many message bytes
    as the length byte announces plus one), [ssif_bmc_poll] reports POLLIN
    and [ssif_bmc_read] with enough count and room returns the wire length
    and exactly the message bytes the master wrote. *)
Theorem X9_request_round_trip (s : ssif_bmc) (c b0 last : Z)
    (front : list Z) (nb sig : bool) (stack : ssif_msg) (uroom count : Z) :
  let msg := front ++ [last] in
  wf_msg (request s) ->
  head msg = Some b0 ->
  Z.of_nat (length msg) = b0 + 1 ->
  b0 <= 253 ->
  b0 + 1 <= count <= SSIZE_MAX ->
  b0 + 1 <= uroom ->
  exists s2,
    run s (smbus_write c msg) = Some (s2, [])
    /\ ssif_bmc_poll s2 = POLLIN
    /\ ssif_bmc_read s2 nb sig stack uroom count
       = Some (Count (b0 + 1), msg, with_request_available s2 false).
Proof.
  intros msg Hwf Hhead Hlen Hb Hc Hroom.
  destruct (request_assembly s c b0 last front Hwf Hhead Hlen Hb)
    as (r & Hrun & Hwr & Hlr & Htake).
  fold msg in Hrun, Htake.
  eexists. split; [exact Hrun|]. split; [reflexivity|].
  assert (H0 : 0 <= b0).
  { assert (Hl := Hlen). unfold msg in Hl. rewrite length_app in Hl.
    cbn [length] in Hl. lia. }
  rewrite read_available;
    cbn [handle_request request request_available wake_up_all with_response
         with_request_available with_i2c_bus with_msg_idx with_request];
    [ | reflexivity | lia | lia ].
  rewrite Hlr. replace (Z.min count (b0 + 1)) with (b0 + 1) by lia.
  rewrite copy_to_user_ok;
    [ | exact Hwr | unfold sizeof_ssif_msg, MSG_PAYLOAD_LEN_MAX; lia | lia ].
  replace (Z.to_nat (b0 + 1)) with (length msg) by lia.
  rewrite Htake. reflexivity.
Qed.

Lemma X9_request_round_trip_witness :
  exists s2,
    run (ssif_bmc_probe bus0) (smbus_write 2 [2; 0x20; 1]) = Some (s2, [])
    /\ ssif_bmc_read s2 true false zero_msg 255 255
       = Some (Count 3, [2; 0x20; 1], with_request_available s2 false).
Proof.
  destruct (X9_request_round_trip (ssif_bmc_probe bus0) 2 2 1 [2; 0x20]
              true false zero_msg 255 255)
    as (s2 & H1 & _ & H3).
  - reflexivity.
  - reflexivity.
  - reflexivity.
  - lia.
  - unfold SSIZE_MAX. lia.
  - lia.
  - exists s2. split; assumption.
Defined.

(** X10: the request mailbox is overwritten in place.  When the master
    starts a further write transaction before the reader has taken a
    completed request, the request stays available while its length byte is
    replaced; with the length byte 255 the wire length is 256, and a read
    with at least that count and room copies 256 bytes out of the
    255-byte struct: an access outside the object. *)
Theorem X10_unread_request_overwritten (s : ssif_bmc) (c c' b0 last : Z)
    (front : list Z) (nb sig : bool) (stack : ssif_msg) (uroom count : Z) :
  let msg := front ++ [last] in
  wf_msg (request s) ->
  head msg = Some b0 ->
  Z.of_nat (length msg) = b0 + 1 ->
  b0 <= 253 ->
  256 <= count <= SSIZE_MAX ->
  256 <= uroom ->
  exists s2 s3,
    run s (smbus_write c msg) = Some (s2, [])
    /\ run s2 (smbus_write c' [255]) = Some (s3, [])
    /\ request_available s3 = true
    /\ msg_bytes (request s3) = 255 :: drop 1 (msg_bytes (request s2))
    /\ ssif_bmc_read s3 nb sig stack uroom count = None.
Proof.
  intros msg Hwf Hhead Hlen Hb Hc Hroom.
  destruct (request_assembly s c b0 last front Hwf Hhead Hlen Hb)
    as (r & Hrun & Hwr & Hlr & Htake).
  fold msg in Hrun.
  eexists. eexists. split; [exact Hrun|].
  match goal with
  | |- run ?x _ = _ /\ _ => set (s2 := x)
  end.
  assert (Hw2 : wf_msg (request s2)) by exact Hwr.
  set (r3 := msg_store_nat (request s2) 0 255).
  assert (Hl3 : len r3 = 255) by reflexivity.
  assert (Hw3 : wf_msg r3) by (apply wf_msg_store_nat; exact Hw2).
  set (s3 := with_msg_idx (with_request (with_smbus_cmd s2 c') r3) 2).
  assert (Hrun3 : run s2 (smbus_write c' [255]) = Some (s3, [])).
  { rewrite smbus_write_command. cbn [write_received map run].
    rewrite write_received_store;
      [ | cbn [msg_idx with_msg_idx]; unfold sizeof_ssif_msg,
            MSG_PAYLOAD_LEN_MAX; lia
        | exact Hw2 ].
    reflexivity. }
  assert (Ha3 : request_available s3 = true) by reflexivity.
  assert (Hq3 : request s3 = r3) by reflexivity.
  split; [exact Hrun3|]. split; [exact Ha3|].
  split; [reflexivity|].
  change (ssif_bmc_read s3 nb sig stack uroom count = None).
  clearbody s3 r3.
  rewrite read_available by (rewrite ?Hq3, ?Hl3; assumption || lia).
  rewrite Hq3, Hl3.
  replace (Z.min count (255 + 1)) with 256 by lia.
  unfold copy_to_user.
  replace (256 <=? uroom) with true by (symmetry; apply Z.leb_le; lia).
  unfold arr_read.
  destruct (decide _) as [(_ & _ & H)|_]; [|reflexivity].
  exfalso. rewrite (msg_bytes_length _ Hw3) in H.
  unfold sizeof_ssif_msg, MSG_PAYLOAD_LEN_MAX in H. lia.
Qed.

Lemma X10_unread_request_overwritten_witness :
  exists s2 s3,
    run (ssif_bmc_probe bus0) (smbus_write 2 [2; 0x20; 1]) = Some (s2, [])
    /\ run s2 (smbus_write 2 [255]) = Some (s3, [])
    /\ request_available s3 = true
    /\ ssif_bmc_read s3 true false zero_msg 256 256 = None.
Proof.
  destruct (X10_unread_request_overwritten (ssif_bmc_probe bus0) 2 2 2 1
              [2; 0x20] true false zero_msg 256 256)
    as (s2 & s3 & H1 & H2 & H3 & _ & H5).
  - reflexivity.
  - reflexivity.
  - reflexivity.
  - lia.
  - unfold SSIZE_MAX. lia.
  - lia.
  - exists s2, s3. repeat split; assumption.
Defined.

(** ** The interrupt mask of the bus *)

Lemma u32_range (x : Z) : 0 <= u32 x < 2 ^ 32.
Proof. unfold u32. apply Z.mod_pos_bound. lia. Qed.

Lemma bits_eq_32 (a b : Z) :
  0 <= a < 2 ^ 32 -> 0 <= b < 2 ^ 32 ->
  (forall i, 0 <= i < 32 -> Z.testbit a i = Z.testbit b i) ->
  a = b.
Proof.
  intros Ha Hb H. apply Z.bits_inj'. intros n Hn.
  destruct (Z_lt_le_dec n 32) as [Hlt|Hge]; [apply H; lia|].
  rewrite <- (Z.mod_small a (2 ^ 32)), <- (Z.mod_small b (2 ^ 32)) by lia.
  now rewrite !Z.mod_pow2_bits_high by lia.
Qed.

Lemma enable_slave_range (bus : aspeed_i2c_bus) :
  0 <= intr_ctrl_reg (aspeed_i2c_enable_slave bus) < 2 ^ 32.
Proof. apply u32_range. Qed.

Lemma disable_slave_range (bus : aspeed_i2c_bus) :
  0 <= intr_ctrl_reg (aspeed_i2c_disable_slave bus) < 2 ^ 32.
Proof. apply u32_range. Qed.

Lemma bus_eq (a b : aspeed_i2c_bus) :
  intr_ctrl_reg a = intr_ctrl_reg b -> a = b.
Proof. destruct a, b. cbn. now intros ->. Qed.

(** X11: enabling and disabling slave mode undo each other on the two
    interrupt sources and touch no other bit of a 32-bit mask: enabling
    after disabling restores a mask that had both sources enabled, and in
    general gives what enabling alone gives; disabling after enabling gives
    what disabling alone gives. *)
Theorem X11_enable_disable_slave (bus : aspeed_i2c_bus) :
  0 <= intr_ctrl_reg bus < 2 ^ 32 ->
  aspeed_i2c_enable_slave (aspeed_i2c_disable_slave bus)
  = aspeed_i2c_enable_slave bus
  /\ aspeed_i2c_disable_slave (aspeed_i2c_enable_slave bus)
     = aspeed_i2c_disable_slave bus
  /\ slave_listening (aspeed_i2c_enable_slave bus) = true
  /\ slave_listening (aspeed_i2c_disable_slave bus) = false
  /\ (slave_listening bus = true ->
      aspeed_i2c_enable_slave (aspeed_i2c_disable_slave bus) = bus).
Proof.
  intros Hr.
  assert (He : forall b i, 0 <= i < 32 ->
            Z.testbit (intr_ctrl_reg (aspeed_i2c_enable_slave b)) i
            = if (i =? 2) || (i =? 7) then true
              else Z.testbit (intr_ctrl_reg b) i).
  { intros b i Hi. destruct (enable_slave_bits b) as (E2 & E7 & Eo).
    destruct (Z.eqb_spec i 2) as [->|N2]; [exact E2|].
    destruct (Z.eqb_spec i 7) as [->|N7]; [exact E7|].
    now apply Eo. }
  assert (Hd : forall b i, 0 <= i < 32 ->
            Z.testbit (intr_ctrl_reg (aspeed_i2c_disable_slave b)) i
            = if (i =? 2) || (i =? 7) then false
              else Z.testbit (intr_ctrl_reg b) i).
  { intros b i Hi. destruct (disable_slave_bits b) as (E2 & E7 & Eo).
    destruct (Z.eqb_spec i 2) as [->|N2]; [exact E2|].
    destruct (Z.eqb_spec i 7) as [->|N7]; [exact E7|].
    now apply Eo. }
  assert (H1 : aspeed_i2c_enable_slave (aspeed_i2c_disable_slave bus)
               = aspeed_i2c_enable_slave bus).
  { apply bus_eq, bits_eq_32; try apply enable_slave_range.
    intros i Hi. rewrite !He, Hd by lia.
    destruct ((i =? 2) || (i =? 7)); reflexivity. }
  split; [exact H1|]. split; [|split; [|split]].
  - apply bus_eq, bits_eq_32; try apply disable_slave_range.
    intros i Hi. rewrite !Hd, He by lia.
    destruct ((i =? 2) || (i =? 7)); reflexivity.
  - unfold slave_listening. now rewrite !He by lia.
  - apply disable_slave_not_listening.
  - intros Hl. rewrite H1. unfold slave_listening in Hl.
    apply andb_true_iff in Hl as [L2 L7].
    apply bus_eq, bits_eq_32; [apply enable_slave_range | exact Hr |].
    intros i Hi. rewrite He by lia.
    destruct (Z.eqb_spec i 2) as [->|N2]; [now rewrite L2|].
    destruct (Z.eqb_spec i 7) as [->|N7]; [now rewrite L7|].
    reflexivity.
Qed.

Lemma X11_enable_disable_slave_witness :
  aspeed_i2c_enable_slave (aspeed_i2c_disable_slave bus0) = bus0
  /\ slave_listening (aspeed_i2c_disable_slave bus0) = false.
Proof.
  destruct (X11_enable_disable_slave bus0) as (_ & _ & _ & H4 & H5).
  - cbn. lia.
  - split; [apply H5; reflexivity | exact H4].
Defined.

(** ** What the callback keeps *)

Lemma cursor_inv_receive (s : ssif_bmc) (nb sig : bool) (out : ssif_msg) :
  cursor_inv s ->
  cursor_inv (snd (receive_ssif_bmc_request s nb sig out)).
Proof.
  intros H. unfold receive_ssif_bmc_request, wait_event_interruptible.
  destruct nb, (request_available s), sig; exact H.
Qed.

(** X12: the cursor stays in range.  From a context whose response length
    field is a byte, whose chunk buffer has its 32 cells and whose cursor
    is at most 256, every run of byte events, response submissions with a
    byte-sized length field and request receptions that goes through
    without an access outside an object ends in such a context again; in
    particular the [size_t] cursor never wraps. *)
Theorem X12_cursor_invariant (acts : list action) :
  forall (s s2 : ssif_bmc) (c : bool),
    cursor_inv s ->
    Forall (fun a => match a with
                     | SendResponse _ _ r => 0 <= len r <= 255
                     | _ => True
                     end) acts ->
    do_actions s acts = Some (s2, c) ->
    cursor_inv s2 /\ 0 <= msg_idx s2 < SIZE_MAX.
Proof.
  induction acts as [|a acts IH]; intros s s2 c Hinv Hall Hrun.
  - cbn in Hrun. inversion Hrun; subst.
    split; [exact Hinv | now apply cursor_below_size_max].
  - cbn [do_actions] in Hrun.
    destruct (do_action s a) as [s1|] eqn:Ha; [|discriminate].
    destruct (do_actions s1 acts) as [[s2' c']|] eqn:Hacts; [|discriminate].
    inversion Hrun; subst s2'. inversion Hall as [|a' acts' Hhd Htl]; subst.
    apply (IH s1 s2 c'); [|exact Htl|exact Hacts].
    destruct a as [e v|nb sig r|nb sig]; cbn [do_action] in Ha.
    + destruct (ssif_bmc_cb s e v) as [[t o]|] eqn:E; [|discriminate].
      inversion Ha; subst. exact (cursor_inv_step _ _ _ _ _ E Hinv).
    + inversion Ha; subst. now apply cursor_inv_send.
    + inversion Ha; subst. now apply cursor_inv_receive.
Qed.

Lemma X12_cursor_invariant_witness :
  exists s2 c,
    do_actions (ssif_bmc_probe bus0)
      [ByteEvent I2C_SLAVE_WRITE_REQUESTED 0;
       ByteEvent I2C_SLAVE_WRITE_RECEIVED 2;
       SendResponse true false (sample_msg 40);
       ByteEvent I2C_SLAVE_READ_REQUESTED 0;
       ByteEvent I2C_SLAVE_READ_PROCESSED 0] = Some (s2, c)
    /\ cursor_inv s2.
Proof.
  destruct (do_actions _ _) as [[s2 c]|] eqn:E;
    [|vm_compute in E; discriminate E].
  exists s2, c. split; [reflexivity|].
  refine (proj1 (X12_cursor_invariant _ _ _ _ (cursor_inv_probe bus0) _ E)).
  repeat constructor; cbn; lia.
Defined.

Lemma set_response_buffer_frame (s s' : ssif_bmc) :
  set_response_buffer s = Some s' ->
  is_multi_part s' = is_multi_part s
  /\ response_in_progress s' = response_in_progress s
  /\ request s' = request s
  /\ request_available s' = request_available s
  /\ i2c_bus s' = i2c_bus s
  /\ wait_queue s' = wait_queue s.
Proof.
  unfold set_response_buffer. intros H.
  repeat case_match; simplify_eq; repeat split.
Qed.

Lemma event_request_read_frame (s s' : ssif_bmc) (v o : Z) :
  event_request_read s v = Some (s', o) ->
  is_multi_part s' = is_multi_part s
  /\ response_in_progress s' = response_in_progress s
  /\ request s' = request s
  /\ request_available s' = request_available s
  /\ i2c_bus s' = i2c_bus s
  /\ wait_queue s' = wait_queue s.
Proof.
  unfold event_request_read. intros H.
  repeat case_match; simplify_eq; try (repeat split; reflexivity);
    match goal with
    | E : set_response_buffer _ = Some _ |- _ =>
        apply set_response_buffer_frame in E;
        destruct E as (E1 & E2 & E3 & E4 & E5 & E6);
        rewrite E1, E2, E3, E4, E5, E6
    end; repeat split.
Qed.

Lemma event_process_read_frame (s s' : ssif_bmc) (v o : Z) :
  event_process_read s v = Some (s', o) ->
  is_multi_part s' = is_multi_part s
  /\ (response_in_progress s' = true -> response_in_progress s = true)
  /\ request s' = request s
  /\ request_available s' = request_available s
  /\ i2c_bus s' = i2c_bus s.
Proof.
  unfold event_process_read. intros H.
  repeat case_match; simplify_eq; repeat split; auto; discriminate.
Qed.

(** X13: what a byte event never does.  No event changes the multi-part
    flag or sets [response_in_progress]; read events and the transaction
    boundaries leave the request mailbox and the interrupt mask alone; and
    write events, request completion included, leave the multi-part
    cursor (bytes processed, bytes remaining, block number) and the chunk
    buffer as they are. *)
Theorem X13_byte_event_frame (s s' : ssif_bmc) (e : i2c_slave_event)
    (v o : Z) :
  ssif_bmc_cb s e v = Some (s', o) ->
  is_multi_part s' = is_multi_part s
  /\ (response_in_progress s' = true -> response_in_progress s = true)
  /\ (e <> I2C_SLAVE_WRITE_RECEIVED ->
      request s' = request s
      /\ request_available s' = request_available s
      /\ i2c_bus s' = i2c_bus s)
  /\ (e <> I2C_SLAVE_READ_REQUESTED -> e <> I2C_SLAVE_READ_PROCESSED ->
      response_in_progress s' = response_in_progress s
      /\ num_bytes_processed s' = num_bytes_processed s
      /\ remain_data_len s' = remain_data_len s
      /\ block_num s' = block_num s
      /\ response_buffer s' = response_buffer s).
Proof.
  intros H. destruct e; cbn [ssif_bmc_cb] in H.
  - apply event_request_read_frame in H.
    destruct H as (E1 & E2 & E3 & E4 & E5 & _).
    cbn [is_multi_part response_in_progress request request_available
         i2c_bus with_msg_idx] in *.
    rewrite E1, E2, E3, E4, E5.
    repeat split; intros; first [congruence | auto].
  - inversion H; subst. repeat split; intros; first [congruence | auto].
  - apply event_process_read_frame in H.
    destruct H as (E1 & E2 & E3 & E4 & E5).
    repeat split; intros; first [congruence | auto].
  - destruct (msg_idx s =? 0).
    + inversion H; subst. repeat split; intros; first [congruence | auto].
    + destruct (msg_idx s >=? sizeof_ssif_msg).
      * inversion H; subst.
        repeat split; intros; first [congruence | auto].
      * destruct (msg_store _ _ _); [|discriminate].
        cbn [msg_idx with_msg_idx with_request request] in H.
        destruct (_ >=? _); inversion H; subst;
          repeat split; intros; first [congruence | auto].
  - inversion H; subst. repeat split; intros; first [congruence | auto].
Qed.

Lemma X13_byte_event_frame_witness :
  let s := with_is_multi_part
             (with_block_num (ssif_bmc_probe bus0) 0xFF) true in
  exists s',
    ssif_bmc_cb (with_msg_idx s 1) I2C_SLAVE_WRITE_RECEIVED 0 = Some (s', 0)
    /\ request_available s' = true
    /\ is_multi_part s' = true
    /\ block_num s' = 0xFF.
Proof.
  intros s.
  assert (E : ssif_bmc_cb (with_msg_idx s 1) I2C_SLAVE_WRITE_RECEIVED 0
              = Some (handle_request
                        (with_msg_idx (with_msg_idx s 1) 2), 0))
    by (vm_compute; reflexivity).
  destruct (X13_byte_event_frame _ _ _ _ _ E) as (H1 & _ & _ & H4).
  destruct H4 as (_ & _ & _ & H5 & _); try discriminate.
  eexists. split; [exact E|]. split; [reflexivity|].
  split; [rewrite H1 | rewrite H5]; reflexivity.
Defined.

(** ** Chunks of a multi-part response *)

(** A Middle transaction: the master gets the byte count 32 and the chunk
    buffer, whose first byte is the next block number and into which
    [set_response_buffer] has copied as many payload bytes as the
    remainder, already reduced by 31, allows. *)
Lemma block_read_middle (s : ssif_bmc) :
  is_multi_part s = true ->
  length (response_buffer s) = 32%nat ->
  31 < remain_data_len s <= 255 ->
  0 <= num_bytes_processed s ->
  let copied := Z.min (remain_data_len s - 31) 31 in
  1 + num_bytes_processed s + copied
  <= Z.of_nat (length (payload (response s))) ->
  let bn := if middle_start_response s then 0 else u8 (block_num s + 1) in
  bn <> 0xFF ->
  let chunk := bn :: take (Z.to_nat copied)
                       (drop (Z.to_nat (1 + num_bytes_processed s))
                          (payload (response s)))
                  ++ drop (S (Z.to_nat copied)) (response_buffer s) in
  exists s',
    smbus_block_read s SSIF_IPMI_MULTI_PART_RESPONSE_MIDDLE
    = Some (s', 32, chunk)
    /\ response_buffer s' = chunk
    /\ remain_data_len s' = remain_data_len s - 31
    /\ num_bytes_processed s' = u8 (num_bytes_processed s + copied)
    /\ block_num s' = bn
    /\ middle_start_response s' = false
    /\ response s' = response s
    /\ is_multi_part s' = true
    /\ response_in_progress s' = response_in_progress s
    /\ wait_queue s' = wait_queue s.
Proof.
  intros Hm Hbuf Hr Hn copied Hp bn Hbn chunk.
  set (data := take (Z.to_nat copied)
                 (drop (Z.to_nat (1 + num_bytes_processed s))
                    (payload (response s)))) in *.
  assert (Hcop : 0 <= copied <= 31) by (unfold copied; lia).
  assert (Hdata : length data = Z.to_nat copied)
    by (unfold data; rewrite length_take, length_drop; lia).
  assert (Hchunk : length chunk = 32%nat).
  { unfold chunk. cbn [length]. rewrite length_app, length_drop, Hdata. lia. }
  unfold smbus_block_read. rewrite smbus_write_command_only.
  cbn [ssif_bmc_cb]. unfold event_request_read.
  cbn [is_multi_part with_msg_idx with_smbus_cmd smbus_cmd remain_data_len].
  rewrite Hm.
  cbn [negb Z.eqb Pos.eqb SSIF_IPMI_RESPONSE
       SSIF_IPMI_MULTI_PART_RESPONSE_MIDDLE].
  replace (remain_data_len s <=? MAX_IPMI_DATA_PER_MIDDLE_TRANSACTION)
    with false by (symmetry; apply Z.leb_gt; apply Hr).
  match goal with
  | |- context [set_response_buffer ?x] => set (sd := x)
  end.
  assert (Hsd : smbus_cmd sd = SSIF_IPMI_MULTI_PART_RESPONSE_MIDDLE
                /\ response_buffer sd = response_buffer s
                /\ response sd = response s
                /\ remain_data_len sd = remain_data_len s - 31
                /\ num_bytes_processed sd = num_bytes_processed s
                /\ block_num sd = bn
                /\ middle_start_response sd = false
                /\ is_multi_part sd = true
                /\ response_in_progress sd = response_in_progress s
                /\ wait_queue sd = wait_queue s
                /\ msg_idx sd = 0).
  { unfold sd, bn, MAX_IPMI_DATA_PER_MIDDLE_TRANSACTION.
    cbn [middle_start_response with_msg_idx with_smbus_cmd].
    destruct (middle_start_response s) eqn:Hmsr; cbn [negb];
      cbn [smbus_cmd response_buffer response remain_data_len
           num_bytes_processed block_num middle_start_response is_multi_part
           response_in_progress wait_queue msg_idx with_remain_data_len
           with_block_num with_middle_start_response with_msg_idx
           with_smbus_cmd];
      rewrite (u8_small (remain_data_len s - 31)) by lia;
      repeat split; assumption. }
  destruct Hsd as (D1 & D2 & D3 & D4 & D5 & D6 & D7 & D8 & D9 & D10 & D11).
  assert (Hrdl : (if remain_data_len sd
                     <? MAX_IPMI_DATA_PER_MIDDLE_TRANSACTION
                  then remain_data_len sd
                  else MAX_IPMI_DATA_PER_MIDDLE_TRANSACTION) = copied).
  { rewrite D4. unfold MAX_IPMI_DATA_PER_MIDDLE_TRANSACTION, copied.
    destruct (Z.ltb_spec (remain_data_len s - 31) 31); lia. }
  rewrite (set_response_buffer_middle sd);
    rewrite ?Hrdl, ?D2, ?D3, ?D5; try assumption; try lia.
  rewrite D6. fold data. fold chunk.
  set (se := with_num_bytes_processed (with_response_buffer sd chunk) _).
  change (Z.to_nat MAX_PAYLOAD_PER_TRANSACTION) with 32%nat.
  rewrite (multi_part_run 32 se 0);
    [ | exact D8
      | unfold chunk_command; cbn [se smbus_cmd with_num_bytes_processed
          with_response_buffer]; rewrite D1; reflexivity
      | exact D11
      | cbn [se response_buffer with_num_bytes_processed
             with_response_buffer]; lia
      | cbn [se response_buffer with_num_bytes_processed
             with_response_buffer]; lia
      | left; cbn [se block_num with_num_bytes_processed
                   with_response_buffer]; rewrite D6; exact Hbn ].
  cbn [ssif_bmc_cb]. eexists. split.
  - do 2 f_equal.
    cbn [se response_buffer with_num_bytes_processed with_response_buffer].
    cbn [drop]. rewrite <- Hchunk. apply firstn_all.
  - cbn [se response is_multi_part response_in_progress response_buffer
         remain_data_len num_bytes_processed block_num wait_queue
         middle_start_response
         with_msg_idx with_num_bytes_processed with_response_buffer].
    rewrite D3, D4, D6, D7, D8, D9, D10. repeat split.
Qed.




(** X15: a Middle transaction that leaves at least 31 bytes is complete.
    With more than 61 bytes remaining the master gets the byte count 32, a
    block number (0 on the first Middle chunk, the previous one plus 1
    afterwards) and the next 31 payload bytes; the remainder goes down by
    31, the payload offset up by 31, and the response stays in progress. *)
Theorem X15_middle_chunk_full (s : ssif_bmc) :
  is_multi_part s = true ->
  length (response_buffer s) = 32%nat ->
  wf_msg (response s) ->
  62 <= remain_data_len s <= 255 ->
  0 <= num_bytes_processed s <= 220 ->
  let bn := if middle_start_response s then 0 else u8 (block_num s + 1) in
  bn <> 0xFF ->
  exists s',
    smbus_block_read s SSIF_IPMI_MULTI_PART_RESPONSE_MIDDLE
    = Some (s', 32,
            bn :: take 31 (drop (Z.to_nat (1 + num_bytes_processed s))
                             (payload (response s))))
    /\ remain_data_len s' = remain_data_len s - 31
    /\ num_bytes_processed s' = num_bytes_processed s + 31
    /\ block_num s' = bn
    /\ middle_start_response s' = false
    /\ response_in_progress s' = response_in_progress s
    /\ wait_queue s' = wait_queue s.
Proof.
  intros Hm Hbuf Hwf Hr Hn bn Hbn.
  assert (Hpl : length (payload (response s)) = 252%nat) by exact Hwf.
  destruct (block_read_middle s) as (s' & Hread & _ & H3 & H4 & H5 & H6 & _
                                       & _ & H9 & H10);
    try assumption; try lia.
  replace (Z.min (remain_data_len s - 31) 31) with 31 in Hread, H4 by lia.
  change (Z.to_nat 31) with 31%nat in Hread.
  rewrite (drop_ge (response_buffer s)), app_nil_r in Hread by lia.
  rewrite u8_small in H4 by lia.
  exists s'. repeat split; assumption.
Qed.

Lemma X15_middle_chunk_full_witness :
  let s := with_num_bytes_processed
             (with_remain_data_len
                (with_middle_start_response
                   (with_is_multi_part
                      (with_response (ssif_bmc_probe bus0) (sample_msg 123))
                      true) true) 93) 27 in
  exists s',
    smbus_block_read s SSIF_IPMI_MULTI_PART_RESPONSE_MIDDLE
    = Some (s', 32, 0 :: take 31 (drop 28 (payload (sample_msg 123))))
    /\ remain_data_len s' = 62
    /\ num_bytes_processed s' = 58.
Proof.
  intros s.
  destruct (X15_middle_chunk_full s) as (s' & H1 & H2 & H3 & _).
  - reflexivity.
  - reflexivity.
  - reflexivity.
  - cbn [s remain_data_len with_num_bytes_processed with_remain_data_len].
    lia.
  - cbn [s num_bytes_processed with_num_bytes_processed]. lia.
  - cbn [s middle_start_response with_num_bytes_processed
         with_remain_data_len with_middle_start_response]. discriminate.
  - exists s'. split; [exact H1|]. split; [exact H2 | exact H3].
Defined.

(** X16: a Middle transaction that leaves fewer than 31 bytes is cut
    short.  With between 32 and 61 bytes remaining the master still gets
    the byte count 32, but only [remaining - 31] payload bytes follow the
    block number; the rest of the chunk is what the previous chunk left in
    the buffer, and the payload offset advances by [remaining - 31] only.
    The End transaction that follows sends the next [remaining - 31]
    bytes from that offset and completes the response, so the last
    [62 - remaining] bytes of the message are never sent. *)
Theorem X16_middle_chunk_short (s : ssif_bmc) :
  is_multi_part s = true ->
  length (response_buffer s) = 32%nat ->
  wf_msg (response s) ->
  31 < remain_data_len s < 62 ->
  0 <= num_bytes_processed s <= 190 ->
  let bn := if middle_start_response s then 0 else u8 (block_num s + 1) in
  bn <> 0xFF ->
  let copied := remain_data_len s - 31 in
  let off := 1 + num_bytes_processed s in
  exists s1 s2,
    smbus_block_read s SSIF_IPMI_MULTI_PART_RESPONSE_MIDDLE
    = Some (s1, 32,
            bn :: take (Z.to_nat copied)
                    (drop (Z.to_nat off) (payload (response s)))
               ++ drop (S (Z.to_nat copied)) (response_buffer s))
    /\ remain_data_len s1 = copied
    /\ num_bytes_processed s1 = num_bytes_processed s + copied
    /\ smbus_block_read s1 SSIF_IPMI_MULTI_PART_RESPONSE_MIDDLE
       = Some (s2, copied + 1,
               0xFF :: take (Z.to_nat copied)
                         (drop (Z.to_nat (off + copied))
                            (payload (response s))))
    /\ response_in_progress s2 = false.
Proof.
  intros Hm Hbuf Hwf Hr Hn bn Hbn copied off.
  assert (Hpl : length (payload (response s)) = 252%nat) by exact Hwf.
  destruct (block_read_middle s)
    as (s1 & Hread & B2 & B3 & B4 & _ & _ & B7 & B8 & _ & _);
    try assumption; try lia.
  replace (Z.min (remain_data_len s - 31) 31) with copied in Hread, B2, B4
    by (unfold copied; lia).
  rewrite u8_small in B4 by (unfold copied; lia).
  fold bn in Hread, B2. fold off in Hread, B2.
  destruct (block_read_end s1) as (s2 & Hend & Hdone & _).
  - exact B8.
  - rewrite B2. cbn [length].
    rewrite length_app, length_take, !length_drop. unfold off, copied. lia.
  - rewrite B3. fold copied. unfold copied. lia.
  - rewrite B4. unfold copied. lia.
  - rewrite B3, B4, B7, Hpl. unfold copied. lia.
  - rewrite B3, B4, B7 in Hend. fold copied in Hend.
    replace (1 + (num_bytes_processed s + copied)) with (off + copied)
      in Hend by (unfold off; lia).
    exists s1, s2. repeat split; assumption.
Qed.

Lemma X16_middle_chunk_short_witness :
  let s := with_num_bytes_processed
             (with_remain_data_len
                (with_middle_start_response
                   (with_is_multi_part
                      (with_response (ssif_bmc_probe bus0) (sample_msg 70))
                      true) true) 40) 27 in
  exists s1 s2,
    smbus_block_read s SSIF_IPMI_MULTI_PART_RESPONSE_MIDDLE
    = Some (s1, 32,
            0 :: take 9 (drop 28 (payload (sample_msg 70)))
              ++ drop 10 (response_buffer s))
    /\ smbus_block_read s1 SSIF_IPMI_MULTI_PART_RESPONSE_MIDDLE
       = Some (s2, 10, 0xFF :: take 9 (drop 37 (payload (sample_msg 70))))
    /\ response_in_progress s2 = false.
Proof.
  intros s.
  destruct (X16_middle_chunk_short s) as (s1 & s2 & H1 & _ & _ & H4 & H5).
  - reflexivity.
  - reflexivity.
  - reflexivity.
  - cbn [s remain_data_len with_num_bytes_processed with_remain_data_len].
    lia.
  - cbn [s num_bytes_processed with_num_bytes_processed]. lia.
  - cbn [s middle_start_response with_num_bytes_processed
         with_remain_data_len with_middle_start_response]. discriminate.
  - exists s1, s2. split; [exact H1|]. split; [exact H4 | exact H5].
Defined.

(** X17: the Start transaction does not restart the payload offset.  When
    the master reads the Start chunk of a response with a length field in
    [33, 61] twice, both reads deliver the same Start chunk, but the End
    chunk that follows resumes at payload byte 55 instead of 28. *)
Theorem X17_start_read_twice (s : ssif_bmc) :
  is_multi_part s = true ->
  length (response_buffer s) = 32%nat ->
  wf_msg (response s) ->
  33 <= len (response s) <= 61 ->
  num_bytes_processed s = 0 ->
  let m := response s in
  let start := 0x00 :: 0x01 :: netfn_lun m :: cmd m :: take 28 (payload m) in
  exists s1 s2 s3,
    smbus_block_read s SSIF_IPMI_RESPONSE = Some (s1, 32, start)
    /\ smbus_block_read s1 SSIF_IPMI_RESPONSE = Some (s2, 32, start)
    /\ num_bytes_processed s1 = 27
    /\ num_bytes_processed s2 = 54
    /\ smbus_block_read s2 SSIF_IPMI_MULTI_PART_RESPONSE_MIDDLE
       = Some (s3, len m - 30 + 1,
               0xFF :: take (Z.to_nat (len m - 30)) (drop 55 (payload m)))
    /\ response_in_progress s3 = false.
Proof.
  intros Hm Hbuf Hwf Hl Hn m start. subst m start.
  assert (Hpl : length (payload (response s)) = 252%nat) by exact Hwf.
  destruct (block_read_start s Hm Hbuf Hwf)
    as (s1 & Hr1 & A1 & A2 & _ & A4 & A5 & A6 & _ & _).
  rewrite Hn, u8_small in A6 by lia.
  assert (Hbuf1 : length (response_buffer s1) = 32%nat)
    by (rewrite A4; cbn [length]; rewrite length_take; lia).
  assert (Hwf1 : wf_msg (response s1)) by (rewrite A1; exact Hwf).
  destruct (block_read_start s1 A2 Hbuf1 Hwf1)
    as (s2 & Hr2 & B1 & B2 & _ & B4 & B5 & B6 & _ & _).
  rewrite A6, u8_small in B6 by lia.
  rewrite A1 in Hr2, B1, B4, B5. rewrite u8_small in B5 by lia.
  destruct (block_read_end s2) as (s3 & Hend & Hdone & _).
  - exact B2.
  - rewrite B4. cbn [length]. rewrite length_take. lia.
  - lia.
  - lia.
  - rewrite B1, B5, B6, Hpl. lia.
  - rewrite B1, B5, B6 in Hend.
    change (Z.to_nat (1 + (27 + 27))) with 55%nat in Hend.
    exists s1, s2, s3. repeat split; assumption.
Qed.

Lemma X17_start_read_twice_witness :
  let s := snd (send_ssif_bmc_response (ssif_bmc_probe bus0) true false
                  (sample_msg 39)) in
  exists s1 s2 s3,
    smbus_block_read s SSIF_IPMI_RESPONSE
    = Some (s1, 32, 0 :: 1 :: 0x1c :: 0x42 :: take 28 (payload (sample_msg 39)))
    /\ smbus_block_read s1 SSIF_IPMI_RESPONSE
       = Some (s2, 32,
               0 :: 1 :: 0x1c :: 0x42 :: take 28 (payload (sample_msg 39)))
    /\ smbus_block_read s2 SSIF_IPMI_MULTI_PART_RESPONSE_MIDDLE
       = Some (s3, 10, 0xFF :: take 9 (drop 55 (payload (sample_msg 39)))).
Proof.
  intros s.
  destruct (X17_start_read_twice s)
    as (s1 & s2 & s3 & H1 & H2 & _ & _ & H5 & _).
  - reflexivity.
  - reflexivity.
  - reflexivity.
  - change (33 <= 39 <= 61). lia.
  - reflexivity.
  - exists s1, s2, s3. split; [exact H1|]. split; [exact H2 | exact H5].
Defined.

(** ** Reads that are cut off, and requests that overtake a response *)

(** X18: a single-part read that the master abandons can be repeated.
    When the master stops after the byte count and [n] further bytes, with
    the message not yet sent in full, nothing but the cursor has moved: the
    next read starts at the byte count again, delivers the whole message
    and completes the response. *)
Theorem X18_single_part_read_retry (s : ssif_bmc) (val : Z) (n : nat) :
  is_multi_part s = false ->
  wf_msg (response s) ->
  1 <= len (response s) <= 254 ->
  Z.of_nat n < len (response s) ->
  run s ((I2C_SLAVE_READ_REQUESTED, val) :: read_processed n)
  = Some (with_msg_idx s (Z.of_nat n),
          take (S n) (msg_bytes (response s)))
  /\ run s (((I2C_SLAVE_READ_REQUESTED, val) :: read_processed n)
            ++ (I2C_SLAVE_STOP, val)
            :: (I2C_SLAVE_READ_REQUESTED, val)
            :: read_processed (Z.to_nat (len (response s))))
     = Some (complete_response (with_msg_idx s (len (response s))),
             take (S n) (msg_bytes (response s))
             ++ take (Z.to_nat (len (response s) + 1))
                  (msg_bytes (response s))).
Proof.
  intros Hm Hwf Hl Hn.
  assert (Hpre := single_part_prefix s val n Hm Hwf Hl Hn).
  split; [exact Hpre|].
  rewrite run_app, Hpre.
  change (run (with_msg_idx s (Z.of_nat n))
            ((I2C_SLAVE_STOP, val)
               :: (I2C_SLAVE_READ_REQUESTED, val)
               :: read_processed (Z.to_nat (len (response s)))))
    with (do '(s2, os) <-
            run (with_msg_idx s 0)
              ((I2C_SLAVE_READ_REQUESTED, val)
                 :: read_processed
                      (Z.to_nat (len (response (with_msg_idx s 0))))) ;
          Some (s2, emitted I2C_SLAVE_STOP val ++ os)).
  rewrite single_part_full by assumption.
  reflexivity.
Qed.

Lemma X18_single_part_read_retry_witness :
  let s := snd (send_ssif_bmc_response (ssif_bmc_probe bus0) true false
                  (sample_msg 3)) in
  exists s',
    run s (((I2C_SLAVE_READ_REQUESTED, 0) :: read_processed 1)
           ++ (I2C_SLAVE_STOP, 0)
           :: (I2C_SLAVE_READ_REQUESTED, 0) :: read_processed 3)
    = Some (s', [3; 0x1c] ++ [3; 0x1c; 0x42; 0])
    /\ response_in_progress s' = false.
Proof.
  intros s.
  destruct (X18_single_part_read_retry s 0 1) as [_ H].
  - reflexivity.
  - reflexivity.
  - change (1 <= 3 <= 254). lia.
  - change (Z.of_nat 1 < 3). lia.
  - eexists. split; [exact H | reflexivity].
Defined.





